(** * Admission validators of DANM network manifests

    Shallow embedding of [pkg/netadmit/validators.go] together with the
    parts of Go's [net] and [encoding/binary] packages and of DANM's
    [pkg/ipam] that the validators call.

    Conventions.
    - A Go [string] is a byte sequence: [string] of the Standard Library.
    - A Go byte slice ([net.IP], [net.IPMask]) is a [list Z] of values in
      [0, 256); the nil slice is [[]] (no validator builds an empty slice
      that is not nil and then tests it against nil).
    - [uint32] values are [Z] with the wrap-around written as [mod 2^32].
    - A Go [map[string]string] that may be nil is an [option] of the
      list of its entries, in the order in which [range] visits them in
      the run at hand; theorems quantify over every such order.
    - A run-time panic is an outcome of its own, next to a returned
      [error] and a returned [nil]. *)

From Stdlib Require Import ZArith String Ascii Bool Lia List Permutation.
Import ListNotations.
Local Open Scope string_scope.
Local Open Scope list_scope.
Local Open Scope Z_scope.

(** ** Strings as Go uses them *)

(** [s[n:]] for [n <= len(s)]. *)
Fixpoint string_drop (n : nat) (s : string) : string :=
  match n, s with
  | O, _ => s
  | S n', String _ s' => string_drop n' s'
  | S _, EmptyString => EmptyString
  end.

(** [s[:n]] for [n <= len(s)]. *)
Fixpoint string_take (n : nat) (s : string) : string :=
  match n, s with
  | O, _ => EmptyString
  | S n', String c s' => String c (string_take n' s')
  | S _, EmptyString => EmptyString
  end.

(** [s == ""] *)
Definition is_empty (s : string) : bool :=
  match s with EmptyString => true | String _ _ => false end.

(** The byte value of a character. *)
Definition code (c : ascii) : Z := Z.of_nat (nat_of_ascii c).

(** [lo <= c && c <= hi] on bytes. *)
Definition between (lo hi c : ascii) : bool :=
  (code lo <=? code c) && (code c <=? code hi).

(** [s[0] == c], false on the empty string. *)
Definition starts_with (c : ascii) (s : string) : bool :=
  match s with
  | String x _ => Ascii.eqb x c
  | EmptyString => false
  end.

(** [bytealg.IndexByteString]: index of the first [c] in [s]. *)
Fixpoint IndexByteString (s : string) (c : ascii) : option nat :=
  match s with
  | EmptyString => None
  | String x s' =>
      if Ascii.eqb x c then Some O
      else option_map S (IndexByteString s' c)
  end.

(** ** Package [encoding/binary], big-endian 32-bit access *)

Module binary.

(** [binary.BigEndian.Uint32(b)]; [None] is the index-out-of-range panic
    of a slice shorter than four bytes. *)
Definition BigEndian_Uint32 (b : list Z) : option Z :=
  match b with
  | b0 :: b1 :: b2 :: b3 :: _ =>
      Some (Z.lor (Z.lor (Z.lor b3 (Z.shiftl b2 8)) (Z.shiftl b1 16))
                  (Z.shiftl b0 24))
  | _ => None
  end.

(** [binary.BigEndian.PutUint32(b, v)]; [None] is the panic of a slice
    shorter than four bytes. *)
Definition BigEndian_PutUint32 (b : list Z) (v : Z) : option (list Z) :=
  match b with
  | _ :: _ :: _ :: _ :: rest =>
      Some (Z.land (Z.shiftr v 24) 255 :: Z.land (Z.shiftr v 16) 255
            :: Z.land (Z.shiftr v 8) 255 :: Z.land v 255 :: rest)
  | _ => None
  end.

End binary.

(** ** Package [net]: addresses, masks, parsing and containment *)

Module net.

Definition IP := list Z.
Definition IPMask := list Z.

Record IPNet := mkIPNet { IPNet_IP : IP; IPNet_Mask : IPMask }.

Definition IPv4len : nat := 4.
Definition IPv6len : nat := 16.

Definition v4InV6Prefix : list Z := [0; 0; 0; 0; 0; 0; 0; 0; 0; 0; 255; 255].

(** [net.IPv4(a, b, c, d)]: the 16-byte form of an IPv4 address. *)
Definition IPv4 (a b c d : Z) : IP := v4InV6Prefix ++ [a; b; c; d].

(** [p == nil] *)
Definition is_nil (p : list Z) : bool :=
  match p with [] => true | _ :: _ => false end.

Definition isZeros (p : list Z) : bool := forallb (Z.eqb 0) p.

Definition allFF (p : list Z) : bool := forallb (Z.eqb 255) p.

Definition bytesEqual (a b : list Z) : bool :=
  (length a =? length b)%nat
  && forallb (fun xy => fst xy =? snd xy) (combine a b).

(** [ip.To4()]: the 4-byte form, or nil when [ip] is not an IPv4
    address. *)
Definition To4 (ip : IP) : IP :=
  if (length ip =? IPv4len)%nat then ip
  else if (length ip =? IPv6len)%nat
          && isZeros (firstn 10 ip)
          && (nth 10 ip 0 =? 255) && (nth 11 ip 0 =? 255)
       then skipn 12 ip
       else [].

Definition big : Z := 16777215.

(** The loop of [dtoi]: [n] is the value so far, [i] the number of bytes
    consumed. *)
Fixpoint dtoi_loop (s : string) (n : Z) (i : nat) : Z * nat * bool :=
  match s with
  | String c s' =>
      if between "0" "9" c then
        let n' := n * 10 + (code c - code "0") in
        if big <=? n' then (big, i, false)
        else dtoi_loop s' n' (S i)
      else if (i =? 0)%nat then (0, O, false) else (n, i, true)
  | EmptyString => if (i =? 0)%nat then (0, O, false) else (n, i, true)
  end.

(** [dtoi(s)]: decimal to integer; number, bytes consumed, success. *)
Definition dtoi (s : string) : Z * nat * bool := dtoi_loop s 0 O.

(** The value of a hexadecimal digit, if [c] is one. *)
Definition xdigit (c : ascii) : option Z :=
  if between "0" "9" c then Some (code c - code "0")
  else if between "a" "f" c then Some (code c - code "a" + 10)
  else if between "A" "F" c then Some (code c - code "A" + 10)
  else None.

Fixpoint xtoi_loop (s : string) (n : Z) (i : nat) : Z * nat * bool :=
  match s with
  | String c s' =>
      match xdigit c with
      | Some d =>
          let n' := n * 16 + d in
          if big <=? n' then (0, i, false)
          else xtoi_loop s' n' (S i)
      | None => if (i =? 0)%nat then (0, i, false) else (n, i, true)
      end
  | EmptyString => if (i =? 0)%nat then (0, i, false) else (n, i, true)
  end.

(** [xtoi(s)]: hexadecimal to integer; number, bytes consumed, success. *)
Definition xtoi (s : string) : Z * nat * bool := xtoi_loop s 0 O.

(** The loop of [parseIPv4] over the [k] octets still to read; [first]
    holds in the first round ([i == 0]), [p] collects the octets. [None]
    is the [return nil] of the loop. *)
Fixpoint parseIPv4_loop (k : nat) (first : bool) (s : string) (p : list Z)
  : option (string * list Z) :=
  match k with
  | O => Some (s, p)
  | S k' =>
      if is_empty s then None
      else
        if negb first && negb (starts_with "." s) then None
        else
          let s1 := if first then s else string_drop 1 s in
          let '(n, c, ok) := dtoi s1 in
          if negb ok || (255 <? n) then None
          else if (1 <? c)%nat && starts_with "0" s1 then None
               else parseIPv4_loop k' false (string_drop c s1) (p ++ [n])
  end.

(** [parseIPv4(s)]: dotted decimal, four octets, nothing after them. *)
Definition parseIPv4 (s : string) : IP :=
  match parseIPv4_loop 4 true s [] with
  | Some (EmptyString, [a; b; c; d]) => IPv4 a b c d
  | _ => []
  end.

(** How one round of the [parseIPv6] loop ends. *)
Inductive v6step :=
| V6Fail                                     (* return nil *)
| V6Break (s : string) (ip : list Z) (ellipsis : option nat)
| V6Next (s : string) (ip : list Z) (ellipsis : option nat).

(** One round of the loop of [parseIPv6]. [ip] holds the bytes written so
    far, so the index [i] of the source is [length ip]; [ellipsis] is
    [None] for the source's [-1]. *)
Definition parseIPv6_step (s : string) (ip : list Z) (ellipsis : option nat)
  : v6step :=
  let i := length ip in
  let '(n, c, ok) := xtoi s in
  if negb ok || (65535 <? n) then V6Fail
  else if starts_with "." (string_drop c s) then
    (* a trailing IPv4 address *)
    if (match ellipsis with None => true | Some _ => false end)
       && negb (i =? IPv6len - IPv4len)%nat then V6Fail
    else if (IPv6len <? i + IPv4len)%nat then V6Fail
    else
      let ip4 := parseIPv4 s in
      if is_nil ip4 then V6Fail
      else V6Break EmptyString (ip ++ skipn 12 ip4) ellipsis
  else
    let ip' := ip ++ [Z.land (Z.shiftr n 8) 255; Z.land n 255] in
    let s1 := string_drop c s in
    if is_empty s1 then V6Break s1 ip' ellipsis
    else if negb (starts_with ":" s1) || (String.length s1 =? 1)%nat
    then V6Fail
    else
      let s2 := string_drop 1 s1 in
      if starts_with ":" s2 then
        match ellipsis with
        | Some _ => V6Fail
        | None =>
            let s3 := string_drop 1 s2 in
            if is_empty s3 then V6Break s3 ip' (Some (length ip'))
            else V6Next s3 ip' (Some (length ip'))
        end
      else V6Next s2 ip' ellipsis.

(** The loop [for i < IPv6len] of [parseIPv6], over the [k] two-byte
    groups that still fit. The result is the state at the exit of the
    loop. *)
Fixpoint parseIPv6_loop (k : nat) (s : string) (ip : list Z)
  (ellipsis : option nat) : option (string * list Z * option nat) :=
  match k with
  | O => Some (s, ip, ellipsis)
  | S k' =>
      match parseIPv6_step s ip ellipsis with
      | V6Fail => None
      | V6Break s' ip' e' => Some (s', ip', e')
      | V6Next s' ip' e' => parseIPv6_loop k' s' ip' e'
      end
  end.

(** What follows the loop of [parseIPv6]: the whole string must be used,
    and an ellipsis is expanded to the missing zero bytes. *)
Definition parseIPv6_finish (st : string * list Z * option nat) : IP :=
  let '(s, ip, ellipsis) := st in
  if negb (is_empty s) then []
  else if (length ip <? IPv6len)%nat then
    match ellipsis with
    | None => []
    | Some e =>
        firstn e ip ++ repeat 0 (IPv6len - length ip) ++ skipn e ip
    end
  else match ellipsis with
       | Some _ => []
       | None => ip
       end.

(** [parseIPv6(s)]: RFC 4291 text form, without zone. *)
Definition parseIPv6 (s : string) : IP :=
  let leading :=
    (2 <=? String.length s)%nat
    && starts_with ":" s && starts_with ":" (string_drop 1 s) in
  let s := if leading then string_drop 2 s else s in
  if leading && is_empty s then repeat 0 IPv6len
  else
    match parseIPv6_loop 8 s [] (if leading then Some O else None) with
    | None => []
    | Some st => parseIPv6_finish st
    end.

(** [net.ParseIP(s)]: the first ['.'] or [':'] decides the form; nil when
    [s] is not an address. *)
Fixpoint ParseIP_scan (whole rest : string) : IP :=
  match rest with
  | EmptyString => []
  | String c rest' =>
      if Ascii.eqb c "." then parseIPv4 whole
      else if Ascii.eqb c ":" then parseIPv6 whole
      else ParseIP_scan whole rest'
  end.

Definition ParseIP (s : string) : IP := ParseIP_scan s s.

(** [net.CIDRMask(ones, bits)] for [0 <= ones <= bits], as a loop over
    the [l] bytes of the mask. *)
Fixpoint CIDRMask_loop (l : nat) (n : Z) : IPMask :=
  match l with
  | O => []
  | S l' =>
      if 8 <=? n then 255 :: CIDRMask_loop l' (n - 8)
      else Z.lxor (Z.shiftr 255 n) 255 :: CIDRMask_loop l' 0
  end.

Definition CIDRMask (ones : Z) (bits : nat) : IPMask :=
  if negb (bits =? 8 * IPv4len)%nat && negb (bits =? 8 * IPv6len)%nat
  then []
  else if (ones <? 0) || (Z.of_nat bits <? ones) then []
  else CIDRMask_loop (bits / 8) ones.

(** [ip.Mask(mask)] *)
Definition Mask (ip : IP) (mask : IPMask) : IP :=
  let mask :=
    if (length mask =? IPv6len)%nat && (length ip =? IPv4len)%nat
       && allFF (firstn 12 mask)
    then skipn 12 mask else mask in
  let ip :=
    if (length mask =? IPv4len)%nat && (length ip =? IPv6len)%nat
       && bytesEqual (firstn 12 ip) v4InV6Prefix
    then skipn 12 ip else ip in
  if negb (length ip =? length mask)%nat then []
  else map (fun xy => Z.land (fst xy) (snd xy)) (combine ip mask).

(** [net.ParseCIDR(s)], its [*IPNet] result; [None] is the parse
    error. *)
Definition ParseCIDR (s : string) : option IPNet :=
  match IndexByteString s "/" with
  | None => None
  | Some i =>
      let addr := string_take i s in
      let mask := string_drop (S i) s in
      let ip4 := parseIPv4 addr in
      let iplen := if is_nil ip4 then IPv6len else IPv4len in
      let ip := if is_nil ip4 then parseIPv6 addr else ip4 in
      let '(n, j, ok) := dtoi mask in
      if is_nil ip || negb ok || negb (j =? String.length mask)%nat
         || (n <? 0) || (Z.of_nat (8 * iplen) <? n)
      then None
      else
        let m := CIDRMask n (8 * iplen) in
        Some (mkIPNet (Mask ip m) m)
  end.

(** [networkNumberAndMask(n)] *)
Definition networkNumberAndMask (n : IPNet) : IP * IPMask :=
  let ip4 := To4 (IPNet_IP n) in
  let ip := if is_nil ip4 then IPNet_IP n else ip4 in
  if is_nil ip4 && negb (length ip =? IPv6len)%nat then ([], [])
  else
    let m := IPNet_Mask n in
    if (length m =? IPv4len)%nat then
      if negb (length ip =? IPv4len)%nat then ([], []) else (ip, m)
    else if (length m =? IPv6len)%nat then
      if (length ip =? IPv4len)%nat then (ip, skipn 12 m) else (ip, m)
    else ([], []).

(** [n.Contains(ip)]. The source indexes [nn], [m] and [ip] from [0] to
    [len(ip) - 1]; [networkNumberAndMask] returns [nn] and [m] of one
    length, so no index is out of range. *)
Definition Contains (n : IPNet) (ip : IP) : bool :=
  let '(nn, m) := networkNumberAndMask n in
  let x := To4 ip in
  let ip := if is_nil x then ip else x in
  let l := length ip in
  if negb (l =? length nn)%nat then false
  else
    forallb
      (fun i => Z.land (nth i nn 0) (nth i m 0)
                =? Z.land (nth i ip 0) (nth i m 0))
      (seq 0 l).

(** The loop of [uitoa], from the last digit to the first. *)
Fixpoint uitoa_loop (fuel : nat) (val : Z) (buf : string) : string :=
  match fuel with
  | O => buf
  | S fuel' =>
      if 10 <=? val
      then uitoa_loop fuel' (val / 10)
             (String (ascii_of_nat (Z.to_nat (code "0" + val mod 10))) buf)
      else String (ascii_of_nat (Z.to_nat (code "0" + val))) buf
  end.

(** [uitoa(val)]: the decimal form of an unsigned number (at most 20
    digits, the size of the source's buffer). *)
Definition uitoa (val : Z) : string :=
  if val =? 0 then "0" else uitoa_loop 20 val "".

(** [ip.String()]. The validators call it on results of [ipam.Int2ip]
    only, which are 4 bytes long; the IPv6 text form and the form of a
    slice of any other length are not embedded and stand as ["?"]. *)
Definition IP_String (ip : IP) : string :=
  if (length ip =? 0)%nat then "<nil>"
  else
    match To4 ip with
    | [a; b; c; d] =>
        (uitoa a ++ "." ++ uitoa b ++ "." ++ uitoa c ++ "." ++ uitoa d)%string
    | _ => "?"
    end.

End net.

(** ** Package [ipam]: addresses as 32-bit numbers *)

Module ipam.

(** Modelled from the spec: [pkg/ipam] is not among the sources at hand;
    the spec names its two functions as the pure [ip-to-int] and
    [int-to-ip] conversions between an address and its [uint32] value.
    [Ip2int] reads the last four bytes of a 16-byte address and the first
    four of any other; [None] is the panic of [binary.BigEndian.Uint32]
    on a slice shorter than four bytes (a nil address). *)
Definition Ip2int (ip : net.IP) : option Z :=
  if (length ip =? 16)%nat then binary.BigEndian_Uint32 (skipn 12 ip)
  else binary.BigEndian_Uint32 ip.

(** Modelled from the spec: [int-to-ip], the 4-byte address of a
    [uint32]. *)
Definition Int2ip (nn : Z) : net.IP :=
  match binary.BigEndian_PutUint32 (repeat 0 4) nn with
  | Some ip => ip
  | None => []
  end.

End ipam.

(** ** Package [netadmit]: the validators *)

Module netadmit.

Import net.

(** *** The manifest, [danmtypes.DanmNet], as far as the validators read
    or write it *)

Record IpPool := mkIpPool { Start : string; End_ : string }.

Record DanmNetOption := mkDanmNetOption {
  Device : string;
  Cidr : string;
  Net6 : string;
  Routes : option (list (string * string));
  Routes6 : option (list (string * string));
  Pool : IpPool;
  Alloc : string;
  Vlan : Z;
  Vxlan : Z
}.

Record DanmNetSpec := mkDanmNetSpec {
  NetworkID : string;
  Options : DanmNetOption;
  AllowedTenants : option (list string)
}.

Record DanmNet := mkDanmNet { Spec : DanmNetSpec }.

(** [admissionv1.Operation] is a string type. *)
Definition Operation := string.
Definition Create : Operation := "CREATE".
Definition Update : Operation := "UPDATE".
Definition Delete : Operation := "DELETE".
Definition Connect : Operation := "CONNECT".

(** *** Errors: [errors.New(msg)], and the messages of the validators
    under the names the specification gives them *)

Inductive error := errors_New (msg : string).

Definition RoutesWithoutCidrError : error :=
  errors_New "IP routes cannot be defined for a L2 network".
Definition InvalidCidrError (cidr : string) : error :=
  errors_New ("Invalid CIDR: " ++ cidr).
Definition GatewayOutsideCidrError (gw cidr : string) : error :=
  errors_New ("Specified GW address:" ++ gw ++ " is not part of CIDR:" ++ cidr).
Definition AllocPresetOnCreateError : error :=
  errors_New "Allocation bitmask shall not be manually defined upon creation!".
Definition PoolWithoutCidrError : error :=
  errors_New "Allocation pool cannot be defined without CIDR!".
Definition PoolInvalidCidrError (cidr : string) : error :=
  errors_New ("Invalid CIDR parameter: " ++ cidr).
Definition PoolOutsideCidrError : error :=
  errors_New "Allocation pool is outside of defined CIDR".
Definition PoolInvertedError (start end_ : string) : error :=
  errors_New ("Allocation pool start:" ++ start
              ++ " is bigger than or equal to allocation pool end:" ++ end_).
Definition VlanVxlanConflictError : error :=
  errors_New "VLAN ID and VxLAN ID parameters are mutually exclusive".
Definition MissingNetworkIdError : error :=
  errors_New "Spec.NetworkID mandatory parameter is missing!".
Definition NetworkIdTooLongError : error :=
  errors_New "Spec.NetworkID cannot be longer than 12 characters (otherwise VLAN and VxLAN host interface creation might fail)!".
Definition AllowedTenantsNotPermittedError : error :=
  errors_New "AllowedTenants attribute is only valid for the ClusterNetwork API!".
Definition ManualDeviceOrTagOnCreateError : error :=
  errors_New "Manually configuring any one of host_device, vlan, or vxlan attributes is not allowed for TenantNetworks!".
Definition ManualDeviceOrTagOnUpdateError : error :=
  errors_New "Manually changing any one of host_device, vlan, or vxlan attributes is not allowed for TenantNetworks!".

(** *** The two manifests behind the pointers, and validators as
    computations over them *)

(** What [oldManifest] and [newManifest] point to: [oldManifest] may be
    nil, [newManifest] is an object of its own. *)
Record Store := mkStore {
  oldManifest : option DanmNet;
  newManifest : DanmNet
}.

(** A computation returns a value or panics. *)
Inductive Result (A : Type) := Ok (a : A) | Panic.
Arguments Ok {A} a.
Arguments Panic {A}.

Definition M (A : Type) : Type := Store -> Result A * Store.

Definition ret {A} (a : A) : M A := fun st => (Ok a, st).

Definition bind {A B} (m : M A) (k : A -> M B) : M B :=
  fun st =>
    match m st with
    | (Ok a, st') => k a st'
    | (Panic, st') => (Panic, st')
    end.

Notation "x <- m ;; k" := (bind m (fun x => k))
  (at level 61, m at next level, right associativity).
Notation "m ;;; k" := (bind m (fun _ => k))
  (at level 61, right associativity).

(** A step that may panic and touches no manifest. *)
Definition lift {A} (o : option A) : M A :=
  fun st => match o with Some a => (Ok a, st) | None => (Panic, st) end.

(** [*newManifest] *)
Definition getNew : M DanmNet := fun st => (Ok (newManifest st), st).

(** [*oldManifest]; a nil pointer dereference panics. *)
Definition getOld : M DanmNet :=
  fun st => match oldManifest st with
            | Some old => (Ok old, st)
            | None => (Panic, st)
            end.

Definition with_Pool (m : DanmNet) (p : IpPool) : DanmNet :=
  let sp := Spec m in
  let o := Options sp in
  mkDanmNet
    (mkDanmNetSpec (NetworkID sp)
       (mkDanmNetOption (Device o) (Cidr o) (Net6 o) (Routes o) (Routes6 o)
          p (Alloc o) (Vlan o) (Vxlan o))
       (AllowedTenants sp)).

(** [newManifest.Spec.Options.Pool.Start = s] *)
Definition setPoolStart (s : string) : M unit :=
  fun st =>
    let new := newManifest st in
    let pool := Pool (Options (Spec new)) in
    (Ok tt, mkStore (oldManifest st) (with_Pool new (mkIpPool s (End_ pool)))).

(** [newManifest.Spec.Options.Pool.End = s] *)
Definition setPoolEnd (s : string) : M unit :=
  fun st =>
    let new := newManifest st in
    let pool := Pool (Options (Spec new)) in
    (Ok tt, mkStore (oldManifest st) (with_Pool new (mkIpPool (Start pool) s))).

(** [type Validator func(oldManifest, newManifest *DanmNet, opType) error];
    [None] is the nil error. *)
Definition Validator : Type := Operation -> M (option error).

Definition ValidatorMapping : Type := list Validator.

Definition MaxNidLength : nat := 12.

Definition uint32_mod : Z := 2 ^ 32.

(** The walk of [for _, gw := range routes] in [validateIpFields]. *)
Fixpoint range_routes (ipnet : IPNet) (cidr : string)
  (routes : list (string * string)) : option error :=
  match routes with
  | [] => None
  | (_, gw) :: rest =>
      if negb (Contains ipnet (ParseIP gw))
      then Some (GatewayOutsideCidrError gw cidr)
      else range_routes ipnet cidr rest
  end.

Definition validateIpFields (cidr : string)
  (routes : option (list (string * string))) : option error :=
  if (cidr =? "")%string then
    match routes with
    | Some _ => Some RoutesWithoutCidrError
    | None => None
    end
  else
    match ParseCIDR cidr with
    | None => Some (InvalidCidrError cidr)
    | Some ipnet =>
        match routes with
        | None => None
        | Some entries => range_routes ipnet cidr entries
        end
    end.

Definition validateIpv4Fields : Validator := fun opType =>
  new <- getNew ;;
  ret (validateIpFields (Cidr (Options (Spec new)))
         (Routes (Options (Spec new)))).

Definition validateIpv6Fields : Validator := fun opType =>
  new <- getNew ;;
  ret (validateIpFields (Net6 (Options (Spec new)))
         (Routes6 (Options (Spec new)))).

(** [GetBroadcastAddress(subnet)]; [None] is the panic of
    [binary.BigEndian] on the nil result of a [To4()]. *)
Definition GetBroadcastAddress (subnet : IPNet) : option IP :=
  let ip := repeat 0 (length (To4 (IPNet_IP subnet))) in
  match binary.BigEndian_Uint32 (To4 (IPNet_IP subnet)) with
  | None => None
  | Some addr =>
      match binary.BigEndian_Uint32 (To4 (IPNet_Mask subnet)) with
      | None => None
      | Some mask =>
          binary.BigEndian_PutUint32 ip
            (Z.lor addr (Z.lxor mask (uint32_mod - 1)))
      end
  end.

Definition validateAllocationPool : Validator := fun opType =>
  new <- getNew ;;
  if (opType =? Create)%string
     && negb (Alloc (Options (Spec new)) =? "")%string
  then ret (Some AllocPresetOnCreateError)
  else
    let cidr := Cidr (Options (Spec new)) in
    if (cidr =? "")%string then
      if negb (Start (Pool (Options (Spec new))) =? "")%string
         || negb (End_ (Pool (Options (Spec new))) =? "")%string
      then ret (Some PoolWithoutCidrError)
      else ret None
    else
      match ParseCIDR cidr with
      | None => ret (Some (PoolInvalidCidrError cidr))
      | Some ipnet =>
          (if (Start (Pool (Options (Spec new))) =? "")%string
           then n <- lift (ipam.Ip2int (IPNet_IP ipnet)) ;;
                setPoolStart
                  (IP_String (ipam.Int2ip ((n + 1) mod uint32_mod)))
           else ret tt) ;;;
          new <- getNew ;;
          (if (End_ (Pool (Options (Spec new))) =? "")%string
           then b <- lift (GetBroadcastAddress ipnet) ;;
                n <- lift (ipam.Ip2int b) ;;
                setPoolEnd
                  (IP_String (ipam.Int2ip ((n - 1) mod uint32_mod)))
           else ret tt) ;;;
          new <- getNew ;;
          let pool := Pool (Options (Spec new)) in
          if negb (Contains ipnet (ParseIP (Start pool)))
             || negb (Contains ipnet (ParseIP (End_ pool)))
          then ret (Some PoolOutsideCidrError)
          else
            e <- lift (ipam.Ip2int (ParseIP (End_ pool))) ;;
            s <- lift (ipam.Ip2int (ParseIP (Start pool))) ;;
            if e <=? s
            then ret (Some (PoolInvertedError (Start pool) (End_ pool)))
            else ret None
      end.

Definition validateVids : Validator := fun opType =>
  new <- getNew ;;
  let isVlanDefined := negb (Vlan (Options (Spec new)) =? 0) in
  let isVxlanDefined := negb (Vxlan (Options (Spec new)) =? 0) in
  if isVlanDefined && isVxlanDefined
  then ret (Some VlanVxlanConflictError)
  else ret None.

Definition validateNetworkId : Validator := fun opType =>
  new <- getNew ;;
  if (NetworkID (Spec new) =? "")%string
  then ret (Some MissingNetworkIdError)
  else if (MaxNidLength <? String.length (NetworkID (Spec new)))%nat
       then ret (Some NetworkIdTooLongError)
       else ret None.

Definition validateAbsenceOfAllowedTenants : Validator := fun opType =>
  new <- getNew ;;
  match AllowedTenants (Spec new) with
  | Some _ => ret (Some AllowedTenantsNotPermittedError)
  | None => ret None
  end.

(** The second test dereferences [oldManifest] only when [opType] is
    [Update]. *)
Definition validateTenantNetRules : Validator := fun opType =>
  new <- getNew ;;
  if (opType =? Create)%string
     && (negb (Device (Options (Spec new)) =? "")%string
         || negb (Vxlan (Options (Spec new)) =? 0)
         || negb (Vlan (Options (Spec new)) =? 0))
  then ret (Some ManualDeviceOrTagOnCreateError)
  else if (opType =? Update)%string then
    old <- getOld ;;
    if negb (Device (Options (Spec new)) =? Device (Options (Spec old)))%string
       || negb (Vxlan (Options (Spec new)) =? Vxlan (Options (Spec old)))
       || negb (Vlan (Options (Spec new)) =? Vlan (Options (Spec old)))
    then ret (Some ManualDeviceOrTagOnUpdateError)
    else ret None
  else ret None.

(** *** The registry *)

Definition DanmNetMapping : ValidatorMapping :=
  [validateIpv4Fields; validateIpv6Fields; validateAllocationPool;
   validateVids; validateNetworkId; validateAbsenceOfAllowedTenants].

Definition ClusterNetMapping : ValidatorMapping :=
  [validateIpv4Fields; validateIpv6Fields; validateAllocationPool;
   validateVids; validateNetworkId].

Definition TenantNetMapping : ValidatorMapping :=
  [validateIpv4Fields; validateIpv6Fields; validateAllocationPool;
   validateNetworkId; validateAbsenceOfAllowedTenants;
   validateTenantNetRules].

(** [danmValidationConfig[kind]]; [None] when [kind] is no key. *)
Definition danmValidationConfig (kind : string) : option ValidatorMapping :=
  if (kind =? "DanmNet")%string then Some DanmNetMapping
  else if (kind =? "ClusterNetwork")%string then Some ClusterNetMapping
  else if (kind =? "TenantNetwork")%string then Some TenantNetMapping
  else None.

(** Modelled from the spec: the caller of the registry is not among the
    sources at hand. It invokes each rule of the list in order on the
    same pair of manifests and reports the first error; the manifest is
    accepted when every rule returns nil. *)
Fixpoint runValidators (rules : ValidatorMapping) (opType : Operation)
  : M (option error) :=
  match rules with
  | [] => ret None
  | v :: rest =>
      err <- v opType ;;
      match err with
      | Some e => ret (Some e)
      | None => runValidators rest opType
      end
  end.

(** The manifest of [st] is accepted as a [kind] under [opType]. *)
Definition accepted (kind : string) (opType : Operation) (st : Store)
  : Prop :=
  exists rules st',
    danmValidationConfig kind = Some rules
    /\ runValidators rules opType st = (Ok None, st').

End netadmit.

Import net netadmit.

(** * Definitions the statements use *)

(** The options and the pool of the candidate manifest. *)
Definition newOptions (st : Store) : DanmNetOption :=
  Options (Spec (newManifest st)).

Definition newPool (st : Store) : IpPool := Pool (newOptions st).

(** The gateways of a routes mapping; a nil mapping has none. *)
Definition gateways (routes : option (list (string * string))) : list string :=
  match routes with
  | None => []
  | Some entries => map snd entries
  end.

(** The two shapes of a parsed subnet. *)
Definition is_v4net (n : IPNet) : Prop :=
  length (IPNet_IP n) = 4%nat /\ length (IPNet_Mask n) = 4%nat.

Definition is_v6net (n : IPNet) : Prop :=
  length (IPNet_IP n) = 16%nat /\ length (IPNet_Mask n) = 16%nat.

(** The four bytes of a [uint32], most significant first. *)
Definition be_bytes (v : Z) : list Z :=
  [Z.land (Z.shiftr v 24) 255; Z.land (Z.shiftr v 16) 255;
   Z.land (Z.shiftr v 8) 255; Z.land v 255].

Definition is_byte (b : Z) : Prop := 0 <= b < 256.

(** The value of four bytes read as a big-endian number. *)
Definition be_value (a b c d : Z) : Z :=
  a * 2 ^ 24 + b * 2 ^ 16 + c * 2 ^ 8 + d.

(** The candidate manifest with its pool bounds replaced. *)
Definition set_pool (st : Store) (s e : string) : Store :=
  mkStore (oldManifest st) (with_Pool (newManifest st) (mkIpPool s e)).

(** The alloc test of the pool rule lets the manifest through. *)
Definition alloc_check_passes (opType : Operation) (st : Store) : Prop :=
  opType <> Create \/ Alloc (newOptions st) = "".

(** Line 74-76: the start bound after defaulting; [None] is a panic. *)
Definition defaultStart (ipnet : IPNet) (start : string) : option string :=
  if (start =? "")%string then
    match ipam.Ip2int (IPNet_IP ipnet) with
    | Some n => Some (IP_String (ipam.Int2ip ((n + 1) mod uint32_mod)))
    | None => None
    end
  else Some start.

(** Line 77-79: the end bound after defaulting; [None] is a panic. *)
Definition defaultEnd (ipnet : IPNet) (end_ : string) : option string :=
  if (end_ =? "")%string then
    match GetBroadcastAddress ipnet with
    | Some b =>
        match ipam.Ip2int b with
        | Some n => Some (IP_String (ipam.Int2ip ((n - 1) mod uint32_mod)))
        | None => None
        end
    | None => None
    end
  else Some end_.

(** Line 80-86: the two tests on the bounds [s] and [e]. *)
Definition pool_checks (ipnet : IPNet) (s e : string)
  : Result (option error) :=
  if negb (Contains ipnet (ParseIP s)) || negb (Contains ipnet (ParseIP e))
  then Ok (Some PoolOutsideCidrError)
  else
    match ipam.Ip2int (ParseIP e), ipam.Ip2int (ParseIP s) with
    | Some ve, Some vs =>
        if ve <=? vs then Ok (Some (PoolInvertedError s e)) else Ok None
    | _, _ => Panic
    end.

(** What the rules may change between two states of the manifests:
    nothing of the previous manifest, and of the candidate manifest
    only a pool bound that was empty, under a CIDR that is set and
    parses. *)
Definition pool_frame (st st' : Store) : Prop :=
  oldManifest st' = oldManifest st
  /\ newManifest st' = with_Pool (newManifest st) (newPool st')
  /\ (Start (newPool st') <> Start (newPool st) ->
      Start (newPool st) = "" /\ Cidr (newOptions st) <> ""
      /\ ParseCIDR (Cidr (newOptions st)) <> None)
  /\ (End_ (newPool st') <> End_ (newPool st) ->
      End_ (newPool st) = "" /\ Cidr (newOptions st) <> ""
      /\ ParseCIDR (Cidr (newOptions st)) <> None).

(** The rules that only read. *)
Definition read_only_rules : list Validator :=
  [validateIpv4Fields; validateIpv6Fields; validateVids; validateNetworkId;
   validateAbsenceOfAllowedTenants; validateTenantNetRules].

(** A manifest for the examples: only the fields given are set. *)
Definition manifest (networkId cidr start end_ alloc : string)
  (routes : option (list (string * string))) (vlan vxlan : Z) : DanmNet :=
  mkDanmNet
    (mkDanmNetSpec networkId
       (mkDanmNetOption "" cidr "" routes None (mkIpPool start end_) alloc
          vlan vxlan)
       None).

(** The first result of a run of rules that is not nil: what the chain
    reports. *)
Fixpoint first_result (results : list (Result (option error)))
  : Result (option error) :=
  match results with
  | [] => Ok None
  | Ok None :: rest => first_result rest
  | r :: _ => r
  end.

(** The results of the rules, each run on the same manifests. *)
Definition results_on (rules : ValidatorMapping) (opType : Operation)
  (st : Store) : list (Result (option error)) :=
  map (fun v => fst (v opType st)) rules.

(** A CIDR field and its routes as the IPv4/IPv6 field rule lets them
    through: no routes on a layer-2 network, and under a CIDR one that
    parses, with every gateway inside. *)
Definition ip_fields_ok (cidr : string)
  (routes : option (list (string * string))) : Prop :=
  (cidr = "" -> routes = None)
  /\ (cidr <> "" ->
      exists ipnet,
        ParseCIDR cidr = Some ipnet
        /\ Forall (fun gw => Contains ipnet (ParseIP gw) = true)
             (gateways routes)).

(** * Facts about the embedded library functions *)

Ltac run_validator :=
  unfold validateIpv4Fields, validateIpv6Fields, validateVids,
    validateNetworkId, validateAbsenceOfAllowedTenants,
    validateTenantNetRules, bind, ret, getNew, getOld, lift,
    newOptions, newPool in *;
  simpl in *.

Lemma string_eqb_empty (s : string) : (s =? "")%string = true <-> s = "".
Proof. apply String.eqb_eq. Qed.

Lemma string_neqb_empty (s : string) : (s =? "")%string = false <-> s <> "".
Proof. apply String.eqb_neq. Qed.

Lemma parseIPv4_length (s : string) :
  parseIPv4 s = [] \/ length (parseIPv4 s) = 16%nat.
Proof.
  unfold parseIPv4.
  destruct (parseIPv4_loop 4 true s []) as [[r p]|]; auto.
  destruct r; auto.
  destruct p as [|a [|b [|c [|d [|e p]]]]]; auto.
Qed.

Lemma parseIPv6_step_length (s : string) (ip : list Z) (e : option nat) :
  (length ip <= 14)%nat ->
  match parseIPv6_step s ip e with
  | V6Fail => True
  | V6Break _ ip' _ => (length ip < length ip' <= 16)%nat
  | V6Next _ ip' _ => length ip' = (length ip + 2)%nat
  end.
Proof.
  intros Hlen. unfold parseIPv6_step.
  destruct (xtoi s) as [[n c] ok].
  destruct (negb ok || (65535 <? n)); [exact I|].
  destruct (starts_with "." (string_drop c s)).
  - destruct (_ && _); [exact I|].
    destruct (IPv6len <? length ip + IPv4len)%nat eqn:Hroom; [exact I|].
    apply Nat.ltb_ge in Hroom. unfold IPv6len, IPv4len in Hroom.
    destruct (parseIPv4_length s) as [H|H].
    + rewrite H. exact I.
    + destruct (parseIPv4 s) eqn:Hp; [exact I|]. simpl is_nil. cbv iota.
      rewrite length_app, length_skipn, H. lia.
  - assert (Hl : length (ip ++ [Z.land (Z.shiftr n 8) 255; Z.land n 255])
                 = (length ip + 2)%nat)
      by (rewrite length_app; reflexivity).
    cbv zeta.
    destruct (is_empty (string_drop c s)); [lia|].
    destruct (_ || _); [exact I|].
    destruct (starts_with ":" _).
    + destruct e; [exact I|].
      destruct (is_empty _); lia.
    + exact Hl.
Qed.

Lemma parseIPv6_loop_length (k : nat) : forall s ip e s' ip' e',
  (length ip + 2 * k = 16)%nat ->
  parseIPv6_loop k s ip e = Some (s', ip', e') ->
  (length ip' <= 16)%nat.
Proof.
  induction k as [|k IH]; intros s ip e s' ip' e' Hlen Hrun; simpl in Hrun.
  - inversion Hrun; subst. lia.
  - pose proof (parseIPv6_step_length s ip e ltac:(lia)) as Hstep.
    destruct (parseIPv6_step s ip e) as [|s1 ip1 e1|s1 ip1 e1].
    + discriminate.
    + inversion Hrun; subst. lia.
    + apply (IH s1 ip1 e1 s' ip' e'); [lia|exact Hrun].
Qed.

Lemma parseIPv6_finish_length (s : string) (ip : list Z) (e : option nat) :
  (length ip <= 16)%nat ->
  parseIPv6_finish (s, ip, e) = [] \/ length (parseIPv6_finish (s, ip, e)) = 16%nat.
Proof.
  intros Hlen. unfold parseIPv6_finish.
  destruct (negb (is_empty s)); auto.
  destruct (length ip <? IPv6len)%nat eqn:Hlt.
  - destruct e as [e|]; auto. right.
    apply Nat.ltb_lt in Hlt. unfold IPv6len in *.
    rewrite !length_app, repeat_length.
    pose proof (firstn_skipn e ip) as Hfs.
    apply (f_equal (@length Z)) in Hfs. rewrite length_app in Hfs. lia.
  - destruct e; auto. right.
    apply Nat.ltb_ge in Hlt. unfold IPv6len in *. lia.
Qed.

Lemma parseIPv6_length (s : string) :
  parseIPv6 s = [] \/ length (parseIPv6 s) = 16%nat.
Proof.
  unfold parseIPv6. cbv zeta.
  destruct (_ && is_empty _); [right; reflexivity|].
  destruct (parseIPv6_loop 8 _ [] _) as [[[s' ip'] e']|] eqn:Hrun; auto.
  apply parseIPv6_finish_length.
  apply parseIPv6_loop_length in Hrun; [exact Hrun|reflexivity].
Qed.

Lemma ParseIP_length (s : string) :
  ParseIP s = [] \/ length (ParseIP s) = 16%nat.
Proof.
  unfold ParseIP. generalize s at 1 3. intros whole.
  induction s as [|c rest IH]; simpl; auto.
  destruct (Ascii.eqb c "."); [apply parseIPv4_length|].
  destruct (Ascii.eqb c ":"); [apply parseIPv6_length|].
  exact IH.
Qed.

Lemma CIDRMask_loop_length (l : nat) : forall n,
  length (CIDRMask_loop l n) = l.
Proof.
  induction l as [|l IH]; intros n; simpl; [reflexivity|].
  destruct (8 <=? n); simpl; rewrite IH; reflexivity.
Qed.

Lemma Mask_length_eq (ip : IP) (mask : IPMask) :
  length ip = length mask ->
  (length mask = 4%nat \/ length mask = 16%nat) ->
  length (Mask ip mask) = length mask.
Proof.
  intros Heq Hm. unfold Mask.
  assert (H1 : ((length mask =? IPv6len)%nat && (length ip =? IPv4len)%nat
                && allFF (firstn 12 mask)) = false).
  { rewrite Heq. unfold IPv6len, IPv4len.
    destruct Hm as [-> | ->]; reflexivity. }
  rewrite H1.
  assert (H2 : ((length mask =? IPv4len)%nat && (length ip =? IPv6len)%nat
                && bytesEqual (firstn 12 ip) v4InV6Prefix) = false).
  { rewrite Heq. unfold IPv6len, IPv4len.
    destruct Hm as [-> | ->]; reflexivity. }
  rewrite H2. rewrite Heq, Nat.eqb_refl. simpl.
  rewrite length_map, length_combine. lia.
Qed.

Lemma Mask_length_v4 (a b c d : Z) (mask : IPMask) :
  length mask = 4%nat ->
  length (Mask (IPv4 a b c d) mask) = 4%nat.
Proof.
  intros Hm.
  destruct mask as [|m0 [|m1 [|m2 [|m3 [|m4 mask]]]]]; try discriminate.
  reflexivity.
Qed.

Lemma parseIPv4_form (s : string) :
  parseIPv4 s = [] \/ exists a b c d, parseIPv4 s = IPv4 a b c d.
Proof.
  unfold parseIPv4.
  destruct (parseIPv4_loop 4 true s []) as [[r p]|]; auto.
  destruct r; auto.
  destruct p as [|a [|b [|c [|d [|e p]]]]]; auto.
  right. exists a, b, c, d. reflexivity.
Qed.

Lemma dtoi_loop_nonneg (s : string) : forall n i v c ok,
  0 <= n -> dtoi_loop s n i = (v, c, ok) -> 0 <= v.
Proof.
  induction s as [|ch s IH]; intros n i v c ok Hn H; simpl in H.
  - destruct (i =? 0)%nat; inversion H; subst; lia.
  - destruct (between "0" "9" ch) eqn:Hb.
    + destruct (big <=? _) eqn:Hbig.
      * inversion H; subst. unfold big. lia.
      * refine (IH _ _ _ _ _ _ H).
        unfold between in Hb. apply andb_true_iff in Hb.
        destruct Hb as [Hlo _]. apply Z.leb_le in Hlo. lia.
    + destruct (i =? 0)%nat; inversion H; subst; lia.
Qed.

Theorem ParseCIDR_shape (s : string) (n : IPNet) :
  ParseCIDR s = Some n -> is_v4net n \/ is_v6net n.
Proof.
  unfold ParseCIDR.
  destruct (IndexByteString s "/") as [i|]; [|discriminate].
  cbv zeta.
  destruct (dtoi (string_drop (S i) s)) as [[m j] ok] eqn:Hd.
  destruct (parseIPv4_form (string_take i s)) as [H4|(a & b & c & d & H4)];
    rewrite H4.
  - simpl is_nil. cbv iota.
    destruct (parseIPv6_length (string_take i s)) as [H6|H6].
    + rewrite H6. simpl. discriminate.
    + destruct (is_nil (parseIPv6 _) || _ || _ || (m <? 0)
                || (Z.of_nat (8 * IPv6len) <? m)) eqn:Hc; [discriminate|].
      intros H. inversion H; subst; clear H. right.
      repeat (apply orb_false_iff in Hc; destruct Hc as [Hc ?]).
      assert (Hm : length (CIDRMask m (8 * IPv6len)) = 16%nat).
      { unfold CIDRMask. simpl (negb _ && negb _).
        replace ((m <? 0) || (Z.of_nat (8 * IPv6len) <? m)) with false
          by (symmetry; apply orb_false_iff; auto).
        apply CIDRMask_loop_length. }
      split; cbn [IPNet_IP IPNet_Mask]; [|exact Hm].
      rewrite Mask_length_eq;
        [exact Hm | rewrite H6; symmetry; exact Hm | right; exact Hm].
  - simpl is_nil. cbv iota.
    destruct (false || _ || _ || (m <? 0)
              || (Z.of_nat (8 * IPv4len) <? m)) eqn:Hc; [discriminate|].
    intros H. inversion H; subst; clear H. left.
    repeat (apply orb_false_iff in Hc; destruct Hc as [Hc ?]).
    assert (Hm : length (CIDRMask m (8 * IPv4len)) = 4%nat).
    { unfold CIDRMask. simpl (negb _ && negb _).
      replace ((m <? 0) || (Z.of_nat (8 * IPv4len) <? m)) with false
        by (symmetry; apply orb_false_iff; auto).
      apply CIDRMask_loop_length. }
    split; cbn [IPNet_IP IPNet_Mask]; [|exact Hm].
    apply Mask_length_v4. exact Hm.
Qed.

Lemma length_4 {A} (l : list A) :
  length l = 4%nat -> exists a b c d, l = [a; b; c; d].
Proof.
  destruct l as [|a [|b [|c [|d [|e l]]]]]; try discriminate.
  intros _. exists a, b, c, d. reflexivity.
Qed.

Lemma length_16 {A} (l : list A) :
  length l = 16%nat ->
  exists x0 x1 x2 x3 x4 x5 x6 x7 x8 x9 x10 x11 y0 y1 y2 y3,
    l = [x0; x1; x2; x3; x4; x5; x6; x7; x8; x9; x10; x11; y0; y1; y2; y3].
Proof.
  intros H.
  do 16 (destruct l as [|? l]; [discriminate|]).
  destruct l; [|discriminate].
  repeat eexists.
Qed.

Lemma networkNumber_length (n : IPNet) :
  is_v4net n \/ is_v6net n ->
  length (fst (networkNumberAndMask n)) = 4%nat
  \/ length (fst (networkNumberAndMask n)) = 16%nat.
Proof.
  destruct n as [ip m]. unfold is_v4net, is_v6net. simpl.
  intros [[Hi Hm]|[Hi Hm]].
  - apply length_4 in Hi, Hm.
    destruct Hi as (a & b & c & d & ->).
    destruct Hm as (ma & mb & mc & md & ->).
    left. reflexivity.
  - apply length_16 in Hi, Hm.
    destruct Hi as (x0 & x1 & x2 & x3 & x4 & x5 & x6 & x7 & x8 & x9 & x10
                    & x11 & y0 & y1 & y2 & y3 & ->).
    destruct Hm as (m0 & m1 & m2 & m3 & m4 & m5 & m6 & m7 & m8 & m9 & m10
                    & m11 & n0 & n1 & n2 & n3 & ->).
    unfold networkNumberAndMask, To4.
    cbn [IPNet_IP IPNet_Mask length Nat.eqb IPv4len IPv6len andb].
    destruct (isZeros _ && _ && _); [left|right]; reflexivity.
Qed.

Lemma Contains_nil (n : IPNet) :
  is_v4net n \/ is_v6net n -> Contains n [] = false.
Proof.
  intros H. apply networkNumber_length in H. unfold Contains.
  destruct (networkNumberAndMask n) as [nn m]. simpl in *.
  destruct nn; [destruct H; discriminate|reflexivity].
Qed.

Lemma Int2ip_bytes (v : Z) : ipam.Int2ip v = be_bytes v.
Proof. reflexivity. Qed.

Lemma testbit_255 (i : Z) : 0 <= i -> Z.testbit 255 i = (i <? 8).
Proof.
  intros Hi. change 255 with (Z.ones 8).
  rewrite Z.testbit_ones_nonneg by lia.
  reflexivity.
Qed.

Lemma land_255_byte (v : Z) : is_byte (Z.land v 255).
Proof.
  unfold is_byte. change 255 with (Z.ones 8).
  rewrite Z.land_ones by lia. apply Z.mod_pos_bound. lia.
Qed.

Lemma be_bytes_range (v : Z) : Forall is_byte (be_bytes v).
Proof. repeat constructor; apply land_255_byte. Qed.

Lemma Uint32_be_bytes (v : Z) :
  binary.BigEndian_Uint32 (be_bytes v) = Some (v mod 2 ^ 32).
Proof.
  unfold be_bytes, binary.BigEndian_Uint32. f_equal.
  apply Z.bits_inj'. intros i Hi.
  rewrite !Z.lor_spec.
  destruct (Z.ltb_spec i 32) as [Hlt|Hge].
  - rewrite Z.mod_pow2_bits_low by lia.
    rewrite Z.land_spec, testbit_255 by lia.
    destruct (Z.ltb_spec i 8) as [H8|H8].
    + rewrite !Z.shiftl_spec by lia.
      rewrite (Z.testbit_neg_r _ (i - 8)) by lia.
      rewrite (Z.testbit_neg_r _ (i - 16)) by lia.
      rewrite (Z.testbit_neg_r _ (i - 24)) by lia.
      rewrite andb_true_r, !orb_false_r. reflexivity.
    + rewrite andb_false_r, orb_false_l.
      rewrite !Z.shiftl_spec by lia.
      destruct (Z.ltb_spec i 16) as [H16|H16].
      * rewrite (Z.testbit_neg_r _ (i - 16)) by lia.
        rewrite (Z.testbit_neg_r _ (i - 24)) by lia.
        rewrite Z.land_spec, Z.shiftr_spec, testbit_255 by lia.
        replace (i - 8 + 8) with i by lia.
        replace (i - 8 <? 8) with true by (symmetry; apply Z.ltb_lt; lia).
        rewrite andb_true_r, !orb_false_r. reflexivity.
      * rewrite (Z.land_spec _ _ (i - 8)), (testbit_255 (i - 8)) by lia.
        replace (i - 8 <? 8) with false by (symmetry; apply Z.ltb_ge; lia).
        rewrite andb_false_r, orb_false_l.
        destruct (Z.ltb_spec i 24) as [H24|H24].
        -- rewrite (Z.testbit_neg_r _ (i - 24)) by lia.
           rewrite Z.land_spec, Z.shiftr_spec, testbit_255 by lia.
           replace (i - 16 + 16) with i by lia.
           replace (i - 16 <? 8) with true by (symmetry; apply Z.ltb_lt; lia).
           rewrite andb_true_r, orb_false_r. reflexivity.
        -- rewrite (Z.land_spec _ _ (i - 16)), (testbit_255 (i - 16)) by lia.
           replace (i - 16 <? 8) with false by (symmetry; apply Z.ltb_ge; lia).
           rewrite andb_false_r, orb_false_l.
           rewrite Z.land_spec, Z.shiftr_spec, testbit_255 by lia.
           replace (i - 24 + 24) with i by lia.
           replace (i - 24 <? 8) with true by (symmetry; apply Z.ltb_lt; lia).
           rewrite andb_true_r. reflexivity.
  - rewrite Z.mod_pow2_bits_high by lia.
    rewrite !Z.shiftl_spec by lia.
    rewrite !Z.land_spec, !testbit_255 by lia.
    replace (i <? 8) with false by (symmetry; apply Z.ltb_ge; lia).
    replace (i - 8 <? 8) with false by (symmetry; apply Z.ltb_ge; lia).
    replace (i - 16 <? 8) with false by (symmetry; apply Z.ltb_ge; lia).
    replace (i - 24 <? 8) with false by (symmetry; apply Z.ltb_ge; lia).
    rewrite !andb_false_r. reflexivity.
Qed.

Lemma be_bytes_value (a b c d : Z) :
  is_byte a -> is_byte b -> is_byte c -> is_byte d ->
  be_bytes (be_value a b c d) = [a; b; c; d].
Proof.
  unfold is_byte, be_bytes, be_value. intros Ha Hb Hc Hd.
  change 255 with (Z.ones 8).
  rewrite !Z.land_ones, !Z.shiftr_div_pow2 by lia.
  change (2 ^ 24) with 16777216. change (2 ^ 16) with 65536.
  change (2 ^ 8) with 256.
  repeat f_equal; Z.div_mod_to_equations; lia.
Qed.

Lemma Uint32_value (a b c d : Z) (rest : list Z) :
  is_byte a -> is_byte b -> is_byte c -> is_byte d ->
  binary.BigEndian_Uint32 (a :: b :: c :: d :: rest) = Some (be_value a b c d).
Proof.
  intros Ha Hb Hc Hd.
  change (binary.BigEndian_Uint32 (a :: b :: c :: d :: rest))
    with (binary.BigEndian_Uint32 [a; b; c; d]).
  rewrite <- (be_bytes_value a b c d Ha Hb Hc Hd) at 1.
  rewrite Uint32_be_bytes. f_equal.
  apply Z.mod_small. unfold is_byte, be_value in *. lia.
Qed.

Lemma byte_cases (P : Z -> Prop) :
  (forall k : nat, (k < 256)%nat -> P (Z.of_nat k)) ->
  forall b, is_byte b -> P b.
Proof.
  intros H b [Hlo Hhi]. rewrite <- (Z2Nat.id b) by lia. apply H. lia.
Qed.

Ltac each_byte k Hk :=
  do 256 (destruct k as [|k]; [reflexivity|]); exfalso; lia.

Lemma parseIPv4_first_octet (b : Z) : is_byte b ->
  forall k rest p,
    parseIPv4_loop (S k) true (uitoa b ++ String "." rest) p
    = parseIPv4_loop k false (String "." rest) (p ++ [b]).
Proof.
  intros Hb. pattern b. apply byte_cases; [|exact Hb]. clear.
  intros n Hn k rest p.
  each_byte n Hn.
Qed.

Lemma parseIPv4_next_octet (b : Z) : is_byte b ->
  forall k rest p,
    parseIPv4_loop (S k) false (String "." (uitoa b ++ String "." rest)) p
    = parseIPv4_loop k false (String "." rest) (p ++ [b]).
Proof.
  intros Hb. pattern b. apply byte_cases; [|exact Hb]. clear.
  intros n Hn k rest p.
  each_byte n Hn.
Qed.

Lemma parseIPv4_last_octet (b : Z) : is_byte b ->
  forall k p,
    parseIPv4_loop (S k) false (String "." (uitoa b)) p
    = parseIPv4_loop k false "" (p ++ [b]).
Proof.
  intros Hb. pattern b. apply byte_cases; [|exact Hb]. clear.
  intros n Hn k p.
  each_byte n Hn.
Qed.

Lemma ParseIP_scan_octet (b : Z) : is_byte b ->
  forall whole rest,
    ParseIP_scan whole (uitoa b ++ String "." rest) = parseIPv4 whole.
Proof.
  intros Hb. pattern b. apply byte_cases; [|exact Hb]. clear.
  intros n Hn whole rest.
  each_byte n Hn.
Qed.

Lemma uitoa_nonempty (b : Z) : is_byte b ->
  forall rest, ((uitoa b ++ rest)%string =? "")%string = false.
Proof.
  intros Hb. pattern b. apply byte_cases; [|exact Hb]. clear.
  intros n Hn rest.
  each_byte n Hn.
Qed.

Theorem ParseIP_String_bytes (a b c d : Z) :
  is_byte a -> is_byte b -> is_byte c -> is_byte d ->
  ParseIP (IP_String [a; b; c; d]) = IPv4 a b c d.
Proof.
  intros Ha Hb Hc Hd.
  change (IP_String [a; b; c; d])
    with (uitoa a ++ String "." (uitoa b ++ String "." (uitoa c
            ++ String "." (uitoa d))))%string.
  unfold ParseIP. rewrite ParseIP_scan_octet by assumption.
  unfold parseIPv4.
  rewrite parseIPv4_first_octet by assumption.
  rewrite parseIPv4_next_octet by assumption.
  rewrite parseIPv4_next_octet by assumption.
  rewrite parseIPv4_last_octet by assumption.
  reflexivity.
Qed.

(** * The IPv4/IPv6 field rule *)

(** The claim of C1 fails on an empty mapping that is not nil, such as
    the one decoded from [routes: {}]: the rule tests [routes != nil]. *)
Lemma ip_rule_empty_routes_rejected :
  validateIpFields "" (Some []) = Some RoutesWithoutCidrError
  /\ validateIpFields "" (Some []) <> None
  /\ gateways (Some []) = [].
Proof. repeat split; discriminate. Qed.

(** C1 (amended): with an empty CIDR the IPv4/IPv6 field rule succeeds
    when the routes mapping is absent (nil) and fails with
    [RoutesWithoutCidrError] when it is present, with or without entries;
    so do both rule instances, on ([cidr], [routes]) and on ([net6],
    [routes6]), and they leave the manifests as they were. *)
Theorem ip_rule_empty_cidr (st : Store) (opType : Operation) :
  let expected routes :=
    match routes with
    | None => None
    | Some _ => Some RoutesWithoutCidrError
    end in
  (forall routes, validateIpFields "" routes = expected routes)
  /\ (Cidr (newOptions st) = "" ->
      validateIpv4Fields opType st = (Ok (expected (Routes (newOptions st))), st))
  /\ (Net6 (newOptions st) = "" ->
      validateIpv6Fields opType st = (Ok (expected (Routes6 (newOptions st))), st)).
Proof.
  intros expected. split; [|split].
  - intros [entries|]; reflexivity.
  - intros H. run_validator. rewrite H. reflexivity.
  - intros H. run_validator. rewrite H. reflexivity.
Qed.

Lemma range_routes_inside (ipnet : IPNet) (cidr : string)
  (entries : list (string * string)) :
  Forall (fun gw => Contains ipnet (ParseIP gw) = true) (map snd entries) ->
  range_routes ipnet cidr entries = None.
Proof.
  induction entries as [|[dst gw] rest IH]; simpl; intros H.
  - reflexivity.
  - inversion H as [|? ? Hgw Hrest]; subst. rewrite Hgw. simpl. auto.
Qed.

Lemma range_routes_outside (ipnet : IPNet) (cidr : string)
  (entries : list (string * string)) :
  Exists (fun gw => Contains ipnet (ParseIP gw) = false) (map snd entries) ->
  exists gw,
    In gw (map snd entries)
    /\ Contains ipnet (ParseIP gw) = false
    /\ range_routes ipnet cidr entries = Some (GatewayOutsideCidrError gw cidr).
Proof.
  induction entries as [|[dst gw] rest IH]; simpl; intros H.
  - inversion H.
  - destruct (Contains ipnet (ParseIP gw)) eqn:Hgw; simpl.
    + inversion H as [? ? Hhd|? ? Htl]; subst.
      * simpl in Hhd. congruence.
      * destruct (IH Htl) as (gw' & Hin & Hout & Hrun).
        exists gw'. auto.
    + exists gw. auto.
Qed.

(** C4: for a non-empty CIDR, the IPv4/IPv6 field rule fails with
    [InvalidCidrError] when the CIDR does not parse; when it parses, it
    fails with [GatewayOutsideCidrError], naming a gateway of the mapping
    that is outside, if some route gateway is not contained in the parsed
    subnet, and it succeeds when every route gateway is contained. *)
Theorem ip_rule_nonempty_cidr (cidr : string)
  (routes : option (list (string * string))) :
  cidr <> "" ->
  (ParseCIDR cidr = None ->
   validateIpFields cidr routes = Some (InvalidCidrError cidr))
  /\ (forall ipnet, ParseCIDR cidr = Some ipnet ->
      (Exists (fun gw => Contains ipnet (ParseIP gw) = false) (gateways routes) ->
       exists gw, In gw (gateways routes)
                  /\ Contains ipnet (ParseIP gw) = false
                  /\ validateIpFields cidr routes
                     = Some (GatewayOutsideCidrError gw cidr))
      /\ (Forall (fun gw => Contains ipnet (ParseIP gw) = true) (gateways routes) ->
          validateIpFields cidr routes = None)).
Proof.
  intros Hne. apply string_neqb_empty in Hne.
  unfold validateIpFields. rewrite Hne. split.
  - intros ->. reflexivity.
  - intros ipnet ->. destruct routes as [entries|]; simpl; split.
    + apply range_routes_outside.
    + apply range_routes_inside.
    + intros H. inversion H.
    + reflexivity.
Qed.

(** * The network identifier rule *)

(** C9: the network identifier rule fails with [MissingNetworkIdError]
    exactly when [networkId] is empty, fails with
    [NetworkIdTooLongError] exactly when its length (in bytes, as Go's
    [len] counts) exceeds 12, and succeeds for every non-empty
    [networkId] of length at most 12; a length of exactly 12 succeeds
    and a length of 13 fails with [NetworkIdTooLongError]. The manifests
    stay as they were. *)
Theorem network_id_rule (st : Store) (opType : Operation) :
  let nid := NetworkID (Spec (newManifest st)) in
  exists r,
    validateNetworkId opType st = (Ok r, st)
    /\ (r = Some MissingNetworkIdError <-> nid = "")
    /\ (r = Some NetworkIdTooLongError <-> (12 < String.length nid)%nat)
    /\ (r = None <-> nid <> "" /\ (String.length nid <= 12)%nat)
    /\ (String.length nid = 12%nat -> r = None)
    /\ (String.length nid = 13%nat -> r = Some NetworkIdTooLongError).
Proof.
  intros nid. run_validator. fold nid.
  destruct (nid =? "")%string eqn:He.
  - apply String.eqb_eq in He. eexists; split; [reflexivity|].
    rewrite He. simpl. repeat split; try discriminate; try lia; auto.
    intros [H _]. congruence.
  - apply String.eqb_neq in He. unfold MaxNidLength.
    destruct (12 <? String.length nid)%nat eqn:Hl.
    + apply Nat.ltb_lt in Hl. eexists; split; [reflexivity|].
      repeat split; try discriminate; try lia; auto; try congruence.
    + apply Nat.ltb_ge in Hl. eexists; split; [reflexivity|].
      repeat split; try discriminate; try lia; auto; try congruence.
Qed.

(** * The VLAN/VXLAN exclusivity rule *)

Lemma vids_rule (st : Store) (opType : Operation) :
  validateVids opType st
  = (Ok (if negb (Vlan (newOptions st) =? 0) && negb (Vxlan (newOptions st) =? 0)
         then Some VlanVxlanConflictError else None), st).
Proof.
  run_validator.
  destruct (negb (Vlan _ =? 0) && negb (Vxlan _ =? 0)); reflexivity.
Qed.

(** * The tenant-restriction rule *)

(** C6: on Create the tenant-restriction rule fails with
    [ManualDeviceOrTagOnCreateError] exactly when [device] is non-empty
    or [vlan] or [vxlan] is nonzero; on Update, given the previous
    manifest, it fails with [ManualDeviceOrTagOnUpdateError] exactly when
    [device], [vlan] or [vxlan] differs from the previous manifest's
    value; otherwise, and under every other operation, it succeeds. The
    manifests stay as they were. *)
Theorem tenant_rule (st : Store) :
  let o := newOptions st in
  (exists r,
     validateTenantNetRules Create st = (Ok r, st)
     /\ (r = Some ManualDeviceOrTagOnCreateError
         <-> (Device o <> "" \/ Vlan o <> 0 \/ Vxlan o <> 0))
     /\ (r = None <-> (Device o = "" /\ Vlan o = 0 /\ Vxlan o = 0)))
  /\ (forall old, oldManifest st = Some old ->
      let p := Options (Spec old) in
      exists r,
        validateTenantNetRules Update st = (Ok r, st)
        /\ (r = Some ManualDeviceOrTagOnUpdateError
            <-> (Device o <> Device p \/ Vlan o <> Vlan p \/ Vxlan o <> Vxlan p))
        /\ (r = None
            <-> (Device o = Device p /\ Vlan o = Vlan p /\ Vxlan o = Vxlan p)))
  /\ (forall opType, opType <> Create -> opType <> Update ->
      validateTenantNetRules opType st = (Ok None, st)).
Proof.
  intros o. subst o. unfold newOptions. split; [|split].
  - run_validator.
    destruct (Device _ =? "")%string eqn:Hd;
      [apply String.eqb_eq in Hd | apply String.eqb_neq in Hd];
      (destruct (Vxlan _ =? 0) eqn:Hx;
       [apply Z.eqb_eq in Hx | apply Z.eqb_neq in Hx]);
      (destruct (Vlan _ =? 0) eqn:Hv;
       [apply Z.eqb_eq in Hv | apply Z.eqb_neq in Hv]);
      simpl; eexists; (split; [reflexivity|]);
      split; split; try discriminate; try tauto; intuition congruence.
  - intros old Hold. run_validator. rewrite Hold.
    destruct (Device _ =? Device _)%string eqn:Hd;
      [apply String.eqb_eq in Hd | apply String.eqb_neq in Hd];
      (destruct (Vxlan _ =? Vxlan _) eqn:Hx;
       [apply Z.eqb_eq in Hx | apply Z.eqb_neq in Hx]);
      (destruct (Vlan _ =? Vlan _) eqn:Hv;
       [apply Z.eqb_eq in Hv | apply Z.eqb_neq in Hv]);
      simpl; eexists; (split; [reflexivity|]);
      split; split; try discriminate; try tauto; intuition congruence.
  - intros opType Hc Hu. run_validator.
    apply String.eqb_neq in Hc. apply String.eqb_neq in Hu.
    rewrite Hc, Hu. reflexivity.
Qed.

Ltac proj_simpl :=
  cbn [oldManifest newManifest Spec Options Pool Start End_ Cidr Alloc
       NetworkID AllowedTenants Device Net6 Routes Routes6 Vlan Vxlan
       fst snd] in *.

Lemma set_pool_same (st : Store) :
  set_pool st (Start (newPool st)) (End_ (newPool st)) = st.
Proof.
  destruct st as [old [[nid [dev cidr net6 r r6 [s e] alloc vlan vxlan] ten]]].
  reflexivity.
Qed.

Lemma set_pool_set_pool (st : Store) (s e s' e' : string) :
  set_pool (set_pool st s e) s' e' = set_pool st s' e'.
Proof. reflexivity. Qed.

Lemma alloc_check_bool (opType : Operation) (st : Store) :
  alloc_check_passes opType st <->
  ((opType =? Create)%string
   && negb (Alloc (newOptions st) =? "")%string) = false.
Proof.
  unfold alloc_check_passes. rewrite andb_false_iff, negb_false_iff.
  rewrite String.eqb_neq, String.eqb_eq. reflexivity.
Qed.

(** The pool rule when the alloc test stops it. *)
Lemma pool_rule_alloc (opType : Operation) (st : Store) :
  ~ alloc_check_passes opType st ->
  validateAllocationPool opType st = (Ok (Some AllocPresetOnCreateError), st).
Proof.
  intros H. rewrite alloc_check_bool in H. apply not_false_is_true in H.
  unfold validateAllocationPool, bind, getNew, ret. fold (newOptions st).
  rewrite H. reflexivity.
Qed.

(** The pool rule on a layer-2 network. *)
Lemma pool_rule_no_cidr (opType : Operation) (st : Store) :
  alloc_check_passes opType st ->
  Cidr (newOptions st) = "" ->
  validateAllocationPool opType st
  = (Ok (if negb (Start (newPool st) =? "")%string
            || negb (End_ (newPool st) =? "")%string
         then Some PoolWithoutCidrError else None), st).
Proof.
  intros Ha Hc. rewrite alloc_check_bool in Ha.
  unfold validateAllocationPool, bind, getNew, ret.
  fold (newOptions st). fold (newPool st).
  rewrite Ha, Hc. cbn [String.eqb].
  destruct (negb _ || negb _); reflexivity.
Qed.

(** The pool rule on a CIDR that does not parse. *)
Lemma pool_rule_bad_cidr (opType : Operation) (st : Store) :
  alloc_check_passes opType st ->
  Cidr (newOptions st) <> "" ->
  ParseCIDR (Cidr (newOptions st)) = None ->
  validateAllocationPool opType st
  = (Ok (Some (PoolInvalidCidrError (Cidr (newOptions st)))), st).
Proof.
  intros Ha Hc Hp. rewrite alloc_check_bool in Ha.
  apply String.eqb_neq in Hc.
  unfold validateAllocationPool, bind, getNew, ret.
  fold (newOptions st). rewrite Ha, Hc, Hp. reflexivity.
Qed.

(** The pool rule on a CIDR that parses: defaulting, then the tests. *)
Lemma pool_rule_parsed (opType : Operation) (st : Store) (ipnet : IPNet) :
  alloc_check_passes opType st ->
  Cidr (newOptions st) <> "" ->
  ParseCIDR (Cidr (newOptions st)) = Some ipnet ->
  validateAllocationPool opType st
  = match defaultStart ipnet (Start (newPool st)) with
    | None => (Panic, st)
    | Some s =>
        match defaultEnd ipnet (End_ (newPool st)) with
        | None => (Panic, set_pool st s (End_ (newPool st)))
        | Some e => (pool_checks ipnet s e, set_pool st s e)
        end
    end.
Proof.
  intros Ha Hc Hp. rewrite alloc_check_bool in Ha.
  apply String.eqb_neq in Hc.
  unfold validateAllocationPool, bind, getNew, ret.
  fold (newOptions st). rewrite Ha, Hc, Hp.
  unfold defaultStart, defaultEnd, pool_checks, lift, setPoolStart, setPoolEnd.
  fold (newOptions st). fold (newPool st).
  clear Ha Hc Hp.
  destruct st as [old [[nid [dev cidr net6 r r6 [s e] alloc vlan vxlan] ten]]].
  unfold newPool, newOptions, set_pool, with_Pool. proj_simpl.
  assert (Hchecks : forall s' e' (st' : Store),
    (if negb (Contains ipnet (ParseIP s')) || negb (Contains ipnet (ParseIP e'))
     then fun st0 : Store => (Ok (Some PoolOutsideCidrError), st0)
     else
       fun st0 : Store =>
         match
           match ipam.Ip2int (ParseIP e') with
           | Some a => (Ok a, st0)
           | None => (Panic, st0)
           end
         with
         | (Ok a, st1) =>
             match
               match ipam.Ip2int (ParseIP s') with
               | Some a0 => (Ok a0, st1)
               | None => (Panic, st1)
               end
             with
             | (Ok a0, st2) =>
                 (if a <=? a0
                  then fun st3 : Store =>
                         (Ok (Some (PoolInvertedError s' e')), st3)
                  else fun st3 : Store => (Ok None, st3)) st2
             | (Panic, st2) => (Panic, st2)
             end
         | (Panic, st1) => (Panic, st1)
         end) st'
    = (if negb (Contains ipnet (ParseIP s')) || negb (Contains ipnet (ParseIP e'))
       then Ok (Some PoolOutsideCidrError)
       else
         match ipam.Ip2int (ParseIP e'), ipam.Ip2int (ParseIP s') with
         | Some ve, Some vs =>
             if ve <=? vs then Ok (Some (PoolInvertedError s' e')) else Ok None
         | _, _ => Panic
         end, st')).
  { intros s' e' st'.
    destruct (negb _ || negb _); [reflexivity|].
    destruct (ipam.Ip2int (ParseIP e')); [|reflexivity].
    destruct (ipam.Ip2int (ParseIP s')); [|reflexivity].
    destruct (_ <=? _); reflexivity. }
  destruct (s =? "")%string eqn:Hs; destruct (e =? "")%string eqn:He;
    cbv beta iota; proj_simpl.
  - destruct (ipam.Ip2int (IPNet_IP ipnet)); [|reflexivity].
    cbv beta iota; proj_simpl. rewrite He.
    destruct (GetBroadcastAddress ipnet) as [b|]; [|reflexivity].
    destruct (ipam.Ip2int b); [|reflexivity].
    cbv beta iota; proj_simpl. apply Hchecks.
  - destruct (ipam.Ip2int (IPNet_IP ipnet)); [|reflexivity].
    cbv beta iota; proj_simpl. rewrite He.
    cbv beta iota; proj_simpl. apply Hchecks.
  - rewrite He.
    destruct (GetBroadcastAddress ipnet) as [b|]; [|reflexivity].
    destruct (ipam.Ip2int b); [|reflexivity].
    cbv beta iota; proj_simpl. apply Hchecks.
  - rewrite He. cbv beta iota; proj_simpl. apply Hchecks.
Qed.

Lemma IP_String_Int2ip_nonempty (v : Z) :
  (IP_String (ipam.Int2ip v) =? "")%string = false.
Proof.
  rewrite Int2ip_bytes. unfold be_bytes.
  change (IP_String ?l) with
    (match l with
     | [a; b; c; d] =>
         (uitoa a ++ "." ++ uitoa b ++ "." ++ uitoa c ++ "." ++ uitoa d)%string
     | _ => "?"
     end) at 1.
  cbv beta iota.
  apply uitoa_nonempty, land_255_byte.
Qed.

Lemma defaultStart_fixed (ipnet : IPNet) (start s : string) :
  defaultStart ipnet start = Some s -> defaultStart ipnet s = Some s.
Proof.
  unfold defaultStart. destruct (start =? "")%string eqn:Hs.
  - destruct (ipam.Ip2int (IPNet_IP ipnet)); [|discriminate].
    intros H. inversion H; subst. rewrite IP_String_Int2ip_nonempty.
    reflexivity.
  - intros H. inversion H; subst. rewrite Hs. reflexivity.
Qed.

Lemma defaultEnd_fixed (ipnet : IPNet) (end_ e : string) :
  defaultEnd ipnet end_ = Some e -> defaultEnd ipnet e = Some e.
Proof.
  unfold defaultEnd. destruct (end_ =? "")%string eqn:He.
  - destruct (GetBroadcastAddress ipnet) as [b|]; [|discriminate].
    destruct (ipam.Ip2int b); [|discriminate].
    intros H. inversion H; subst. rewrite IP_String_Int2ip_nonempty.
    reflexivity.
  - intros H. inversion H; subst. rewrite He. reflexivity.
Qed.

Lemma alloc_check_dec (opType : Operation) (st : Store) :
  alloc_check_passes opType st \/ ~ alloc_check_passes opType st.
Proof.
  rewrite alloc_check_bool.
  destruct (_ && _); [right|left]; congruence.
Qed.

Lemma newOptions_set_pool (st : Store) (s e : string) :
  Cidr (newOptions (set_pool st s e)) = Cidr (newOptions st)
  /\ Alloc (newOptions (set_pool st s e)) = Alloc (newOptions st)
  /\ newPool (set_pool st s e) = mkIpPool s e.
Proof. repeat split. Qed.

Lemma alloc_check_set_pool (opType : Operation) (st : Store) (s e : string) :
  alloc_check_passes opType st ->
  alloc_check_passes opType (set_pool st s e).
Proof. exact (fun H => H). Qed.

(** C8: the allocation pool rule is idempotent. A second run on the
    manifests the first run left behind ends as the first run did (the
    same nil, the same error, or the same panic) and leaves
    [pool.start] and [pool.end], like all else, as the first run set
    them. *)
Theorem pool_rule_idempotent (opType : Operation) (st : Store) :
  validateAllocationPool opType (snd (validateAllocationPool opType st))
  = validateAllocationPool opType st.
Proof.
  destruct (alloc_check_dec opType st) as [Ha|Ha].
  2:{ rewrite (pool_rule_alloc _ _ Ha). cbn [snd].
      apply (pool_rule_alloc _ _ Ha). }
  destruct (Cidr (newOptions st) =? "")%string eqn:Hc.
  { apply String.eqb_eq in Hc.
    rewrite (pool_rule_no_cidr _ _ Ha Hc). cbn [snd].
    apply (pool_rule_no_cidr _ _ Ha Hc). }
  apply String.eqb_neq in Hc.
  destruct (ParseCIDR (Cidr (newOptions st))) as [ipnet|] eqn:Hp.
  2:{ rewrite (pool_rule_bad_cidr _ _ Ha Hc Hp). cbn [snd].
      apply (pool_rule_bad_cidr _ _ Ha Hc Hp). }
  rewrite (pool_rule_parsed _ _ ipnet Ha Hc Hp).
  destruct (defaultStart ipnet (Start (newPool st))) as [s|] eqn:Hs.
  2:{ cbn [snd]. rewrite (pool_rule_parsed _ _ ipnet Ha Hc Hp), Hs.
      reflexivity. }
  pose proof (defaultStart_fixed _ _ _ Hs) as Hs'.
  destruct (defaultEnd ipnet (End_ (newPool st))) as [e|] eqn:He; cbn [snd].
  - pose proof (defaultEnd_fixed _ _ _ He) as He'.
    rewrite (pool_rule_parsed _ (set_pool st s e) ipnet);
      [|exact Ha|exact Hc|exact Hp].
    change (newPool (set_pool st s e)) with (mkIpPool s e).
    cbn [Start End_]. rewrite Hs', He'. reflexivity.
  - rewrite (pool_rule_parsed _ (set_pool st s (End_ (newPool st))) ipnet);
      [|exact Ha|exact Hc|exact Hp].
    change (newPool (set_pool st s (End_ (newPool st))))
      with (mkIpPool s (End_ (newPool st))).
    cbn [Start End_]. rewrite Hs', He. reflexivity.
Qed.

Lemma with_Pool_same (m : DanmNet) : with_Pool m (Pool (Options (Spec m))) = m.
Proof.
  destruct m as [[nid [dev cidr net6 r r6 p alloc vlan vxlan] ten]].
  reflexivity.
Qed.

Lemma pool_frame_refl (st : Store) : pool_frame st st.
Proof.
  unfold pool_frame. repeat split; try congruence.
  unfold newPool, newOptions. symmetry. apply with_Pool_same.
Qed.

Lemma pool_frame_trans (st1 st2 st3 : Store) :
  pool_frame st1 st2 -> pool_frame st2 st3 -> pool_frame st1 st3.
Proof.
  intros (Ho1 & Hn1 & Hs1 & He1) (Ho2 & Hn2 & Hs2 & He2).
  assert (Hc : Cidr (newOptions st2) = Cidr (newOptions st1))
    by (unfold newOptions; rewrite Hn1; reflexivity).
  rewrite Hc in Hs2, He2.
  unfold pool_frame. split; [congruence|]. split; [|split].
  - rewrite Hn2, Hn1. reflexivity.
  - intros Hne.
    destruct (string_dec (Start (newPool st2)) (Start (newPool st1))) as [E|E].
    + rewrite E in Hs2. apply Hs2. congruence.
    + apply Hs1. exact E.
  - intros Hne.
    destruct (string_dec (End_ (newPool st2)) (End_ (newPool st1))) as [E|E].
    + rewrite E in He2. apply He2. congruence.
    + apply He1. exact E.
Qed.

Lemma read_only_rules_keep (v : Validator) (opType : Operation) (st : Store) :
  In v read_only_rules -> snd (v opType st) = st.
Proof.
  unfold read_only_rules. simpl.
  intros [<-|[<-|[<-|[<-|[<-|[<-|[]]]]]]];
    unfold validateIpv4Fields, validateIpv6Fields, validateVids,
      validateNetworkId, validateAbsenceOfAllowedTenants,
      validateTenantNetRules, bind, ret, getNew, getOld;
    repeat match goal with
           | |- context [if ?b then _ else _] => destruct b
           | |- context [match ?x with Some _ => _ | None => _ end] =>
               destruct x
           end; reflexivity.
Qed.

Lemma pool_rule_frame (opType : Operation) (st : Store) :
  pool_frame st (snd (validateAllocationPool opType st)).
Proof.
  destruct (alloc_check_dec opType st) as [Ha|Ha].
  2:{ rewrite (pool_rule_alloc _ _ Ha). apply pool_frame_refl. }
  destruct (Cidr (newOptions st) =? "")%string eqn:Hc.
  { apply String.eqb_eq in Hc.
    rewrite (pool_rule_no_cidr _ _ Ha Hc). apply pool_frame_refl. }
  apply String.eqb_neq in Hc.
  destruct (ParseCIDR (Cidr (newOptions st))) as [ipnet|] eqn:Hp.
  2:{ rewrite (pool_rule_bad_cidr _ _ Ha Hc Hp). apply pool_frame_refl. }
  rewrite (pool_rule_parsed _ _ ipnet Ha Hc Hp).
  assert (Hstart : forall s, defaultStart ipnet (Start (newPool st)) = Some s ->
                   s <> Start (newPool st) -> Start (newPool st) = "").
  { unfold defaultStart. intros s.
    destruct (Start (newPool st) =? "")%string eqn:E.
    - intros _ _. apply String.eqb_eq. exact E.
    - intros H. inversion H. congruence. }
  assert (Hend : forall e, defaultEnd ipnet (End_ (newPool st)) = Some e ->
                 e <> End_ (newPool st) -> End_ (newPool st) = "").
  { unfold defaultEnd. intros e.
    destruct (End_ (newPool st) =? "")%string eqn:E.
    - intros _ _. apply String.eqb_eq. exact E.
    - intros H. inversion H. congruence. }
  assert (Hparse : ParseCIDR (Cidr (newOptions st)) <> None) by congruence.
  destruct (defaultStart ipnet (Start (newPool st))) as [s|] eqn:Hs.
  2:{ apply pool_frame_refl. }
  destruct (defaultEnd ipnet (End_ (newPool st))) as [e|] eqn:He; cbn [snd].
  - unfold pool_frame.
    change (newPool (set_pool st s e)) with (mkIpPool s e). cbn [Start End_].
    repeat split; eauto.
  - unfold pool_frame.
    change (newPool (set_pool st s (End_ (newPool st))))
      with (mkIpPool s (End_ (newPool st))). cbn [Start End_].
    repeat split; eauto; congruence.
Qed.

Lemma runValidators_frame (rules : ValidatorMapping) (opType : Operation) :
  Forall (fun v => forall st, pool_frame st (snd (v opType st))) rules ->
  forall st, pool_frame st (snd (runValidators rules opType st)).
Proof.
  induction rules as [|v rest IH]; intros Hall st.
  - apply pool_frame_refl.
  - inversion Hall as [|? ? Hv Hrest]; subst.
    simpl. unfold bind. specialize (Hv st).
    destruct (v opType st) as [[[e|]|] st1]; cbn [snd] in *.
    + exact Hv.
    + apply (pool_frame_trans _ st1); [exact Hv|]. apply IH. exact Hrest.
    + exact Hv.
Qed.

Tactic Notation "read_only_at" integer(n) :=
  left; unfold read_only_rules; do n apply in_cons; apply in_eq.

Lemma registered_rules (kind : string) (rules : ValidatorMapping) :
  danmValidationConfig kind = Some rules ->
  Forall (fun v => In v read_only_rules \/ v = validateAllocationPool) rules.
Proof.
  unfold danmValidationConfig.
  destruct (kind =? "DanmNet")%string;
    [|destruct (kind =? "ClusterNetwork")%string;
      [|destruct (kind =? "TenantNetwork")%string]];
    intros H; inversion H; subst; clear H.
  - unfold DanmNetMapping.
    constructor; [read_only_at 0|].
    constructor; [read_only_at 1|].
    constructor; [right; reflexivity|].
    constructor; [read_only_at 2|].
    constructor; [read_only_at 3|].
    constructor; [read_only_at 4|].
    constructor.
  - unfold ClusterNetMapping.
    constructor; [read_only_at 0|].
    constructor; [read_only_at 1|].
    constructor; [right; reflexivity|].
    constructor; [read_only_at 2|].
    constructor; [read_only_at 3|].
    constructor.
  - unfold TenantNetMapping.
    constructor; [read_only_at 0|].
    constructor; [read_only_at 1|].
    constructor; [right; reflexivity|].
    constructor; [read_only_at 3|].
    constructor; [read_only_at 4|].
    constructor; [read_only_at 5|].
    constructor.
Qed.

(** C7: every rule other than the allocation pool rule leaves both
    manifests as they were; the allocation pool rule, and with it the
    whole rule chain of every registered kind, changes nothing but
    [pool.start] and [pool.end] of the candidate manifest, each only
    when it was empty and [cidr] is non-empty and parses; this holds
    whether the run ends in nil, in an error or in a panic. *)
Theorem rules_frame (opType : Operation) (st : Store) :
  (forall v, In v read_only_rules -> snd (v opType st) = st)
  /\ pool_frame st (snd (validateAllocationPool opType st))
  /\ (forall kind rules, danmValidationConfig kind = Some rules ->
      pool_frame st (snd (runValidators rules opType st))).
Proof.
  split; [|split].
  - intros v Hv. apply read_only_rules_keep. exact Hv.
  - apply pool_rule_frame.
  - intros kind rules Hk. apply runValidators_frame.
    apply registered_rules in Hk.
    eapply Forall_impl; [|exact Hk].
    intros v [Hv| ->] st0.
    + rewrite (read_only_rules_keep _ _ _ Hv). apply pool_frame_refl.
    + apply pool_rule_frame.
Qed.

Lemma Ip2int_total (ip : IP) :
  length ip = 4%nat \/ length ip = 16%nat -> exists n, ipam.Ip2int ip = Some n.
Proof.
  intros [H|H].
  - apply length_4 in H. destruct H as (a & b & c & d & ->).
    eexists. reflexivity.
  - apply length_16 in H.
    destruct H as (x0 & x1 & x2 & x3 & x4 & x5 & x6 & x7 & x8 & x9 & x10
                   & x11 & y0 & y1 & y2 & y3 & ->).
    eexists. reflexivity.
Qed.

Lemma Ip2int_IPv4 (a b c d : Z) :
  ipam.Ip2int (IPv4 a b c d) = binary.BigEndian_Uint32 [a; b; c; d].
Proof. reflexivity. Qed.

Lemma Ip2int_Int2ip (v : Z) :
  ipam.Ip2int (ipam.Int2ip v) = Some (v mod 2 ^ 32).
Proof.
  rewrite Int2ip_bytes.
  change (ipam.Ip2int (be_bytes v)) with (binary.BigEndian_Uint32 (be_bytes v)).
  apply Uint32_be_bytes.
Qed.

(** An address printed by [String()] and parsed back has the number it
    was made from. *)
Lemma Ip2int_ParseIP_String (v : Z) :
  ipam.Ip2int (ParseIP (IP_String (ipam.Int2ip v))) = Some (v mod 2 ^ 32).
Proof.
  rewrite Int2ip_bytes. unfold be_bytes at 1.
  rewrite ParseIP_String_bytes by apply land_255_byte.
  rewrite Ip2int_IPv4. apply Uint32_be_bytes.
Qed.

Lemma GetBroadcastAddress_v4 (n : IPNet) :
  is_v4net n ->
  exists addr mask,
    binary.BigEndian_Uint32 (IPNet_IP n) = Some addr
    /\ binary.BigEndian_Uint32 (IPNet_Mask n) = Some mask
    /\ ipam.Ip2int (IPNet_IP n) = Some addr
    /\ GetBroadcastAddress n
       = Some (ipam.Int2ip (Z.lor addr (Z.lxor mask (2 ^ 32 - 1)))).
Proof.
  destruct n as [ip m]. unfold is_v4net. cbn [IPNet_IP IPNet_Mask].
  intros [Hi Hm]. apply length_4 in Hi, Hm.
  destruct Hi as (a & b & c & d & ->).
  destruct Hm as (ma & mb & mc & md & ->).
  eexists. eexists. repeat split.
Qed.

Lemma defaultStart_parsed (cidr : string) (ipnet : IPNet) (start : string) :
  ParseCIDR cidr = Some ipnet ->
  exists s, defaultStart ipnet start = Some s
            /\ (start <> "" -> s = start).
Proof.
  intros Hp. apply ParseCIDR_shape in Hp.
  unfold defaultStart. destruct (start =? "")%string eqn:E.
  - destruct (Ip2int_total (IPNet_IP ipnet)) as [n Hn].
    { destruct Hp as [[H _]|[H _]]; auto. }
    rewrite Hn. eexists. split; [reflexivity|].
    apply String.eqb_eq in E. congruence.
  - eexists. split; reflexivity.
Qed.

Lemma defaultEnd_completes (ipnet : IPNet) (end_ : string) :
  end_ <> "" \/ is_v4net ipnet ->
  exists e, defaultEnd ipnet end_ = Some e
            /\ (end_ <> "" -> e = end_).
Proof.
  intros H. unfold defaultEnd. destruct (end_ =? "")%string eqn:E.
  - apply String.eqb_eq in E. destruct H as [H|H]; [congruence|].
    destruct (GetBroadcastAddress_v4 _ H) as (addr & mask & _ & _ & _ & ->).
    rewrite Ip2int_Int2ip.
    eexists. split; [reflexivity|]. congruence.
  - eexists. split; reflexivity.
Qed.

Lemma Contains_ParseIP (cidr : string) (ipnet : IPNet) (s : string) :
  ParseCIDR cidr = Some ipnet ->
  Contains ipnet (ParseIP s) = true ->
  exists v, ipam.Ip2int (ParseIP s) = Some v.
Proof.
  intros Hp Hc. apply ParseCIDR_shape in Hp.
  destruct (ParseIP_length s) as [H|H].
  - rewrite H, (Contains_nil _ Hp) in Hc. discriminate.
  - apply Ip2int_total. auto.
Qed.

Lemma pool_checks_spec (cidr : string) (ipnet : IPNet) (s e : string) :
  ParseCIDR cidr = Some ipnet ->
  exists r,
    pool_checks ipnet s e = Ok r
    /\ ((Contains ipnet (ParseIP s) = false
         \/ Contains ipnet (ParseIP e) = false) ->
        r = Some PoolOutsideCidrError)
    /\ (Contains ipnet (ParseIP s) = true ->
        Contains ipnet (ParseIP e) = true ->
        exists vs ve,
          ipam.Ip2int (ParseIP s) = Some vs
          /\ ipam.Ip2int (ParseIP e) = Some ve
          /\ (ve <= vs -> r = Some (PoolInvertedError s e))
          /\ (vs < ve -> r = None)).
Proof.
  intros Hp. unfold pool_checks.
  destruct (Contains ipnet (ParseIP s)) eqn:Hs;
    destruct (Contains ipnet (ParseIP e)) eqn:He; cbn [negb orb];
    try (eexists; split; [reflexivity|]; split;
         [reflexivity | discriminate]).
  destruct (Contains_ParseIP _ _ _ Hp Hs) as [vs Hvs].
  destruct (Contains_ParseIP _ _ _ Hp He) as [ve Hve].
  rewrite Hvs, Hve.
  destruct (ve <=? vs) eqn:Hle;
    [apply Z.leb_le in Hle | apply Z.leb_gt in Hle];
    (eexists; split; [reflexivity|]; split;
     [intros [H|H]; discriminate|]);
    intros _ _; exists vs, ve; repeat split; auto; intros; lia.
Qed.

(** * The allocation pool rule *)

(** C2: the code at the input where it departs from the claim. A
    manifest that sets only [networkId] and the IPv6 CIDR 2001:db8::/32
    in [cidr] has a [cidr] that is set and parses, and both IP field
    rules return nil on it; the pool rule then does not default
    [pool.end] to the broadcast address minus 1: [GetBroadcastAddress]
    takes [To4()] of the 16-byte address, gets nil and panics reading
    four bytes of it, so [pool.end] stays empty and the chain of the
    kind panics. *)
Lemma pool_defaults_ipv6_cidr :
  let st := mkStore None (manifest "net" "2001:db8::/32" "" "" "" None 0 0) in
  let ipnet :=
    mkIPNet [32; 1; 13; 184; 0; 0; 0; 0; 0; 0; 0; 0; 0; 0; 0; 0]
            [255; 255; 255; 255; 0; 0; 0; 0; 0; 0; 0; 0; 0; 0; 0; 0] in
  ParseCIDR "2001:db8::/32" = Some ipnet
  /\ validateIpv4Fields Create st = (Ok None, st)
  /\ validateIpv6Fields Create st = (Ok None, st)
  /\ To4 (IPNet_IP ipnet) = []
  /\ GetBroadcastAddress ipnet = None
  /\ validateAllocationPool Create st
     = (Panic, set_pool st "0.0.0.1" "")
  /\ fst (runValidators DanmNetMapping Create st) = Panic.
Proof. repeat split; vm_compute; reflexivity. Qed.

(** X14: once the alloc test has passed and [cidr] is set and
    parses as an IPv4 CIDR, the pool rule returns, an empty [pool.start]
    is set to the text of the network address plus 1 and an empty
    [pool.end] to the text of the broadcast address minus 1 (both as
    [uint32], modulo 2^32), where the broadcast address is the bitwise
    OR of the network address with the bitwise complement of the mask;
    a bound that is set is kept. The texts parse back to those numbers.
    For CIDR 10.0.0.0/24 with both bounds empty the bounds become
    10.0.0.1 and 10.0.0.254. *)
Theorem pool_defaults (opType : Operation) (st : Store) :
  alloc_check_passes opType st ->
  Cidr (newOptions st) <> "" ->
  (forall ipnet,
     ParseCIDR (Cidr (newOptions st)) = Some ipnet ->
     length (IPNet_IP ipnet) = 4%nat ->
     exists addr mask r,
       binary.BigEndian_Uint32 (IPNet_IP ipnet) = Some addr
       /\ binary.BigEndian_Uint32 (IPNet_Mask ipnet) = Some mask
       /\ let bcast := Z.lor addr (Z.lxor mask (2 ^ 32 - 1)) in
          let first := (addr + 1) mod 2 ^ 32 in
          let last := (bcast - 1) mod 2 ^ 32 in
          GetBroadcastAddress ipnet = Some (ipam.Int2ip bcast)
          /\ validateAllocationPool opType st
             = (Ok r,
                set_pool st
                  (if (Start (newPool st) =? "")%string
                   then IP_String (ipam.Int2ip first)
                   else Start (newPool st))
                  (if (End_ (newPool st) =? "")%string
                   then IP_String (ipam.Int2ip last)
                   else End_ (newPool st)))
          /\ ipam.Ip2int (ParseIP (IP_String (ipam.Int2ip first))) = Some first
          /\ ipam.Ip2int (ParseIP (IP_String (ipam.Int2ip last))) = Some last)
  /\ (Cidr (newOptions st) = "10.0.0.0/24" ->
      Start (newPool st) = "" -> End_ (newPool st) = "" ->
      validateAllocationPool opType st
      = (Ok None, set_pool st "10.0.0.1" "10.0.0.254")).
Proof.
  intros Ha Hc. split.
  - intros ipnet Hp Hlen.
    assert (Hv4 : is_v4net ipnet).
    { destruct (ParseCIDR_shape _ _ Hp) as [H|[H _]]; [exact H|].
      rewrite H in Hlen. discriminate. }
    destruct (GetBroadcastAddress_v4 _ Hv4) as (addr & mask & Ha1 & Hm1 & Hi & Hb).
    destruct (pool_checks_spec _ ipnet
                (if (Start (newPool st) =? "")%string
                 then IP_String (ipam.Int2ip ((addr + 1) mod 2 ^ 32))
                 else Start (newPool st))
                (if (End_ (newPool st) =? "")%string
                 then IP_String
                        (ipam.Int2ip
                           ((Z.lor addr (Z.lxor mask (2 ^ 32 - 1)) - 1)
                            mod 2 ^ 32))
                 else End_ (newPool st)) Hp) as (r & Hr & _).
    exists addr, mask, r. split; [exact Ha1|]. split; [exact Hm1|].
    cbv zeta. split; [exact Hb|]. split.
    + rewrite (pool_rule_parsed _ _ ipnet Ha Hc Hp).
      unfold defaultStart, defaultEnd. rewrite Hi, Hb.
      rewrite Ip2int_Int2ip.
      change uint32_mod with (2 ^ 32).
      rewrite Zminus_mod_idemp_l.
      destruct (Start (newPool st) =? "")%string;
        destruct (End_ (newPool st) =? "")%string;
        rewrite Hr; reflexivity.
    + rewrite !Ip2int_ParseIP_String, !Z.mod_mod by lia. split; reflexivity.
  - intros Hcidr Hs He.
    assert (Hp : ParseCIDR (Cidr (newOptions st))
                 = Some (mkIPNet [10; 0; 0; 0] [255; 255; 255; 0]))
      by (rewrite Hcidr; vm_compute; reflexivity).
    rewrite (pool_rule_parsed _ _ _ Ha Hc Hp), Hs, He.
    vm_compute. reflexivity.
Qed.

(** C3: the code at the input where it departs from the claim. With
    the IPv6 CIDR 2001:db8::/32 in [cidr], [pool.start] 10.0.0.1 and an
    empty [pool.end], [cidr] is set and parses, both IP field rules
    return nil and [pool.start] is not contained in the subnet; the
    pool rule does not fail with [PoolOutsideCidrError]: it panics in
    [GetBroadcastAddress] while defaulting [pool.end], before its
    containment test, and so does the chain of the kind. *)
Lemma pool_errors_ipv6_cidr :
  let st :=
    mkStore None (manifest "net" "2001:db8::/32" "10.0.0.1" "" "" None 0 0) in
  let ipnet :=
    mkIPNet [32; 1; 13; 184; 0; 0; 0; 0; 0; 0; 0; 0; 0; 0; 0; 0]
            [255; 255; 255; 255; 0; 0; 0; 0; 0; 0; 0; 0; 0; 0; 0; 0] in
  ParseCIDR "2001:db8::/32" = Some ipnet
  /\ validateIpv4Fields Update st = (Ok None, st)
  /\ validateIpv6Fields Update st = (Ok None, st)
  /\ Contains ipnet (ParseIP "10.0.0.1") = false
  /\ GetBroadcastAddress ipnet = None
  /\ validateAllocationPool Update st = (Panic, st)
  /\ fst (validateAllocationPool Update st) <> Ok (Some PoolOutsideCidrError)
  /\ fst (runValidators DanmNetMapping Update st) = Panic.
Proof. repeat split; vm_compute; try reflexivity; discriminate. Qed.

(** X15: once the alloc test has passed, the pool rule fails
    with [PoolWithoutCidrError] if [cidr] is empty and either pool bound
    is set, and succeeds if [cidr] is empty and both bounds are empty.
    If [cidr] is set and parses and the defaulting completes (that is,
    [pool.end] is set or [cidr] is an IPv4 CIDR), the rule returns, and
    on the bounds after defaulting it fails with [PoolOutsideCidrError]
    when either bound is not contained in the subnet, and otherwise
    fails with [PoolInvertedError] when the number [Ip2int] gives the
    end address is less than or equal to that of the start address, and
    succeeds when it is greater. CIDR 10.0.0.0/24 with start 10.0.0.200
    and end 10.0.0.100 fails with [PoolInvertedError]. *)
Theorem pool_rule_errors (opType : Operation) (st : Store) :
  alloc_check_passes opType st ->
  (Cidr (newOptions st) = "" ->
   Start (newPool st) <> "" \/ End_ (newPool st) <> "" ->
   validateAllocationPool opType st = (Ok (Some PoolWithoutCidrError), st))
  /\ (Cidr (newOptions st) = "" ->
      Start (newPool st) = "" -> End_ (newPool st) = "" ->
      validateAllocationPool opType st = (Ok None, st))
  /\ (Cidr (newOptions st) <> "" ->
      forall ipnet,
        ParseCIDR (Cidr (newOptions st)) = Some ipnet ->
        End_ (newPool st) <> "" \/ length (IPNet_IP ipnet) = 4%nat ->
        exists s e r,
          defaultStart ipnet (Start (newPool st)) = Some s
          /\ defaultEnd ipnet (End_ (newPool st)) = Some e
          /\ validateAllocationPool opType st = (Ok r, set_pool st s e)
          /\ ((Contains ipnet (ParseIP s) = false
               \/ Contains ipnet (ParseIP e) = false) ->
              r = Some PoolOutsideCidrError)
          /\ (Contains ipnet (ParseIP s) = true ->
              Contains ipnet (ParseIP e) = true ->
              exists vs ve,
                ipam.Ip2int (ParseIP s) = Some vs
                /\ ipam.Ip2int (ParseIP e) = Some ve
                /\ (ve <= vs -> r = Some (PoolInvertedError s e))
                /\ (vs < ve -> r = None)))
  /\ (Cidr (newOptions st) = "10.0.0.0/24" ->
      Start (newPool st) = "10.0.0.200" -> End_ (newPool st) = "10.0.0.100" ->
      validateAllocationPool opType st
      = (Ok (Some (PoolInvertedError "10.0.0.200" "10.0.0.100")), st)).
Proof.
  intros Ha. split; [|split; [|split]].
  - intros Hc Hb. rewrite (pool_rule_no_cidr _ _ Ha Hc).
    destruct Hb as [Hb|Hb]; apply String.eqb_neq in Hb; rewrite Hb;
      [|rewrite orb_true_r]; reflexivity.
  - intros Hc Hs He. rewrite (pool_rule_no_cidr _ _ Ha Hc), Hs, He.
    reflexivity.
  - intros Hc ipnet Hp Hdone.
    destruct (defaultStart_parsed _ _ (Start (newPool st)) Hp) as (s & Hs & _).
    destruct (defaultEnd_completes ipnet (End_ (newPool st))) as (e & He & _).
    { destruct Hdone as [H|H]; [left; exact H|right].
      destruct (ParseCIDR_shape _ _ Hp) as [H4|[H6 _]]; [exact H4|].
      rewrite H6 in H. discriminate. }
    destruct (pool_checks_spec _ ipnet s e Hp) as (r & Hr & Hout & Hinv).
    exists s, e, r. rewrite (pool_rule_parsed _ _ ipnet Ha Hc Hp), Hs, He, Hr.
    repeat split; assumption.
  - intros Hcidr Hs He.
    assert (Hc : Cidr (newOptions st) <> "") by (rewrite Hcidr; discriminate).
    assert (Hp : ParseCIDR (Cidr (newOptions st))
                 = Some (mkIPNet [10; 0; 0; 0] [255; 255; 255; 0]))
      by (rewrite Hcidr; vm_compute; reflexivity).
    assert (Hst : set_pool st "10.0.0.200" "10.0.0.100" = st)
      by (rewrite <- Hs, <- He; apply set_pool_same).
    rewrite (pool_rule_parsed _ _ _ Ha Hc Hp), Hs, He.
    transitivity
      (Ok (Some (PoolInvertedError "10.0.0.200" "10.0.0.100")),
       set_pool st "10.0.0.200" "10.0.0.100");
      [vm_compute; reflexivity | rewrite Hst; reflexivity].
Qed.

(** * Address strings that do not parse *)

(** C10: the code at the input where it departs from the claim. With
    the IPv6 CIDR 2001:db8::/32 in [cidr], which is not empty and
    parses, a [pool.start] of [bad], which is no IP address, and an
    empty [pool.end], both IP field rules return nil and the pool rule
    does not return the pool-outside-CIDR error: it panics in
    [GetBroadcastAddress] while defaulting [pool.end], an unhandled
    failure, and so does the chain of the kind. *)
Lemma unparsable_pool_start_panics :
  let st :=
    mkStore None (manifest "net" "2001:db8::/32" "bad" "" "" None 0 0) in
  (exists ipnet,
     ParseCIDR "2001:db8::/32" = Some ipnet
     /\ GetBroadcastAddress ipnet = None)
  /\ ParseIP "bad" = []
  /\ validateIpv4Fields Update st = (Ok None, st)
  /\ validateIpv6Fields Update st = (Ok None, st)
  /\ validateAllocationPool Update st = (Panic, st)
  /\ fst (validateAllocationPool Update st) <> Ok (Some PoolOutsideCidrError)
  /\ fst (runValidators DanmNetMapping Update st) = Panic.
Proof.
  split.
  - eexists. split; vm_compute; reflexivity.
  - repeat split; vm_compute; try reflexivity; discriminate.
Qed.

(** X16: under a CIDR that is non-empty and parses, an
    address string that does not parse is contained in no subnet; so
    the IPv4/IPv6 field rule returns the gateway-outside-CIDR error when
    some route gateway does not parse, and the allocation pool rule
    returns the pool-outside-CIDR error when a [pool.start] or
    [pool.end] that is set does not parse, provided the rule reaches
    its containment test: the alloc test has passed, and [pool.end] is
    set or the CIDR is an IPv4 CIDR. *)
Theorem unparsable_addresses (cidr : string) (ipnet : IPNet) :
  cidr <> "" ->
  ParseCIDR cidr = Some ipnet ->
  (forall s, ParseIP s = [] -> Contains ipnet (ParseIP s) = false)
  /\ (forall routes gw,
        In gw (gateways routes) -> ParseIP gw = [] ->
        exists gw', In gw' (gateways routes)
                    /\ validateIpFields cidr routes
                       = Some (GatewayOutsideCidrError gw' cidr))
  /\ (forall opType st,
        Cidr (newOptions st) = cidr ->
        alloc_check_passes opType st ->
        End_ (newPool st) <> "" \/ length (IPNet_IP ipnet) = 4%nat ->
        (Start (newPool st) <> "" /\ ParseIP (Start (newPool st)) = [])
        \/ (End_ (newPool st) <> "" /\ ParseIP (End_ (newPool st)) = []) ->
        exists st',
          validateAllocationPool opType st
          = (Ok (Some PoolOutsideCidrError), st')).
Proof.
  intros Hc Hp.
  assert (Hnil : forall s, ParseIP s = [] -> Contains ipnet (ParseIP s) = false).
  { intros s ->. apply Contains_nil. exact (ParseCIDR_shape _ _ Hp). }
  split; [exact Hnil|]. split.
  - intros routes gw Hin Hgw.
    unfold validateIpFields.
    apply String.eqb_neq in Hc. rewrite Hc, Hp.
    destruct routes as [entries|]; [|destruct Hin]. simpl in Hin.
    destruct (range_routes_outside ipnet cidr entries) as (gw' & Hin' & _ & Hr).
    { apply Exists_exists. exists gw. split; [exact Hin|]. apply Hnil, Hgw. }
    exists gw'. split; assumption.
  - intros opType st Hcidr Ha Hdone Hbad. subst cidr.
    destruct (defaultStart_parsed _ _ (Start (newPool st)) Hp) as (s & Hs & Hs').
    destruct (defaultEnd_completes ipnet (End_ (newPool st))) as (e & He & He').
    { destruct Hdone as [H|H]; [left; exact H|right].
      destruct (ParseCIDR_shape _ _ Hp) as [H4|[H6 _]]; [exact H4|].
      rewrite H6 in H. discriminate. }
    exists (set_pool st s e).
    rewrite (pool_rule_parsed _ _ ipnet Ha Hc Hp), Hs, He.
    unfold pool_checks.
    destruct Hbad as [[Hne Hbad]|[Hne Hbad]].
    + rewrite (Hs' Hne), (Hnil _ Hbad). reflexivity.
    + rewrite (He' Hne), (Hnil _ Hbad), orb_true_r. reflexivity.
Qed.

(** * Acceptance by a rule list *)

Lemma tenant_rule_create (st : Store) :
  validateTenantNetRules Create st
  = (Ok (if negb (Device (newOptions st) =? "")%string
            || negb (Vxlan (newOptions st) =? 0)
            || negb (Vlan (newOptions st) =? 0)
         then Some ManualDeviceOrTagOnCreateError else None), st).
Proof.
  unfold validateTenantNetRules, bind, ret, getNew, newOptions.
  change (Create =? Create)%string with true. cbn [andb].
  destruct (negb _ || negb _ || negb _); reflexivity.
Qed.

Lemma tenant_rule_update (st : Store) (old : DanmNet) :
  oldManifest st = Some old ->
  validateTenantNetRules Update st
  = (Ok (if negb (Device (newOptions st) =? Device (Options (Spec old)))%string
            || negb (Vxlan (newOptions st) =? Vxlan (Options (Spec old)))
            || negb (Vlan (newOptions st) =? Vlan (Options (Spec old)))
         then Some ManualDeviceOrTagOnUpdateError else None), st).
Proof.
  intros Hold.
  unfold validateTenantNetRules, bind, ret, getNew, getOld, newOptions.
  change (Update =? Create)%string with false.
  change (Update =? Update)%string with true. cbn [andb].
  rewrite Hold.
  destruct (negb _ || negb _ || negb _); reflexivity.
Qed.

Lemma pool_frame_fields (st st' : Store) :
  pool_frame st st' ->
  oldManifest st' = oldManifest st
  /\ Vlan (newOptions st') = Vlan (newOptions st)
  /\ Vxlan (newOptions st') = Vxlan (newOptions st)
  /\ Device (newOptions st') = Device (newOptions st).
Proof.
  intros (Ho & Hn & _). unfold newOptions. rewrite Hn. repeat split.
  exact Ho.
Qed.

(** A rule of an accepted list returned nil, on manifests that differ
    from the initial ones in the pool bounds at most. *)
Lemma accepted_rule (rules : ValidatorMapping) (opType : Operation) :
  Forall (fun v => forall st, pool_frame st (snd (v opType st))) rules ->
  forall st st',
    runValidators rules opType st = (Ok None, st') ->
    forall v, In v rules ->
    exists st1 st2, pool_frame st st1 /\ v opType st1 = (Ok None, st2).
Proof.
  induction rules as [|v0 rest IH]; intros Hall st st' Hrun v Hin.
  - destruct Hin.
  - inversion Hall as [|? ? Hv0 Hrest]; subst.
    simpl in Hrun. unfold bind in Hrun. specialize (Hv0 st).
    destruct (v0 opType st) as [[[e|]|] s1] eqn:Hv; cbn [snd] in *;
      try discriminate.
    destruct Hin as [<-|Hin].
    + exists st, s1. split; [apply pool_frame_refl|exact Hv].
    + destruct (IH Hrest s1 st' Hrun v Hin) as (st1 & st2 & Hf & Hr).
      exists st1, st2. split; [|exact Hr].
      apply (pool_frame_trans _ s1); assumption.
Qed.

Lemma mapping_frames (rules : ValidatorMapping) (opType : Operation) :
  Forall (fun v => In v read_only_rules \/ v = validateAllocationPool) rules ->
  Forall (fun v => forall st, pool_frame st (snd (v opType st))) rules.
Proof.
  intros H. eapply Forall_impl; [|exact H].
  intros v [Hv| ->] st0.
  - rewrite (read_only_rules_keep _ _ _ Hv). apply pool_frame_refl.
  - apply pool_rule_frame.
Qed.

Lemma accepted_by (kind : string) (opType : Operation) (st : Store)
  (rules : ValidatorMapping) (v : Validator) :
  danmValidationConfig kind = Some rules ->
  In v rules ->
  accepted kind opType st ->
  exists st1 st2, pool_frame st st1 /\ v opType st1 = (Ok None, st2).
Proof.
  intros Hk Hin (rules' & st' & Hk' & Hrun).
  rewrite Hk in Hk'. inversion Hk'; subst rules'.
  apply (accepted_rule rules opType) with (st' := st'); try assumption.
  apply mapping_frames. exact (registered_rules _ _ Hk).
Qed.

Lemma accepted_vids (kind : string) (opType : Operation) (st : Store)
  (rules : ValidatorMapping) :
  danmValidationConfig kind = Some rules ->
  In validateVids rules ->
  accepted kind opType st ->
  Vlan (newOptions st) = 0 \/ Vxlan (newOptions st) = 0.
Proof.
  intros Hk Hin Hacc.
  destruct (accepted_by _ _ _ _ _ Hk Hin Hacc) as (st1 & st2 & Hf & Hr).
  apply pool_frame_fields in Hf. destruct Hf as (_ & Hvlan & Hvxlan & _).
  rewrite vids_rule, Hvlan, Hvxlan in Hr.
  destruct (Vlan (newOptions st) =? 0) eqn:E1;
    [left; apply Z.eqb_eq; exact E1|].
  destruct (Vxlan (newOptions st) =? 0) eqn:E2;
    [right; apply Z.eqb_eq; exact E2|].
  discriminate.
Qed.

(** The claim of C5 fails for the tenant-scoped kind on Update: its
    list has no exclusivity rule, and the tenant rule only compares with
    the previous manifest. *)
Lemma tenant_update_keeps_both_tags :
  let m := manifest "net" "" "" "" "" None 5 7 in
  let st := mkStore (Some m) m in
  accepted "TenantNetwork" Update st
  /\ Vlan (newOptions st) = 5 /\ Vxlan (newOptions st) = 7.
Proof.
  repeat split.
  exists TenantNetMapping. eexists. split; [reflexivity|].
  vm_compute. reflexivity.
Qed.

(** C5 (amended): the VLAN/VXLAN exclusivity rule fails with
    [VlanVxlanConflictError] exactly when both [vlan] and [vxlan] are
    nonzero and succeeds otherwise. Every manifest accepted by the rule
    list of the namespace-scoped kind or of the cluster-scoped kind has
    [vlan] or [vxlan] zero. The list of the tenant-scoped kind omits the
    rule: a manifest it accepts on Create has both zero, and one it
    accepts on Update, given the previous manifest, has the previous
    manifest's [vlan] and [vxlan]. *)
Theorem vlan_vxlan_exclusive (opType : Operation) (st : Store) :
  let o := newOptions st in
  (exists r,
     validateVids opType st = (Ok r, st)
     /\ (r = Some VlanVxlanConflictError <-> (Vlan o <> 0 /\ Vxlan o <> 0))
     /\ (r = None <-> (Vlan o = 0 \/ Vxlan o = 0)))
  /\ (accepted "DanmNet" opType st -> Vlan o = 0 \/ Vxlan o = 0)
  /\ (accepted "ClusterNetwork" opType st -> Vlan o = 0 \/ Vxlan o = 0)
  /\ (opType = Create -> accepted "TenantNetwork" opType st ->
      Vlan o = 0 /\ Vxlan o = 0)
  /\ (opType = Update -> accepted "TenantNetwork" opType st ->
      forall old, oldManifest st = Some old ->
      Vlan o = Vlan (Options (Spec old))
      /\ Vxlan o = Vxlan (Options (Spec old))).
Proof.
  intros o. subst o. split; [|split; [|split; [|split]]].
  - rewrite vids_rule.
    destruct (Vlan (newOptions st) =? 0) eqn:E1;
      [apply Z.eqb_eq in E1 | apply Z.eqb_neq in E1];
      (destruct (Vxlan (newOptions st) =? 0) eqn:E2;
       [apply Z.eqb_eq in E2 | apply Z.eqb_neq in E2]);
      cbn [negb andb]; eexists; (split; [reflexivity|]);
      split; split; try discriminate; try tauto; intuition congruence.
  - apply (accepted_vids "DanmNet" _ _ DanmNetMapping); [reflexivity|].
    unfold DanmNetMapping. do 3 apply in_cons. apply in_eq.
  - apply (accepted_vids "ClusterNetwork" _ _ ClusterNetMapping);
      [reflexivity|].
    unfold ClusterNetMapping. do 3 apply in_cons. apply in_eq.
  - intros -> Hacc.
    destruct (accepted_by "TenantNetwork" Create st TenantNetMapping
                validateTenantNetRules) as (st1 & st2 & Hf & Hr);
      [reflexivity
      |unfold TenantNetMapping; do 5 apply in_cons; apply in_eq
      |exact Hacc|].
    apply pool_frame_fields in Hf. destruct Hf as (_ & Hvlan & Hvxlan & Hdev).
    rewrite tenant_rule_create, Hvlan, Hvxlan, Hdev in Hr.
    destruct (Vlan (newOptions st) =? 0) eqn:E1;
      [apply Z.eqb_eq in E1|rewrite orb_true_r in Hr; discriminate].
    destruct (Vxlan (newOptions st) =? 0) eqn:E2;
      [apply Z.eqb_eq in E2
      |rewrite orb_true_r in Hr; discriminate].
    split; assumption.
  - intros -> Hacc old Hold.
    destruct (accepted_by "TenantNetwork" Update st TenantNetMapping
                validateTenantNetRules) as (st1 & st2 & Hf & Hr);
      [reflexivity
      |unfold TenantNetMapping; do 5 apply in_cons; apply in_eq
      |exact Hacc|].
    apply pool_frame_fields in Hf. destruct Hf as (Ho & Hvlan & Hvxlan & Hdev).
    rewrite (tenant_rule_update st1 old) in Hr by congruence.
    rewrite Hvlan, Hvxlan, Hdev in Hr.
    destruct (Vlan (newOptions st) =? Vlan (Options (Spec old))) eqn:E1;
      [apply Z.eqb_eq in E1|rewrite orb_true_r in Hr; discriminate].
    destruct (Vxlan (newOptions st) =? Vxlan (Options (Spec old))) eqn:E2;
      [apply Z.eqb_eq in E2
      |rewrite orb_true_r in Hr; discriminate].
    split; assumption.
Qed.

(** * The theorems at concrete manifests *)

Lemma ip_rule_empty_cidr_witness :
  let st :=
    mkStore None
      (manifest "net" "" "" "" "" (Some [("10.1.0.0/16", "10.0.0.1")]) 0 0) in
  validateIpv4Fields Create st = (Ok (Some RoutesWithoutCidrError), st)
  /\ validateIpv6Fields Create st = (Ok None, st).
Proof.
  intros st. destruct (ip_rule_empty_cidr st Create) as (_ & H4 & H6).
  split; [apply H4|apply H6]; reflexivity.
Defined.

Lemma ip_rule_nonempty_cidr_witness :
  "10.0.0.0/24" <> ""
  /\ validateIpFields "10.0.0.0/24" (Some [("0.0.0.0/0", "10.0.0.1")]) = None
  /\ validateIpFields "10.0.0.0/24" (Some [("0.0.0.0/0", "10.0.1.1")])
     = Some (GatewayOutsideCidrError "10.0.1.1" "10.0.0.0/24")
  /\ validateIpFields "10.0.0.0" None = Some (InvalidCidrError "10.0.0.0").
Proof.
  assert (Hne : "10.0.0.0/24" <> "") by discriminate.
  assert (Hne' : "10.0.0.0" <> "") by discriminate.
  assert (Hp : ParseCIDR "10.0.0.0/24"
               = Some (mkIPNet [10; 0; 0; 0] [255; 255; 255; 0]))
    by (vm_compute; reflexivity).
  split; [exact Hne|]. split; [|split].
  - destruct (ip_rule_nonempty_cidr "10.0.0.0/24"
                (Some [("0.0.0.0/0", "10.0.0.1")]) Hne) as [_ H].
    destruct (H _ Hp) as [_ Hin]. apply Hin.
    repeat constructor.
  - destruct (ip_rule_nonempty_cidr "10.0.0.0/24"
                (Some [("0.0.0.0/0", "10.0.1.1")]) Hne) as [_ H].
    destruct (H _ Hp) as [Hout _].
    destruct Hout as (gw & Hgw & _ & Hr).
    { repeat constructor. }
    destruct Hgw as [<-|[]]. exact Hr.
  - destruct (ip_rule_nonempty_cidr "10.0.0.0" None Hne') as [H _].
    apply H. vm_compute. reflexivity.
Defined.

Lemma network_id_rule_witness :
  let st12 := mkStore None (manifest "abcdefghijkl" "" "" "" "" None 0 0) in
  let st13 := mkStore None (manifest "abcdefghijklm" "" "" "" "" None 0 0) in
  validateNetworkId Create st12 = (Ok None, st12)
  /\ validateNetworkId Create st13 = (Ok (Some NetworkIdTooLongError), st13).
Proof.
  intros st12 st13. split.
  - destruct (network_id_rule st12 Create) as (r & Hr & _ & _ & _ & H12 & _).
    rewrite Hr, H12; reflexivity.
  - destruct (network_id_rule st13 Create) as (r & Hr & _ & _ & _ & _ & H13).
    rewrite Hr, H13; reflexivity.
Defined.

Lemma tenant_rule_witness :
  let old := manifest "net" "" "" "" "" None 0 0 in
  let st := mkStore (Some old) (manifest "net" "" "" "" "" None 5 0) in
  validateTenantNetRules Update st
  = (Ok (Some ManualDeviceOrTagOnUpdateError), st)
  /\ validateTenantNetRules Delete st = (Ok None, st).
Proof.
  intros old st. destruct (tenant_rule st) as (_ & Hu & Ho). split.
  - destruct (Hu old eq_refl) as (r & Hr & Herr & _).
    rewrite Hr. f_equal. f_equal. apply Herr.
    right. left. discriminate.
  - apply Ho; discriminate.
Defined.

Lemma vlan_vxlan_exclusive_witness :
  let st := mkStore None (manifest "net" "" "" "" "" None 5 0) in
  accepted "DanmNet" Create st
  /\ (Vlan (newOptions st) = 0 \/ Vxlan (newOptions st) = 0).
Proof.
  intros st.
  assert (Hacc : accepted "DanmNet" Create st).
  { exists DanmNetMapping. eexists. split; [reflexivity|].
    vm_compute. reflexivity. }
  split; [exact Hacc|].
  destruct (vlan_vxlan_exclusive Create st) as (_ & H & _).
  apply H. exact Hacc.
Defined.

Lemma rules_frame_witness :
  let st := mkStore None (manifest "net" "10.0.0.0/24" "" "" "" None 0 0) in
  snd (validateVids Create st) = st
  /\ pool_frame st (snd (runValidators DanmNetMapping Create st)).
Proof.
  intros st. destruct (rules_frame Create st) as (Hro & _ & Hchain). split.
  - apply Hro. unfold read_only_rules. do 2 apply in_cons. apply in_eq.
  - apply (Hchain "DanmNet"). reflexivity.
Defined.

Lemma pool_defaults_witness :
  let st := mkStore None (manifest "net" "10.0.0.0/24" "" "" "" None 0 0) in
  alloc_check_passes Create st
  /\ Cidr (newOptions st) <> ""
  /\ validateAllocationPool Create st
     = (Ok None, set_pool st "10.0.0.1" "10.0.0.254").
Proof.
  intros st.
  assert (Ha : alloc_check_passes Create st) by (right; reflexivity).
  assert (Hc : Cidr (newOptions st) <> "") by discriminate.
  split; [exact Ha|]. split; [exact Hc|].
  destruct (pool_defaults Create st Ha Hc) as [_ H].
  apply H; reflexivity.
Defined.

Lemma pool_rule_errors_witness :
  let st :=
    mkStore None
      (manifest "net" "10.0.0.0/24" "10.0.0.200" "10.0.0.100" "" None 0 0) in
  alloc_check_passes Create st
  /\ validateAllocationPool Create st
     = (Ok (Some (PoolInvertedError "10.0.0.200" "10.0.0.100")), st).
Proof.
  intros st.
  assert (Ha : alloc_check_passes Create st) by (right; reflexivity).
  split; [exact Ha|].
  destruct (pool_rule_errors Create st Ha) as (_ & _ & _ & H).
  apply H; reflexivity.
Defined.

Lemma unparsable_addresses_witness :
  let st :=
    mkStore None (manifest "net" "10.0.0.0/24" "10.0.0.x" "" "" None 0 0) in
  "10.0.0.0/24" <> ""
  /\ ParseCIDR "10.0.0.0/24" = Some (mkIPNet [10; 0; 0; 0] [255; 255; 255; 0])
  /\ ParseIP "10.0.0.x" = []
  /\ exists st',
       validateAllocationPool Create st
       = (Ok (Some PoolOutsideCidrError), st').
Proof.
  intros st.
  assert (Hne : "10.0.0.0/24" <> "") by discriminate.
  assert (Hp : ParseCIDR "10.0.0.0/24"
               = Some (mkIPNet [10; 0; 0; 0] [255; 255; 255; 0]))
    by (vm_compute; reflexivity).
  assert (Hbad : ParseIP "10.0.0.x" = []) by (vm_compute; reflexivity).
  split; [exact Hne|]. split; [exact Hp|]. split; [exact Hbad|].
  destruct (unparsable_addresses _ _ Hne Hp) as (_ & _ & H).
  apply (H Create st).
  - reflexivity.
  - right. reflexivity.
  - right. reflexivity.
  - left. split; [discriminate|exact Hbad].
Defined.

(** * The rules one by one, and the chain *)

Lemma read_only_rule_value (v : Validator) (opType : Operation) (st : Store) :
  In v read_only_rules -> v opType st = (fst (v opType st), st).
Proof.
  intros Hv. rewrite <- (read_only_rules_keep v opType st Hv) at 3.
  apply surjective_pairing.
Qed.

Lemma pool_frame_rest (st st' : Store) :
  pool_frame st st' ->
  oldManifest st' = oldManifest st
  /\ NetworkID (Spec (newManifest st')) = NetworkID (Spec (newManifest st))
  /\ AllowedTenants (Spec (newManifest st'))
     = AllowedTenants (Spec (newManifest st))
  /\ Device (newOptions st') = Device (newOptions st)
  /\ Cidr (newOptions st') = Cidr (newOptions st)
  /\ Net6 (newOptions st') = Net6 (newOptions st)
  /\ Routes (newOptions st') = Routes (newOptions st)
  /\ Routes6 (newOptions st') = Routes6 (newOptions st)
  /\ Alloc (newOptions st') = Alloc (newOptions st)
  /\ Vlan (newOptions st') = Vlan (newOptions st)
  /\ Vxlan (newOptions st') = Vxlan (newOptions st).
Proof.
  intros (Ho & Hn & _). unfold newOptions. rewrite Hn.
  split; [exact Ho|]. repeat split.
Qed.

(** A rule that only reads gives the same result whether or not the
    pool bounds were defaulted before. *)
Lemma read_only_rule_frame (v : Validator) (opType : Operation)
  (st st' : Store) :
  In v read_only_rules -> pool_frame st st' ->
  fst (v opType st') = fst (v opType st).
Proof.
  intros Hv Hf. apply pool_frame_rest in Hf.
  destruct Hf as (Ho & Hnid & Hat & Hdev & Hc & Hn6 & Hr & Hr6 & _ & Hvl & Hvx).
  unfold newOptions in *.
  unfold read_only_rules in Hv. cbn [In] in Hv.
  destruct Hv as [<-|[<-|[<-|[<-|[<-|[<-|[]]]]]]];
    unfold validateIpv4Fields, validateIpv6Fields, validateVids,
      validateNetworkId, validateAbsenceOfAllowedTenants,
      validateTenantNetRules, bind, ret, getNew, getOld; cbv beta iota.
  - cbn [fst]. rewrite Hc, Hr. reflexivity.
  - cbn [fst]. rewrite Hn6, Hr6. reflexivity.
  - rewrite Hvl, Hvx. clear.
    destruct (negb (Vlan (Options (Spec (newManifest st))) =? 0)
              && negb (Vxlan (Options (Spec (newManifest st))) =? 0));
      reflexivity.
  - rewrite Hnid. clear.
    destruct (NetworkID (Spec (newManifest st)) =? "")%string; [reflexivity|].
    destruct (MaxNidLength <? String.length (NetworkID (Spec (newManifest st))))%nat;
      reflexivity.
  - rewrite Hat. clear.
    destruct (AllowedTenants (Spec (newManifest st))); reflexivity.
  - rewrite Hdev, Hvl, Hvx.
    destruct ((opType =? Create)%string
              && (negb (Device (Options (Spec (newManifest st))) =? "")%string
                  || negb (Vxlan (Options (Spec (newManifest st))) =? 0)
                  || negb (Vlan (Options (Spec (newManifest st))) =? 0)));
      [reflexivity|].
    destruct (opType =? Update)%string; [|reflexivity].
    cbv beta iota. rewrite Ho.
    destruct (oldManifest st) as [old|]; [|reflexivity].
    cbv beta iota.
    destruct (negb (Device (Options (Spec (newManifest st)))
                    =? Device (Options (Spec old)))%string
              || negb (Vxlan (Options (Spec (newManifest st)))
                       =? Vxlan (Options (Spec old)))
              || negb (Vlan (Options (Spec (newManifest st)))
                       =? Vlan (Options (Spec old)))); reflexivity.
Qed.

Lemma run_read_only (rules : ValidatorMapping) (opType : Operation)
  (st : Store) :
  Forall (fun v => In v read_only_rules) rules ->
  runValidators rules opType st
  = (first_result (results_on rules opType st), st).
Proof.
  induction rules as [|v rest IH]; intros Hall.
  - reflexivity.
  - inversion Hall as [|? ? Hv Hrest]; subst.
    cbn [runValidators results_on map first_result]. unfold bind.
    rewrite (read_only_rule_value v opType st Hv).
    cbn [fst].
    destruct (fst (v opType st)) as [[e|]|]; try reflexivity.
    apply IH. exact Hrest.
Qed.

Lemma first_result_app (l1 l2 : list (Result (option error))) :
  first_result (l1 ++ l2)
  = match first_result l1 with
    | Ok None => first_result l2
    | r => r
    end.
Proof.
  induction l1 as [|r l1 IH]; cbn [app first_result].
  - destruct (first_result l2) as [[e|]|]; reflexivity.
  - destruct r as [[e|]|]; [reflexivity|exact IH|reflexivity].
Qed.

Lemma results_on_frame (rules : ValidatorMapping) (opType : Operation)
  (st st' : Store) :
  Forall (fun v => In v read_only_rules) rules -> pool_frame st st' ->
  results_on rules opType st' = results_on rules opType st.
Proof.
  intros Hall Hf. unfold results_on. apply map_ext_in.
  intros v Hv. apply read_only_rule_frame; [|exact Hf].
  rewrite Forall_forall in Hall. apply Hall. exact Hv.
Qed.

(** The chain of a list made of read-only rules around the pool rule. *)
Lemma run_around_pool (before after : ValidatorMapping) (opType : Operation)
  (st : Store) :
  Forall (fun v => In v read_only_rules) before ->
  Forall (fun v => In v read_only_rules) after ->
  let rules := before ++ validateAllocationPool :: after in
  runValidators rules opType st
  = (first_result (results_on rules opType st),
     match first_result (results_on before opType st) with
     | Ok None => snd (validateAllocationPool opType st)
     | _ => st
     end).
Proof.
  intros Hb Ha rules. subst rules. revert st.
  induction before as [|v rest IH]; intros st.
  - cbn [app runValidators results_on map first_result]. unfold bind.
    pose proof (pool_rule_frame opType st) as Hf.
    destruct (validateAllocationPool opType st) as [[[e|]|] st2];
      cbn [fst snd] in *; try reflexivity.
    rewrite (run_read_only after opType st2 Ha).
    fold (results_on after opType st).
    rewrite (results_on_frame after opType st st2 Ha Hf). reflexivity.
  - inversion Hb as [|? ? Hv Hrest]; subst.
    cbn [app runValidators results_on map first_result]. unfold bind.
    rewrite (read_only_rule_value v opType st Hv). cbn [fst].
    destruct (fst (v opType st)) as [[e|]|]; try reflexivity.
    apply (IH Hrest).
Qed.

Ltac read_only_list :=
  repeat (apply Forall_cons;
          [unfold read_only_rules; cbn [In];
           repeat (first [left; reflexivity | right])|]);
  apply Forall_nil.

Lemma registered_split (kind : string) (rules : ValidatorMapping) :
  danmValidationConfig kind = Some rules ->
  exists after,
    rules = [validateIpv4Fields; validateIpv6Fields]
            ++ validateAllocationPool :: after
    /\ Forall (fun v => In v read_only_rules) after
    /\ In validateNetworkId after
    /\ (kind = "DanmNet" \/ kind = "ClusterNetwork" \/ kind = "TenantNetwork").
Proof.
  unfold danmValidationConfig.
  destruct (kind =? "DanmNet")%string eqn:E1;
    [|destruct (kind =? "ClusterNetwork")%string eqn:E2;
      [|destruct (kind =? "TenantNetwork")%string eqn:E3]];
    intros H; inversion H; subst; clear H.
  - apply String.eqb_eq in E1.
    exists [validateVids; validateNetworkId; validateAbsenceOfAllowedTenants].
    split; [reflexivity|]. split; [|split; [|auto]].
    + read_only_list.
    + apply in_cons, in_eq.
  - apply String.eqb_eq in E2.
    exists [validateVids; validateNetworkId].
    split; [reflexivity|]. split; [|split; [|auto]].
    + read_only_list.
    + apply in_cons, in_eq.
  - apply String.eqb_eq in E3.
    exists [validateNetworkId; validateAbsenceOfAllowedTenants;
            validateTenantNetRules].
    split; [reflexivity|]. split; [|split; [|auto]].
    + read_only_list.
    + apply in_eq.
Qed.

Lemma ip_rules_read_only :
  Forall (fun v => In v read_only_rules)
    [validateIpv4Fields; validateIpv6Fields].
Proof. read_only_list. Qed.

Lemma first_result_nil_iff (results : list (Result (option error))) :
  first_result results = Ok None <-> Forall (fun r => r = Ok None) results.
Proof.
  induction results as [|r rest IH]; cbn [first_result].
  - split; auto.
  - destruct r as [[e|]|].
    + split; [discriminate|]. intros H. inversion H. discriminate.
    + rewrite IH. split; [intros H; constructor; auto|].
      intros H. inversion H. assumption.
    + split; [discriminate|]. intros H. inversion H. discriminate.
Qed.

Lemma run_registered (kind : string) (rules : ValidatorMapping)
  (opType : Operation) (st : Store) :
  danmValidationConfig kind = Some rules ->
  runValidators rules opType st
  = (first_result (results_on rules opType st),
     match first_result
             (results_on [validateIpv4Fields; validateIpv6Fields] opType st)
     with
     | Ok None => snd (validateAllocationPool opType st)
     | _ => st
     end).
Proof.
  intros Hk. destruct (registered_split _ _ Hk) as (after & -> & Ha & _).
  apply (run_around_pool _ after opType st ip_rules_read_only Ha).
Qed.

Lemma accepted_each (kind : string) (opType : Operation) (st : Store) :
  accepted kind opType st ->
  exists rules,
    danmValidationConfig kind = Some rules
    /\ (forall v, In v rules -> fst (v opType st) = Ok None)
    /\ runValidators rules opType st
       = (Ok None, snd (validateAllocationPool opType st)).
Proof.
  intros (rules & st' & Hk & Hrun). exists rules. split; [exact Hk|].
  rewrite (run_registered _ _ opType st Hk) in Hrun.
  apply (f_equal fst) in Hrun. cbn [fst] in Hrun.
  assert (Hall : forall v, In v rules -> fst (v opType st) = Ok None).
  { apply first_result_nil_iff in Hrun. unfold results_on in Hrun.
    rewrite Forall_map, Forall_forall in Hrun. exact Hrun. }
  split; [exact Hall|].
  rewrite (run_registered _ _ opType st Hk), Hrun. f_equal.
  destruct (registered_split _ _ Hk) as (after & -> & _).
  unfold results_on. cbn [map first_result].
  rewrite (Hall validateIpv4Fields) by (left; reflexivity).
  rewrite (Hall validateIpv6Fields) by (right; left; reflexivity).
  reflexivity.
Qed.

(** X1: the verdict of the chain of a registered kind is the first
    result that is not nil among its rules, each run on the manifests as
    they came in: no rule reads what the pool rule defaults. The chain
    leaves the manifests as the pool rule leaves them, or untouched when
    an IP field rule stops the chain before. *)
Theorem chain_verdict (kind : string) (rules : ValidatorMapping)
  (opType : Operation) (st : Store) :
  danmValidationConfig kind = Some rules ->
  runValidators rules opType st
  = (first_result (results_on rules opType st),
     match first_result
             (results_on [validateIpv4Fields; validateIpv6Fields] opType st)
     with
     | Ok None => snd (validateAllocationPool opType st)
     | _ => st
     end).
Proof.
  intros Hk. destruct (registered_split _ _ Hk) as (after & -> & Ha & _).
  apply (run_around_pool _ after opType st ip_rules_read_only Ha).
Qed.

Lemma chain_verdict_witness :
  let st := mkStore None (manifest "" "10.0.0.0/24" "" "" "" None 5 7) in
  danmValidationConfig "DanmNet" = Some DanmNetMapping
  /\ runValidators DanmNetMapping Create st
     = (Ok (Some VlanVxlanConflictError),
        set_pool st "10.0.0.1" "10.0.0.254").
Proof.
  intros st. split; [reflexivity|].
  rewrite (chain_verdict "DanmNet" DanmNetMapping Create st eq_refl).
  vm_compute. reflexivity.
Defined.

(** X2: a manifest is accepted as a registered kind exactly when every
    rule of the kind's list, run on its own on the manifests as they
    came in, returns nil; no other kind accepts anything. *)
Theorem accepted_iff_each_rule (kind : string) (opType : Operation)
  (st : Store) :
  (accepted kind opType st <->
   exists rules,
     danmValidationConfig kind = Some rules
     /\ forall v, In v rules -> fst (v opType st) = Ok None)
  /\ (accepted kind opType st ->
      kind = "DanmNet" \/ kind = "ClusterNetwork" \/ kind = "TenantNetwork").
Proof.
  split; [split|].
  - intros Hacc. destruct (accepted_each _ _ _ Hacc) as (rules & Hk & Hall & _).
    exists rules. split; assumption.
  - intros (rules & Hk & Hall).
    exists rules. eexists. split; [exact Hk|].
    rewrite (run_registered _ _ opType st Hk). f_equal.
    apply first_result_nil_iff. unfold results_on.
    rewrite Forall_map, Forall_forall. exact Hall.
  - intros (rules & st' & Hk & _).
    destruct (registered_split _ _ Hk) as (after & _ & _ & _ & H). exact H.
Qed.

Lemma accepted_iff_each_rule_witness :
  let st := mkStore None (manifest "net" "10.0.0.0/24" "" "" "" None 5 0) in
  accepted "ClusterNetwork" Create st
  /\ fst (validateVids Create st) = Ok None.
Proof.
  intros st.
  assert (Hacc : accepted "ClusterNetwork" Create st).
  { exists ClusterNetMapping. eexists. split; [reflexivity|].
    vm_compute. reflexivity. }
  split; [exact Hacc|].
  destruct (accepted_iff_each_rule "ClusterNetwork" Create st) as [[H _] _].
  destruct (H Hacc) as (rules & Hk & Hall).
  apply Hall. inversion Hk. unfold ClusterNetMapping.
  do 3 apply in_cons. apply in_eq.
Defined.

(** * What an accepted manifest looks like *)

Lemma range_routes_nil (ipnet : IPNet) (cidr : string)
  (entries : list (string * string)) :
  range_routes ipnet cidr entries = None <->
  Forall (fun gw => Contains ipnet (ParseIP gw) = true) (map snd entries).
Proof.
  induction entries as [|[dst gw] rest IH]; cbn [range_routes map snd].
  - split; auto.
  - destruct (Contains ipnet (ParseIP gw)) eqn:Hgw; cbn [negb].
    + rewrite IH. split; [intros H; constructor; assumption|].
      intros H. inversion H. assumption.
    + split; [discriminate|]. intros H. inversion H. congruence.
Qed.

Lemma ip_fields_nil (cidr : string) (routes : option (list (string * string))) :
  validateIpFields cidr routes = None <-> ip_fields_ok cidr routes.
Proof.
  unfold validateIpFields, ip_fields_ok.
  destruct (cidr =? "")%string eqn:Hc;
    [apply String.eqb_eq in Hc | apply String.eqb_neq in Hc].
  - destruct routes as [entries|].
    + split; [discriminate|]. intros [H _]. specialize (H Hc). discriminate.
    + split; [|reflexivity]. intros _. split; [reflexivity|]. contradiction.
  - destruct (ParseCIDR cidr) as [ipnet|].
    + destruct routes as [entries|]; cbn [gateways].
      * rewrite range_routes_nil. split.
        -- intros H. split; [contradiction|]. intros _. exists ipnet. auto.
        -- intros [_ H]. destruct (H Hc) as (n & Hn & Hall).
           inversion Hn; subst. exact Hall.
      * split; [|reflexivity]. intros _. split; [contradiction|].
        intros _. exists ipnet. split; [reflexivity|constructor].
    + split; [discriminate|]. intros [_ H].
      destruct (H Hc) as (n & Hn & _). discriminate.
Qed.

Lemma ip_rules_value (opType : Operation) (st : Store) :
  validateIpv4Fields opType st
  = (Ok (validateIpFields (Cidr (newOptions st)) (Routes (newOptions st))), st)
  /\ validateIpv6Fields opType st
     = (Ok (validateIpFields (Net6 (newOptions st)) (Routes6 (newOptions st))),
        st).
Proof. split; reflexivity. Qed.

Lemma network_id_value (opType : Operation) (st : Store) :
  validateNetworkId opType st
  = (Ok (if (NetworkID (Spec (newManifest st)) =? "")%string
         then Some MissingNetworkIdError
         else if (MaxNidLength
                  <? String.length (NetworkID (Spec (newManifest st))))%nat
              then Some NetworkIdTooLongError
              else None), st).
Proof.
  unfold validateNetworkId, bind, ret, getNew.
  destruct (NetworkID (Spec (newManifest st)) =? "")%string; [reflexivity|].
  destruct (MaxNidLength <? _)%nat; reflexivity.
Qed.

Lemma allowed_tenants_value (opType : Operation) (st : Store) :
  validateAbsenceOfAllowedTenants opType st
  = (Ok (match AllowedTenants (Spec (newManifest st)) with
         | Some _ => Some AllowedTenantsNotPermittedError
         | None => None
         end), st).
Proof.
  unfold validateAbsenceOfAllowedTenants, bind, ret, getNew.
  destruct (AllowedTenants (Spec (newManifest st))); reflexivity.
Qed.

Lemma accepted_has (kind : string) (opType : Operation) (st : Store)
  (v : Validator) :
  accepted kind opType st ->
  (forall rules, danmValidationConfig kind = Some rules -> In v rules) ->
  fst (v opType st) = Ok None.
Proof.
  intros Hacc Hin.
  destruct (accepted_each _ _ _ Hacc) as (rules & Hk & Hall & _).
  apply Hall, Hin, Hk.
Qed.

Lemma shared_rules (kind : string) (rules : ValidatorMapping) :
  danmValidationConfig kind = Some rules ->
  In validateIpv4Fields rules /\ In validateIpv6Fields rules
  /\ In validateAllocationPool rules /\ In validateNetworkId rules.
Proof.
  intros Hk. destruct (registered_split _ _ Hk) as (after & -> & _ & Hn & _).
  repeat split.
  - left. reflexivity.
  - right. left. reflexivity.
  - right. right. left. reflexivity.
  - right. right. right. exact Hn.
Qed.

(** X3: whatever the kind and the operation, an accepted manifest has
    a [networkId] that is not empty and at most 12 bytes long, no routes
    without a CIDR, and under each of [cidr] and [net6] that is set a
    CIDR that parses and contains every gateway of its routes. *)
Theorem accepted_addressing (kind : string) (opType : Operation) (st : Store) :
  accepted kind opType st ->
  let o := newOptions st in
  NetworkID (Spec (newManifest st)) <> ""
  /\ (String.length (NetworkID (Spec (newManifest st))) <= 12)%nat
  /\ ip_fields_ok (Cidr o) (Routes o)
  /\ ip_fields_ok (Net6 o) (Routes6 o).
Proof.
  intros Hacc o. subst o.
  assert (H4 := accepted_has _ _ _ validateIpv4Fields Hacc
                  (fun r Hk => proj1 (shared_rules _ r Hk))).
  assert (H6 := accepted_has _ _ _ validateIpv6Fields Hacc
                  (fun r Hk => proj1 (proj2 (shared_rules _ r Hk)))).
  assert (Hn := accepted_has _ _ _ validateNetworkId Hacc
                  (fun r Hk => proj2 (proj2 (proj2 (shared_rules _ r Hk))))).
  rewrite (proj1 (ip_rules_value opType st)) in H4.
  rewrite (proj2 (ip_rules_value opType st)) in H6.
  rewrite network_id_value in Hn. cbn [fst] in *.
  assert (H4' : validateIpFields (Cidr (newOptions st))
                  (Routes (newOptions st)) = None) by congruence.
  assert (H6' : validateIpFields (Net6 (newOptions st))
                  (Routes6 (newOptions st)) = None) by congruence.
  apply ip_fields_nil in H4', H6'.
  destruct (NetworkID (Spec (newManifest st)) =? "")%string eqn:E;
    [discriminate|].
  destruct (MaxNidLength <? _)%nat eqn:L; [discriminate|].
  apply String.eqb_neq in E. apply Nat.ltb_ge in L.
  split; [exact E|]. split; [exact L|]. split; assumption.
Qed.

Lemma accepted_addressing_witness :
  let st :=
    mkStore None
      (manifest "net" "10.0.0.0/24" "" "" ""
         (Some [("0.0.0.0/0", "10.0.0.1")]) 0 0) in
  accepted "DanmNet" Create st
  /\ ip_fields_ok (Cidr (newOptions st)) (Routes (newOptions st)).
Proof.
  intros st.
  assert (Hacc : accepted "DanmNet" Create st).
  { exists DanmNetMapping. eexists. split; [reflexivity|].
    vm_compute. reflexivity. }
  split; [exact Hacc|].
  apply (accepted_addressing "DanmNet" Create st Hacc).
Defined.

(** * The pool of an accepted manifest *)

Lemma pool_checks_nil (ipnet : IPNet) (s e : string) :
  pool_checks ipnet s e = Ok None <->
  Contains ipnet (ParseIP s) = true
  /\ Contains ipnet (ParseIP e) = true
  /\ exists vs ve,
       ipam.Ip2int (ParseIP s) = Some vs
       /\ ipam.Ip2int (ParseIP e) = Some ve
       /\ vs < ve.
Proof.
  unfold pool_checks.
  destruct (Contains ipnet (ParseIP s)); cbn [negb orb];
    [|split; [discriminate|intros [H _]; discriminate]].
  destruct (Contains ipnet (ParseIP e)); cbn [negb];
    [|split; [discriminate|intros (_ & H & _); discriminate]].
  destruct (ipam.Ip2int (ParseIP e)) as [ve|];
    [|split; [discriminate|intros (_ & _ & vs & ve & _ & H & _); discriminate]].
  destruct (ipam.Ip2int (ParseIP s)) as [vs|];
    [|split; [discriminate|intros (_ & _ & vs & ve' & H & _); discriminate]].
  destruct (ve <=? vs) eqn:Hle;
    [apply Z.leb_le in Hle | apply Z.leb_gt in Hle].
  - split; [discriminate|].
    intros (_ & _ & vs' & ve' & Hs & He & Hlt).
    inversion Hs; inversion He; subst. lia.
  - split; [|reflexivity]. intros _. repeat split.
    exists vs, ve. repeat split. exact Hle.
Qed.

Lemma pool_rule_nil (opType : Operation) (st : Store) :
  fst (validateAllocationPool opType st) = Ok None ->
  alloc_check_passes opType st
  /\ (Cidr (newOptions st) = "" ->
      Start (newPool st) = "" /\ End_ (newPool st) = ""
      /\ snd (validateAllocationPool opType st) = st)
  /\ (Cidr (newOptions st) <> "" ->
      exists ipnet s e,
        ParseCIDR (Cidr (newOptions st)) = Some ipnet
        /\ defaultStart ipnet (Start (newPool st)) = Some s
        /\ defaultEnd ipnet (End_ (newPool st)) = Some e
        /\ snd (validateAllocationPool opType st) = set_pool st s e
        /\ pool_checks ipnet s e = Ok None).
Proof.
  intros Hnil.
  destruct (alloc_check_dec opType st) as [Ha|Ha].
  2:{ rewrite (pool_rule_alloc _ _ Ha) in Hnil. discriminate. }
  split; [exact Ha|]. split.
  - intros Hc. rewrite (pool_rule_no_cidr _ _ Ha Hc) in *. cbn [fst snd] in *.
    destruct (Start (newPool st) =? "")%string eqn:Es; [|discriminate].
    destruct (End_ (newPool st) =? "")%string eqn:Ee; [|discriminate].
    apply String.eqb_eq in Es, Ee. repeat split; assumption.
  - intros Hc.
    destruct (ParseCIDR (Cidr (newOptions st))) as [ipnet|] eqn:Hp.
    2:{ rewrite (pool_rule_bad_cidr _ _ Ha Hc Hp) in Hnil. discriminate. }
    rewrite (pool_rule_parsed _ _ ipnet Ha Hc Hp) in *.
    destruct (defaultStart ipnet (Start (newPool st))) as [s|] eqn:Hs;
      [|discriminate].
    destruct (defaultEnd ipnet (End_ (newPool st))) as [e|] eqn:He;
      [|discriminate].
    cbn [fst snd] in *. exists ipnet, s, e.
    repeat split; reflexivity || assumption.
Qed.

Lemma default_keeps (ipnet : IPNet) (start end_ s e : string) :
  (defaultStart ipnet start = Some s -> start <> "" -> s = start)
  /\ (defaultEnd ipnet end_ = Some e -> end_ <> "" -> e = end_).
Proof.
  unfold defaultStart, defaultEnd. split; intros H Hne;
    apply String.eqb_neq in Hne; rewrite Hne in H; congruence.
Qed.

(** X4: an accepted manifest of any kind has no preset [alloc] on
    Create; without a CIDR it has no pool bound and is left as it came;
    with a CIDR, the bounds the pool rule leaves (those given, or the
    defaults) both lie inside the parsed subnet and the start's number
    is below the end's. The chain hands back the manifest as the pool
    rule left it. *)
Theorem accepted_pool (kind : string) (opType : Operation) (st : Store) :
  accepted kind opType st ->
  let final := snd (validateAllocationPool opType st) in
  (opType = Create -> Alloc (newOptions st) = "")
  /\ (Cidr (newOptions st) = "" ->
      Start (newPool st) = "" /\ End_ (newPool st) = "" /\ final = st)
  /\ (Cidr (newOptions st) <> "" ->
      exists ipnet vs ve,
        ParseCIDR (Cidr (newOptions st)) = Some ipnet
        /\ Contains ipnet (ParseIP (Start (newPool final))) = true
        /\ Contains ipnet (ParseIP (End_ (newPool final))) = true
        /\ ipam.Ip2int (ParseIP (Start (newPool final))) = Some vs
        /\ ipam.Ip2int (ParseIP (End_ (newPool final))) = Some ve
        /\ vs < ve
        /\ (Start (newPool st) <> "" ->
            Start (newPool final) = Start (newPool st))
        /\ (End_ (newPool st) <> "" ->
            End_ (newPool final) = End_ (newPool st)))
  /\ exists rules,
       danmValidationConfig kind = Some rules
       /\ runValidators rules opType st = (Ok None, final).
Proof.
  intros Hacc final. subst final.
  destruct (accepted_each _ _ _ Hacc) as (rules & Hk & Hall & Hrun).
  assert (Hnil : fst (validateAllocationPool opType st) = Ok None).
  { apply Hall. exact (proj1 (proj2 (proj2 (shared_rules _ _ Hk)))). }
  destruct (pool_rule_nil _ _ Hnil) as (Ha & Hl2 & Hl3).
  split; [|split; [exact Hl2|split]].
  - intros ->. destruct Ha as [Ha|Ha]; [contradiction|exact Ha].
  - intros Hc. destruct (Hl3 Hc) as (ipnet & s & e & Hp & Hs & He & Hst & Hch).
    apply pool_checks_nil in Hch.
    destruct Hch as (Hcs & Hce & vs & ve & Hvs & Hve & Hlt).
    exists ipnet, vs, ve. rewrite Hst.
    change (newPool (set_pool st s e)) with (mkIpPool s e). cbn [Start End_].
    destruct (default_keeps ipnet (Start (newPool st)) (End_ (newPool st)) s e)
      as [Hks Hke].
    repeat split; auto.
  - exists rules. split; assumption.
Qed.

Lemma accepted_pool_witness :
  let st := mkStore None (manifest "net" "10.0.0.0/24" "" "" "" None 0 0) in
  accepted "TenantNetwork" Create st
  /\ runValidators TenantNetMapping Create st
     = (Ok None, set_pool st "10.0.0.1" "10.0.0.254").
Proof.
  intros st.
  assert (Hacc : accepted "TenantNetwork" Create st).
  { exists TenantNetMapping. eexists. split; [reflexivity|].
    vm_compute. reflexivity. }
  split; [exact Hacc|].
  destruct (accepted_pool "TenantNetwork" Create st Hacc)
    as (_ & _ & _ & rules & Hk & Hrun).
  inversion Hk; subst rules. rewrite Hrun. vm_compute. reflexivity.
Defined.

(** X5: on Create a manifest with a non-empty [alloc] makes the pool
    rule fail with [AllocPresetOnCreateError], whatever its other fields
    are, and no kind accepts it; the rule leaves the manifests as they
    were. *)
Theorem alloc_preset_rejected (st : Store) :
  Alloc (newOptions st) <> "" ->
  validateAllocationPool Create st = (Ok (Some AllocPresetOnCreateError), st)
  /\ forall kind, ~ accepted kind Create st.
Proof.
  intros Hne.
  assert (Ha : ~ alloc_check_passes Create st).
  { intros [H|H]; [apply H; reflexivity|contradiction]. }
  split; [exact (pool_rule_alloc _ _ Ha)|].
  intros kind Hacc.
  destruct (accepted_each _ _ _ Hacc) as (rules & Hk & Hall & _).
  assert (Hnil : fst (validateAllocationPool Create st) = Ok None).
  { apply Hall. exact (proj1 (proj2 (proj2 (shared_rules _ _ Hk)))). }
  rewrite (pool_rule_alloc _ _ Ha) in Hnil. discriminate.
Qed.

Lemma alloc_preset_rejected_witness :
  let st :=
    mkStore None (manifest "net" "10.0.0.0/24" "" "" "ff00" None 0 0) in
  Alloc (newOptions st) <> ""
  /\ validateAllocationPool Create st
     = (Ok (Some AllocPresetOnCreateError), st).
Proof.
  intros st.
  assert (Hne : Alloc (newOptions st) <> "") by discriminate.
  split; [exact Hne|]. exact (proj1 (alloc_preset_rejected st Hne)).
Defined.

(** X6: a non-empty CIDR that does not parse makes the IPv4 field rule
    fail with its invalid-CIDR message and, once the alloc test has
    passed, the pool rule fail with a message of its own; neither
    touches the manifests, and no kind accepts the manifest. *)
Theorem invalid_cidr_rejected (opType : Operation) (st : Store) :
  Cidr (newOptions st) <> "" ->
  ParseCIDR (Cidr (newOptions st)) = None ->
  validateIpv4Fields opType st
  = (Ok (Some (InvalidCidrError (Cidr (newOptions st)))), st)
  /\ (alloc_check_passes opType st ->
      validateAllocationPool opType st
      = (Ok (Some (PoolInvalidCidrError (Cidr (newOptions st)))), st))
  /\ InvalidCidrError (Cidr (newOptions st))
     <> PoolInvalidCidrError (Cidr (newOptions st))
  /\ forall kind, ~ accepted kind opType st.
Proof.
  intros Hc Hp.
  assert (H4 : validateIpv4Fields opType st
               = (Ok (Some (InvalidCidrError (Cidr (newOptions st)))), st)).
  { rewrite (proj1 (ip_rules_value opType st)). unfold validateIpFields.
    apply String.eqb_neq in Hc. rewrite Hc, Hp. reflexivity. }
  split; [exact H4|]. split; [|split].
  - intros Ha. exact (pool_rule_bad_cidr _ _ Ha Hc Hp).
  - unfold InvalidCidrError, PoolInvalidCidrError. intros H.
    inversion H.
  - intros kind Hacc.
    destruct (accepted_each _ _ _ Hacc) as (rules & Hk & Hall & _).
    assert (Hnil : fst (validateIpv4Fields opType st) = Ok None).
    { apply Hall. exact (proj1 (shared_rules _ _ Hk)). }
    rewrite H4 in Hnil. discriminate.
Qed.

Lemma invalid_cidr_rejected_witness :
  let st := mkStore None (manifest "net" "10.0.0.0/33" "" "" "" None 0 0) in
  ParseCIDR (Cidr (newOptions st)) = None
  /\ validateAllocationPool Update st
     = (Ok (Some (PoolInvalidCidrError "10.0.0.0/33")), st).
Proof.
  intros st.
  assert (Hc : Cidr (newOptions st) <> "") by discriminate.
  assert (Hp : ParseCIDR (Cidr (newOptions st)) = None)
    by (vm_compute; reflexivity).
  split; [exact Hp|].
  apply (proj1 (proj2 (invalid_cidr_rejected Update st Hc Hp))).
  left. discriminate.
Defined.

(** * Panics *)

Lemma CIDRMask_in_range (ones : Z) (bytes : nat) :
  (bytes = 4 \/ bytes = 16)%nat -> 0 <= ones <= Z.of_nat (8 * bytes) ->
  CIDRMask ones (8 * bytes) = CIDRMask_loop bytes ones.
Proof.
  intros Hb Hr. unfold CIDRMask.
  replace ((ones <? 0) || (Z.of_nat (8 * bytes) <? ones)) with false.
  - destruct Hb as [-> | ->]; reflexivity.
  - symmetry. apply orb_false_iff. split; apply Z.ltb_ge; lia.
Qed.

Lemma ParseCIDR_mask (s : string) (n : IPNet) :
  ParseCIDR s = Some n ->
  exists ones bytes,
    (bytes = 4 \/ bytes = 16)%nat
    /\ 0 <= ones <= Z.of_nat (8 * bytes)
    /\ IPNet_Mask n = CIDRMask_loop bytes ones
    /\ length (IPNet_IP n) = bytes.
Proof.
  intros Hp. pose proof (ParseCIDR_shape _ _ Hp) as Hshape.
  unfold ParseCIDR in Hp.
  destruct (IndexByteString s "/") as [i|]; [|discriminate].
  cbv zeta in Hp.
  destruct (dtoi (string_drop (S i) s)) as [[m j] ok] eqn:Hd.
  assert (Hm0 : 0 <= m)
    by (apply (dtoi_loop_nonneg _ _ _ _ _ _ (Z.le_refl 0) Hd)).
  set (iplen := if is_nil (parseIPv4 (string_take i s))
                then IPv6len else IPv4len) in *.
  assert (Hlen : (iplen = 4 \/ iplen = 16)%nat)
    by (subst iplen; destruct (is_nil (parseIPv4 (string_take i s)));
        [right|left]; reflexivity).
  destruct (_ || _ || _ || (m <? 0) || (Z.of_nat (8 * iplen) <? m)) eqn:Hc;
    [discriminate|].
  apply orb_false_iff in Hc. destruct Hc as [_ Hc]. apply Z.ltb_ge in Hc.
  assert (HM : IPNet_Mask n = CIDRMask m (8 * iplen))
    by (inversion Hp; reflexivity).
  rewrite (CIDRMask_in_range m iplen Hlen) in HM by lia.
  exists m, iplen. split; [exact Hlen|]. split; [lia|]. split; [exact HM|].
  destruct Hshape as [[Hi Hk]|[Hi Hk]];
    rewrite HM, CIDRMask_loop_length in Hk; congruence.
Qed.

Lemma To4_mask16 (ones : Z) : To4 (CIDRMask_loop 16 ones) = [].
Proof.
  change (CIDRMask_loop 16 ones)
    with (if 8 <=? ones then 255 :: CIDRMask_loop 15 (ones - 8)
          else Z.lxor (Z.shiftr 255 ones) 255 :: CIDRMask_loop 15 0).
  destruct (8 <=? ones).
  - unfold To4. cbn [length]. rewrite CIDRMask_loop_length. reflexivity.
  - replace (CIDRMask_loop 15 0) with (repeat 0 15) by (vm_compute; reflexivity).
    unfold To4. cbn [length repeat Nat.eqb IPv4len IPv6len andb firstn nth].
    rewrite andb_false_r. reflexivity.
Qed.

Lemma GetBroadcastAddress_v6 (s : string) (n : IPNet) :
  ParseCIDR s = Some n -> length (IPNet_IP n) = 16%nat ->
  GetBroadcastAddress n = None.
Proof.
  intros Hp Hlen.
  destruct (ParseCIDR_mask _ _ Hp) as (ones & bytes & _ & _ & Hmask & Hb).
  rewrite Hlen in Hb. subst bytes.
  unfold GetBroadcastAddress. rewrite Hmask, To4_mask16.
  destruct (binary.BigEndian_Uint32 (To4 (IPNet_IP n))); reflexivity.
Qed.

(** X7: the allocation pool rule panics exactly when the alloc test has
    passed, [pool.end] is empty and [cidr] is an IPv6 CIDR: then
    [GetBroadcastAddress] reads the nil result of [To4()]. In every
    other case the rule returns nil or an error. *)
Theorem pool_rule_panics_iff (opType : Operation) (st : Store) :
  fst (validateAllocationPool opType st) = Panic <->
  alloc_check_passes opType st
  /\ End_ (newPool st) = ""
  /\ Cidr (newOptions st) <> ""
  /\ exists ipnet,
       ParseCIDR (Cidr (newOptions st)) = Some ipnet
       /\ length (IPNet_IP ipnet) = 16%nat
       /\ GetBroadcastAddress ipnet = None.
Proof.
  split.
  - intros Hpanic.
    destruct (alloc_check_dec opType st) as [Ha|Ha].
    2:{ rewrite (pool_rule_alloc _ _ Ha) in Hpanic. discriminate. }
    destruct (Cidr (newOptions st) =? "")%string eqn:Hc;
      [apply String.eqb_eq in Hc | apply String.eqb_neq in Hc].
    { rewrite (pool_rule_no_cidr _ _ Ha Hc) in Hpanic. discriminate. }
    destruct (ParseCIDR (Cidr (newOptions st))) as [ipnet|] eqn:Hp.
    2:{ rewrite (pool_rule_bad_cidr _ _ Ha Hc Hp) in Hpanic. discriminate. }
    rewrite (pool_rule_parsed _ _ ipnet Ha Hc Hp) in Hpanic.
    destruct (defaultStart_parsed _ _ (Start (newPool st)) Hp) as (s & Hs & _).
    rewrite Hs in Hpanic.
    destruct (defaultEnd ipnet (End_ (newPool st))) as [e|] eqn:He.
    { cbn [fst] in Hpanic.
      destruct (pool_checks_spec _ ipnet s e Hp) as (r & Hr & _).
      rewrite Hr in Hpanic. discriminate. }
    assert (Hend : End_ (newPool st) = "").
    { unfold defaultEnd in He.
      destruct (End_ (newPool st) =? "")%string eqn:E; [|discriminate].
      apply String.eqb_eq. exact E. }
    assert (H16 : length (IPNet_IP ipnet) = 16%nat).
    { destruct (ParseCIDR_shape _ _ Hp) as [H4|[H6 _]]; [|exact H6].
      destruct (defaultEnd_completes ipnet (End_ (newPool st)) (or_intror H4))
        as (e & He' & _). congruence. }
    repeat split; try assumption. exists ipnet.
    repeat split; try assumption.
    exact (GetBroadcastAddress_v6 _ _ Hp H16).
  - intros (Ha & Hend & Hc & ipnet & Hp & H16 & Hb).
    rewrite (pool_rule_parsed _ _ ipnet Ha Hc Hp).
    destruct (defaultStart_parsed _ _ (Start (newPool st)) Hp) as (s & Hs & _).
    rewrite Hs. unfold defaultEnd. rewrite Hend, Hb. reflexivity.
Qed.

(** X8: none of the IPv4/IPv6 field, VLAN/VXLAN, network identifier and
    allowed-tenants rules ever panics or touches a manifest; the
    tenant-restriction rule panics exactly on Update without a previous
    manifest, where it dereferences the nil pointer. *)
Theorem read_only_rules_panics (opType : Operation) (st : Store) :
  (forall v,
     In v [validateIpv4Fields; validateIpv6Fields; validateVids;
           validateNetworkId; validateAbsenceOfAllowedTenants] ->
     exists r, v opType st = (Ok r, st))
  /\ (fst (validateTenantNetRules opType st) = Panic <->
      opType = Update /\ oldManifest st = None).
Proof.
  split.
  - intros v Hv. cbn [In] in Hv.
    destruct Hv as [<-|[<-|[<-|[<-|[<-|[]]]]]].
    + eexists. exact (proj1 (ip_rules_value opType st)).
    + eexists. exact (proj2 (ip_rules_value opType st)).
    + eexists. apply vids_rule.
    + eexists. apply network_id_value.
    + eexists. apply allowed_tenants_value.
  - unfold validateTenantNetRules, bind, ret, getNew, getOld. cbv beta iota.
    destruct (opType =? Create)%string eqn:Hcr; cbn [andb];
      [apply String.eqb_eq in Hcr; subst opType;
       change (Create =? Update)%string with false;
       destruct (negb _ || negb _ || negb _);
       (split; [discriminate|intros [H _]; discriminate])|].
    destruct (opType =? Update)%string eqn:Hu;
      [apply String.eqb_eq in Hu | apply String.eqb_neq in Hu].
    + cbv beta iota. destruct (oldManifest st) as [old|]; cbv beta iota.
      * destruct (negb _ || negb _ || negb _);
          (split; [discriminate|intros [_ H]; discriminate]).
      * split; [intros _; split; [exact Hu|reflexivity]|reflexivity].
    + split; [discriminate|]. intros [H _]. contradiction.
Qed.

(** * The allowed-tenants rule *)

(** X9: the allowed-tenants rule fails with
    [AllowedTenantsNotPermittedError] exactly when [allowedTenants] is
    not nil, an empty list that is not nil included; so a manifest
    accepted as a namespace-scoped or tenant-scoped network has none,
    while the cluster-scoped list, which omits the rule, accepts a
    manifest that has. *)
Theorem allowed_tenants_rule (opType : Operation) (st : Store) :
  let tenants := AllowedTenants (Spec (newManifest st)) in
  (exists r,
     validateAbsenceOfAllowedTenants opType st = (Ok r, st)
     /\ (r = Some AllowedTenantsNotPermittedError <-> tenants <> None)
     /\ (r = None <-> tenants = None))
  /\ (accepted "DanmNet" opType st -> tenants = None)
  /\ (accepted "TenantNetwork" opType st -> tenants = None)
  /\ (exists m,
        AllowedTenants (Spec m) = Some ["tenant-a"]
        /\ accepted "ClusterNetwork" opType (mkStore None m)).
Proof.
  intros tenants. subst tenants.
  assert (Hacc : forall kind rules,
            danmValidationConfig kind = Some rules ->
            In validateAbsenceOfAllowedTenants rules ->
            accepted kind opType st ->
            AllowedTenants (Spec (newManifest st)) = None).
  { intros kind rules Hk Hin Ha.
    destruct (accepted_each _ _ _ Ha) as (rules' & Hk' & Hall & _).
    rewrite Hk in Hk'. inversion Hk'; subst rules'.
    specialize (Hall _ Hin). rewrite allowed_tenants_value in Hall.
    cbn [fst] in Hall.
    destruct (AllowedTenants (Spec (newManifest st))); [discriminate|].
    reflexivity. }
  split; [|split; [|split]].
  - rewrite allowed_tenants_value.
    destruct (AllowedTenants (Spec (newManifest st))) as [l|];
      eexists; (split; [reflexivity|]); split; split;
      try discriminate; try reflexivity; try congruence.
  - apply (Hacc "DanmNet" DanmNetMapping eq_refl).
    unfold DanmNetMapping. do 5 apply in_cons. apply in_eq.
  - apply (Hacc "TenantNetwork" TenantNetMapping eq_refl).
    unfold TenantNetMapping. do 4 apply in_cons. apply in_eq.
  - exists (mkDanmNet
              (mkDanmNetSpec "net"
                 (mkDanmNetOption "" "" "" None None (mkIpPool "" "") "" 0 0)
                 (Some ["tenant-a"]))).
    split; [reflexivity|].
    exists ClusterNetMapping. eexists. split; [reflexivity|].
    rewrite (run_registered "ClusterNetwork" _ opType _ eq_refl).
    unfold results_on, ClusterNetMapping. cbn [map].
    rewrite (proj1 (ip_rules_value _ _)), (proj2 (ip_rules_value _ _)).
    rewrite pool_rule_no_cidr; [|right; reflexivity|reflexivity].
    rewrite vids_rule, network_id_value. reflexivity.
Qed.

Lemma allowed_tenants_rule_witness :
  let st := mkStore None (manifest "net" "" "" "" "" None 0 0) in
  accepted "DanmNet" Update st
  /\ AllowedTenants (Spec (newManifest st)) = None.
Proof.
  intros st.
  assert (Hacc : accepted "DanmNet" Update st).
  { exists DanmNetMapping. eexists. split; [reflexivity|].
    vm_compute. reflexivity. }
  split; [exact Hacc|].
  exact (proj1 (proj2 (allowed_tenants_rule Update st)) Hacc).
Defined.

(** * The order in which the routes are visited *)

Lemma range_routes_error (ipnet : IPNet) (cidr : string)
  (entries : list (string * string)) (e : error) :
  range_routes ipnet cidr entries = Some e ->
  exists gw,
    In gw (map snd entries)
    /\ Contains ipnet (ParseIP gw) = false
    /\ e = GatewayOutsideCidrError gw cidr.
Proof.
  induction entries as [|[dst gw] rest IH]; cbn [range_routes map snd].
  - discriminate.
  - destruct (Contains ipnet (ParseIP gw)) eqn:Hgw; cbn [negb].
    + intros H. destruct (IH H) as (gw' & Hin & Hout & He).
      exists gw'. split; [right; exact Hin|]. auto.
    + intros H. inversion H. exists gw. split; [left; reflexivity|]. auto.
Qed.

(** X10: the order in which [range] visits the routes does not change
    the verdict of the IPv4/IPv6 field rule: two orders of the same
    entries both give nil or both give an error, and the two errors are
    the same or are both gateway-outside-CIDR errors for gateways of
    the mapping that lie outside the subnet. *)
Theorem routes_order_irrelevant (cidr : string)
  (entries entries' : list (string * string)) :
  Permutation entries entries' ->
  (validateIpFields cidr (Some entries) = None <->
   validateIpFields cidr (Some entries') = None)
  /\ (forall e e',
        validateIpFields cidr (Some entries) = Some e ->
        validateIpFields cidr (Some entries') = Some e' ->
        e = e'
        \/ exists ipnet gw gw',
             ParseCIDR cidr = Some ipnet
             /\ e = GatewayOutsideCidrError gw cidr
             /\ e' = GatewayOutsideCidrError gw' cidr
             /\ In gw (map snd entries) /\ In gw' (map snd entries)
             /\ Contains ipnet (ParseIP gw) = false
             /\ Contains ipnet (ParseIP gw') = false).
Proof.
  intros Hperm.
  assert (Hmap : Permutation (map snd entries) (map snd entries'))
    by (apply Permutation_map; exact Hperm).
  split.
  - rewrite !ip_fields_nil. unfold ip_fields_ok.
    split; intros [H1 H2]; (split; [intros Hc; specialize (H1 Hc); discriminate|]);
      intros Hc; destruct (H2 Hc) as (ipnet & Hp & Hall);
      exists ipnet; (split; [exact Hp|]); cbn [gateways] in *.
    + exact (Permutation_Forall Hmap Hall).
    + exact (Permutation_Forall (Permutation_sym Hmap) Hall).
  - intros e e'. unfold validateIpFields.
    destruct (cidr =? "")%string; [left; congruence|].
    destruct (ParseCIDR cidr) as [ipnet|]; [|left; congruence].
    intros H H'. right.
    destruct (range_routes_error _ _ _ _ H) as (gw & Hin & Hout & He).
    destruct (range_routes_error _ _ _ _ H') as (gw' & Hin' & Hout' & He').
    exists ipnet, gw, gw'. repeat split; try assumption.
    apply (Permutation_in _ (Permutation_sym Hmap)). exact Hin'.
Qed.

Lemma routes_order_irrelevant_witness :
  let a := ("10.1.0.0/16", "10.0.0.1") in
  let b := ("10.2.0.0/16", "10.0.0.2") in
  Permutation [a; b] [b; a]
  /\ validateIpFields "10.0.0.0/24" (Some [b; a]) = None.
Proof.
  intros a b.
  assert (Hp : Permutation [a; b] [b; a]) by apply perm_swap.
  split; [exact Hp|].
  apply (proj1 (proj1 (routes_order_irrelevant "10.0.0.0/24" _ _ Hp))).
  vm_compute. reflexivity.
Defined.

(** * Running the chain again *)

Lemma pool_rule_rerun (opType : Operation) (st : Store) :
  validateAllocationPool opType (snd (validateAllocationPool opType st))
  = validateAllocationPool opType st.
Proof.
  destruct (alloc_check_dec opType st) as [Ha|Ha].
  2:{ rewrite (pool_rule_alloc _ _ Ha). cbn [snd].
      apply (pool_rule_alloc _ _ Ha). }
  destruct (Cidr (newOptions st) =? "")%string eqn:Hc;
    [apply String.eqb_eq in Hc | apply String.eqb_neq in Hc].
  { rewrite (pool_rule_no_cidr _ _ Ha Hc). cbn [snd].
    apply (pool_rule_no_cidr _ _ Ha Hc). }
  destruct (ParseCIDR (Cidr (newOptions st))) as [ipnet|] eqn:Hp.
  2:{ rewrite (pool_rule_bad_cidr _ _ Ha Hc Hp). cbn [snd].
      apply (pool_rule_bad_cidr _ _ Ha Hc Hp). }
  rewrite (pool_rule_parsed _ _ ipnet Ha Hc Hp).
  destruct (defaultStart ipnet (Start (newPool st))) as [s|] eqn:Hs;
    [|cbn [snd]; rewrite (pool_rule_parsed _ _ ipnet Ha Hc Hp), Hs;
      reflexivity].
  destruct (defaultEnd ipnet (End_ (newPool st))) as [e|] eqn:He; cbn [snd].
  - rewrite (pool_rule_parsed _ (set_pool st s e) ipnet Ha Hc Hp).
    change (newPool (set_pool st s e)) with (mkIpPool s e). cbn [Start End_].
    rewrite (defaultStart_fixed _ _ _ Hs), (defaultEnd_fixed _ _ _ He).
    reflexivity.
  - rewrite (pool_rule_parsed _ (set_pool st s (End_ (newPool st))) ipnet
               Ha Hc Hp).
    change (newPool (set_pool st s (End_ (newPool st))))
      with (mkIpPool s (End_ (newPool st))). cbn [Start End_].
    rewrite (defaultStart_fixed _ _ _ Hs), He. reflexivity.
Qed.

Lemma results_on_around (before after : ValidatorMapping) (v : Validator)
  (opType : Operation) (st : Store) :
  results_on (before ++ v :: after) opType st
  = results_on before opType st
    ++ fst (v opType st) :: results_on after opType st.
Proof. unfold results_on. rewrite map_app. reflexivity. Qed.

(** X11: running the rule chain of a registered kind again, on the
    manifests its first run left behind, gives the same verdict and
    leaves the manifests as they are. *)
Theorem chain_idempotent (kind : string) (rules : ValidatorMapping)
  (opType : Operation) (st : Store) :
  danmValidationConfig kind = Some rules ->
  runValidators rules opType (snd (runValidators rules opType st))
  = runValidators rules opType st.
Proof.
  intros Hk.
  destruct (registered_split _ _ Hk) as (after & Hrules & Hafter & _).
  assert (Hframe : pool_frame st (snd (runValidators rules opType st))).
  { apply runValidators_frame, mapping_frames, (registered_rules _ _ Hk). }
  pose proof (run_registered _ _ opType st Hk) as HR.
  set (ip := [validateIpv4Fields; validateIpv6Fields]) in *.
  set (st2 := snd (runValidators rules opType st)) in *.
  assert (Hst2 : st2 = match first_result (results_on ip opType st) with
                       | Ok None => snd (validateAllocationPool opType st)
                       | _ => st
                       end)
    by (subst st2; rewrite HR; reflexivity).
  assert (Hip : results_on ip opType st2 = results_on ip opType st)
    by (apply results_on_frame; [apply ip_rules_read_only|exact Hframe]).
  assert (Haft : results_on after opType st2 = results_on after opType st)
    by (apply results_on_frame; assumption).
  assert (Hpool : validateAllocationPool opType st2
                  = validateAllocationPool opType st).
  { rewrite Hst2.
    destruct (first_result (results_on ip opType st)) as [[e|]|];
      [reflexivity|apply pool_rule_rerun|reflexivity]. }
  assert (Hall : results_on rules opType st2 = results_on rules opType st).
  { rewrite Hrules, !results_on_around.
    rewrite Hip, Haft, Hpool. reflexivity. }
  rewrite (run_registered _ _ opType st2 Hk), HR.
  fold ip. rewrite Hall, Hip, Hpool. f_equal.
  rewrite Hst2.
  destruct (first_result (results_on ip opType st)) as [[e|]|]; reflexivity.
Qed.

Lemma chain_idempotent_witness :
  let st := mkStore None (manifest "net" "10.0.0.0/24" "" "" "" None 0 0) in
  danmValidationConfig "DanmNet" = Some DanmNetMapping
  /\ runValidators DanmNetMapping Create
       (set_pool st "10.0.0.1" "10.0.0.254")
     = (Ok None, set_pool st "10.0.0.1" "10.0.0.254").
Proof.
  intros st. split; [reflexivity|].
  assert (H1 : runValidators DanmNetMapping Create st
               = (Ok None, set_pool st "10.0.0.1" "10.0.0.254"))
    by (vm_compute; reflexivity).
  pose proof (chain_idempotent "DanmNet" DanmNetMapping Create st eq_refl) as H.
  rewrite H1 in H. exact H.
Defined.

(** * IPv4 subnets as numbers *)

Lemma parseIPv4_loop_bytes (k : nat) : forall first s p s' p',
  Forall is_byte p ->
  parseIPv4_loop k first s p = Some (s', p') ->
  Forall is_byte p'.
Proof.
  induction k as [|k IH]; intros first s p s' p' Hp H.
  - cbn [parseIPv4_loop] in H. inversion H; subst. exact Hp.
  - cbn [parseIPv4_loop] in H.
    destruct (is_empty s); [discriminate|].
    destruct (negb first && negb (starts_with "." s)); [discriminate|].
    cbv zeta in H.
    destruct (dtoi (if first then s else string_drop 1 s)) as [[n c] ok] eqn:Hd.
    destruct (negb ok || (255 <? n)) eqn:Hok; [discriminate|].
    destruct ((1 <? c)%nat && _); [discriminate|].
    apply orb_false_iff in Hok. destruct Hok as [_ Hn]. apply Z.ltb_ge in Hn.
    refine (IH _ _ _ _ _ _ H).
    apply Forall_app. split; [exact Hp|]. constructor; [|constructor].
    split; [|lia].
    exact (dtoi_loop_nonneg _ _ _ _ _ _ (Z.le_refl 0) Hd).
Qed.

Lemma parseIPv4_bytes (s : string) :
  parseIPv4 s = []
  \/ exists a b c d,
       parseIPv4 s = IPv4 a b c d
       /\ is_byte a /\ is_byte b /\ is_byte c /\ is_byte d.
Proof.
  unfold parseIPv4.
  destruct (parseIPv4_loop 4 true s []) as [[r p]|] eqn:H; [|left; reflexivity].
  apply parseIPv4_loop_bytes in H; [|constructor].
  destruct r; [|left; reflexivity].
  destruct p as [|a [|b [|c [|d [|e p]]]]]; try (left; reflexivity).
  right. exists a, b, c, d. split; [reflexivity|].
  inversion H as [|? ? Ha H1]; subst. inversion H1 as [|? ? Hb H2]; subst.
  inversion H2 as [|? ? Hc H3]; subst. inversion H3 as [|? ? Hd _]; subst.
  auto.
Qed.

(** The four bytes of an IPv4 subnet's address are those of the parsed
    address, each masked. *)
Lemma ParseCIDR_v4_form (s : string) (n : IPNet) :
  ParseCIDR s = Some n -> length (IPNet_IP n) = 4%nat ->
  exists a b c d ones,
    is_byte a /\ is_byte b /\ is_byte c /\ is_byte d
    /\ 0 <= ones <= 32
    /\ IPNet_Mask n = CIDRMask_loop 4 ones
    /\ IPNet_IP n
       = map (fun xy => Z.land (fst xy) (snd xy))
           (combine [a; b; c; d] (CIDRMask_loop 4 ones)).
Proof.
  intros Hp Hlen.
  destruct (ParseCIDR_mask _ _ Hp) as (ones & bytes & _ & Hr & Hmask & Hb).
  rewrite Hlen in Hb. subst bytes. change (Z.of_nat (8 * 4)) with 32 in Hr.
  unfold ParseCIDR in Hp.
  destruct (IndexByteString s "/") as [i|]; [|discriminate].
  cbv zeta in Hp.
  destruct (dtoi (string_drop (S i) s)) as [[m j] ok].
  destruct (parseIPv4_bytes (string_take i s))
    as [H4|(a & b & c & d & H4 & Ha & Hb & Hc & Hd)]; rewrite H4 in Hp.
  - (* the IPv6 form has sixteen bytes *)
    exfalso. cbn [is_nil] in Hp.
    destruct (_ || _ || _ || (m <? 0) || (Z.of_nat (8 * IPv6len) <? m)) eqn:Hc;
      [discriminate|].
    apply orb_false_iff in Hc. destruct Hc as [Hc Hc5].
    apply orb_false_iff in Hc. destruct Hc as [Hc Hc4].
    apply Z.ltb_ge in Hc4, Hc5.
    assert (HM : IPNet_Mask n = CIDRMask m (8 * IPv6len))
      by (inversion Hp; reflexivity).
    change (8 * IPv6len)%nat with (8 * 16)%nat in HM, Hc5.
    rewrite (CIDRMask_in_range m 16 (or_intror eq_refl)) in HM
      by exact (conj Hc4 Hc5).
    rewrite Hmask in HM. apply (f_equal (@length Z)) in HM.
    rewrite !CIDRMask_loop_length in HM. discriminate.
  - exists a, b, c, d, ones.
    split; [exact Ha|]. split; [exact Hb|]. split; [exact Hc|].
    split; [exact Hd|]. split; [exact Hr|]. split; [exact Hmask|].
    change (is_nil (IPv4 a b c d)) with false in Hp. cbv iota in Hp.
    destruct (_ || _ || _ || (m <? 0) || (Z.of_nat (8 * IPv4len) <? m));
      [discriminate|].
    assert (HM : IPNet_Mask n = CIDRMask m (8 * IPv4len))
      by (inversion Hp; reflexivity).
    assert (HI : IPNet_IP n = Mask (IPv4 a b c d) (CIDRMask m (8 * IPv4len)))
      by (inversion Hp; reflexivity).
    rewrite <- HM, Hmask in HI. rewrite HI.
    assert (H4len : length (CIDRMask_loop 4 ones) = 4%nat)
      by apply CIDRMask_loop_length.
    destruct (CIDRMask_loop 4 ones) as [|m0 [|m1 [|m2 [|m3 [|m4 rest]]]]];
      try discriminate.
    reflexivity.
Qed.

Lemma land_land_255 (x y : Z) :
  Z.land (Z.land x 255) (Z.land y 255) = Z.land (Z.land x y) 255.
Proof.
  apply Z.bits_inj'. intros i Hi. rewrite !Z.land_spec.
  destruct (Z.testbit x i), (Z.testbit y i), (Z.testbit 255 i); reflexivity.
Qed.

Lemma be_bytes_land (x y : Z) :
  map (fun xy => Z.land (fst xy) (snd xy)) (combine (be_bytes x) (be_bytes y))
  = be_bytes (Z.land x y).
Proof.
  unfold be_bytes. cbn [combine map fst snd].
  rewrite !land_land_255, <- !Z.shiftr_land. reflexivity.
Qed.

Lemma prefix_cases (P : Z -> Prop) :
  (forall k : nat, (k <= 32)%nat -> P (Z.of_nat k)) ->
  forall ones, 0 <= ones <= 32 -> P ones.
Proof.
  intros H ones Hr. rewrite <- (Z2Nat.id ones) by lia. apply H. lia.
Qed.

(** The mask of prefix length [ones] as a number: [ones] one bits, then
    zero bits. *)
Lemma CIDRMask_value (ones : Z) :
  0 <= ones <= 32 ->
  CIDRMask_loop 4 ones = be_bytes (2 ^ 32 - 2 ^ (32 - ones))
  /\ Z.lxor (2 ^ 32 - 2 ^ (32 - ones)) (2 ^ 32 - 1) = Z.ones (32 - ones).
Proof.
  intros Hr. pattern ones. apply prefix_cases; [|exact Hr]. clear.
  intros k Hk.
  do 33 (destruct k as [|k]; [vm_compute; split; reflexivity|]).
  exfalso. lia.
Qed.

Lemma land_prefix_mask (x k : Z) :
  0 <= k <= 32 -> 0 <= x < 2 ^ 32 ->
  Z.land x (2 ^ 32 - 2 ^ k) = x - x mod 2 ^ k.
Proof.
  intros Hk Hx.
  assert (Hm : 2 ^ 32 - 2 ^ k = Z.shiftl (Z.ones (32 - k)) k).
  { rewrite Z.shiftl_mul_pow2, Z.ones_equiv by lia.
    unfold Z.pred. rewrite Z.mul_add_distr_r, <- Z.pow_add_r by lia.
    replace (32 - k + k) with 32 by lia. lia. }
  assert (Hd : x - x mod 2 ^ k = Z.shiftl (Z.shiftr x k) k).
  { rewrite Z.shiftl_mul_pow2, Z.shiftr_div_pow2 by lia.
    pose proof (Z.div_mod x (2 ^ k) ltac:(apply Z.pow_nonzero; lia)). lia. }
  rewrite Hm, Hd. apply Z.bits_inj'. intros i Hi.
  rewrite Z.land_spec.
  destruct (Z.ltb_spec i k) as [Hlt|Hge].
  - rewrite !Z.shiftl_spec_low by lia. apply andb_false_r.
  - rewrite !Z.shiftl_spec by lia. rewrite Z.shiftr_spec by lia.
    replace (i - k + k) with i by lia.
    rewrite Z.testbit_ones_nonneg by lia.
    destruct (Z.ltb_spec (i - k) (32 - k)) as [H32|H32].
    + apply andb_true_r.
    + rewrite andb_false_r.
      rewrite <- (Z.mod_small x (2 ^ 32)) by lia.
      rewrite Z.mod_pow2_bits_high by lia. reflexivity.
Qed.

Lemma lor_low_ones (x k : Z) :
  0 <= k -> x mod 2 ^ k = 0 -> Z.lor x (Z.ones k) = x + Z.ones k.
Proof.
  intros Hk Hx. pose proof (Z.add_lor_land x (Z.ones k)) as H.
  rewrite Z.land_ones in H by lia. lia.
Qed.

(** The bounds the pool rule defaults to, as numbers: [net] is the
    subnet's address, a multiple of [2^k] for [k] host bits. *)
Lemma default_bounds_numbers (ones a : Z) :
  0 <= ones <= 32 -> 0 <= a < 2 ^ 32 ->
  let k := 32 - ones in
  let net := a - a mod 2 ^ k in
  let first := (net + 1) mod 2 ^ 32 in
  let last := (net + Z.ones k - 1) mod 2 ^ 32 in
  0 <= net < 2 ^ 32
  /\ net mod 2 ^ k = 0
  /\ (ones <= 31 -> first - first mod 2 ^ k = net
                    /\ last - last mod 2 ^ k = net)
  /\ (ones <= 30 -> first < last)
  /\ (ones = 31 -> last <= first)
  /\ (ones = 32 -> first - first mod 2 ^ k <> net).
Proof.
  intros Hr Ha. revert Ha. pattern ones. apply prefix_cases; [|exact Hr].
  clear. intros n Hn Ha.
  do 33 (destruct n as [|n];
         [cbv zeta; rewrite Z.ones_equiv; unfold Z.pred;
          repeat match goal with
                 | |- context [2 ^ ?e] =>
                     let v := eval vm_compute in (2 ^ e) in
                     change (2 ^ e) with v
                 end;
          change (2 ^ 32) with 4294967296 in Ha;
          Z.div_mod_to_equations; lia|]).
  exfalso. lia.
Qed.

Lemma ParseIP_String_Int2ip (v : Z) :
  ParseIP (IP_String (ipam.Int2ip v)) = v4InV6Prefix ++ be_bytes v.
Proof.
  rewrite Int2ip_bytes. unfold be_bytes at 1.
  rewrite ParseIP_String_bytes by apply land_255_byte. reflexivity.
Qed.

Lemma Contains_v4_mapped (n0 n1 n2 n3 m0 m1 m2 m3 x0 x1 x2 x3 : Z) :
  Contains (mkIPNet [n0; n1; n2; n3] [m0; m1; m2; m3])
    (v4InV6Prefix ++ [x0; x1; x2; x3])
  = ((Z.land n0 m0 =? Z.land x0 m0)
     && ((Z.land n1 m1 =? Z.land x1 m1)
         && ((Z.land n2 m2 =? Z.land x2 m2)
             && ((Z.land n3 m3 =? Z.land x3 m3) && true)))).
Proof. reflexivity. Qed.

Lemma Contains_v4_plain (n0 n1 n2 n3 m0 m1 m2 m3 x0 x1 x2 x3 : Z) :
  Contains (mkIPNet [n0; n1; n2; n3] [m0; m1; m2; m3]) [x0; x1; x2; x3]
  = ((Z.land n0 m0 =? Z.land x0 m0)
     && ((Z.land n1 m1 =? Z.land x1 m1)
         && ((Z.land n2 m2 =? Z.land x2 m2)
             && ((Z.land n3 m3 =? Z.land x3 m3) && true)))).
Proof. reflexivity. Qed.

Lemma list4_eq {A : Type} (a b c d a' b' c' d' : A) :
  [a; b; c; d] = [a'; b'; c'; d'] -> a = a' /\ b = b' /\ c = c' /\ d = d'.
Proof. intros H. injection H. auto. Qed.

Lemma masked_bytes_eq (n m x : Z) :
  let eqb_at (s : Z) :=
    Z.land (Z.land (Z.shiftr n s) 255) (Z.land (Z.shiftr m s) 255)
    =? Z.land (Z.land (Z.shiftr x s) 255) (Z.land (Z.shiftr m s) 255) in
  (eqb_at 24 && (eqb_at 16 && (eqb_at 8 && (eqb_at 0 && true))) = true)
  <-> be_bytes (Z.land n m) = be_bytes (Z.land x m).
Proof.
  intros eqb_at. subst eqb_at. cbv beta.
  rewrite <- !be_bytes_land. unfold be_bytes. cbn [combine map fst snd].
  rewrite !Z.shiftr_0_r.
  rewrite !andb_true_iff, !Z.eqb_eq. split.
  - intros (H0 & H1 & H2 & H3 & _). rewrite H0, H1, H2, H3. reflexivity.
  - intros H. apply list4_eq in H. tauto.
Qed.

(** Containment of a 32-bit address in an IPv4 subnet, on numbers. *)
Lemma Contains_numbers (n m x : Z) (ip : IP) :
  ip = v4InV6Prefix ++ be_bytes x \/ ip = be_bytes x ->
  (Z.land n m = Z.land x m ->
   Contains (mkIPNet (be_bytes n) (be_bytes m)) ip = true)
  /\ (Z.land n m mod 2 ^ 32 <> Z.land x m mod 2 ^ 32 ->
      Contains (mkIPNet (be_bytes n) (be_bytes m)) ip = false).
Proof.
  intros Hip.
  assert (Hc : Contains (mkIPNet (be_bytes n) (be_bytes m)) ip = true
               <-> be_bytes (Z.land n m) = be_bytes (Z.land x m)).
  { rewrite <- masked_bytes_eq. cbv zeta beta.
    destruct Hip as [-> | ->]; unfold be_bytes;
      [rewrite Contains_v4_mapped|rewrite Contains_v4_plain];
      rewrite ?Z.shiftr_0_r; reflexivity. }
  split.
  - intros H. apply Hc. rewrite H. reflexivity.
  - intros H. apply not_true_is_false. intros Ht. apply Hc in Ht.
    apply (f_equal binary.BigEndian_Uint32) in Ht.
    rewrite !Uint32_be_bytes in Ht. apply H. congruence.
Qed.

(** An IPv4 subnet as ParseCIDR gives it, on numbers: the mask has
    [ones] leading one bits, and the address is a 32-bit number with
    its [32 - ones] host bits cleared. *)
Lemma v4net_numbers (s : string) (n : IPNet) :
  ParseCIDR s = Some n -> length (IPNet_IP n) = 4%nat ->
  exists a ones,
    0 <= a < 2 ^ 32 /\ 0 <= ones <= 32
    /\ IPNet_Mask n = CIDRMask_loop 4 ones
    /\ n = mkIPNet (be_bytes (a - a mod 2 ^ (32 - ones)))
                   (be_bytes (2 ^ 32 - 2 ^ (32 - ones))).
Proof.
  intros Hp Hlen.
  destruct (ParseCIDR_v4_form _ _ Hp Hlen)
    as (a & b & c & d & ones & Ha & Hb & Hc & Hd & Hr & Hmask & Hip).
  assert (Hrange : 0 <= be_value a b c d < 2 ^ 32)
    by (unfold is_byte, be_value in *; lia).
  exists (be_value a b c d), ones.
  split; [exact Hrange|]. split; [exact Hr|]. split; [exact Hmask|].
  destruct n as [ip mask]. cbn [IPNet_IP IPNet_Mask] in *.
  rewrite Hip, Hmask, (proj1 (CIDRMask_value ones Hr)).
  rewrite <- (be_bytes_value a b c d Ha Hb Hc Hd) at 1.
  rewrite be_bytes_land, land_prefix_mask by lia. reflexivity.
Qed.

Lemma defaults_numbers (net mask k : Z) :
  0 <= net < 2 ^ 32 -> 0 <= mask < 2 ^ 32 -> 0 <= k ->
  Z.lxor mask (2 ^ 32 - 1) = Z.ones k -> net mod 2 ^ k = 0 ->
  let ipnet := mkIPNet (be_bytes net) (be_bytes mask) in
  defaultStart ipnet "" = Some (IP_String (ipam.Int2ip ((net + 1) mod 2 ^ 32)))
  /\ GetBroadcastAddress ipnet = Some (ipam.Int2ip (net + Z.ones k))
  /\ defaultEnd ipnet ""
     = Some (IP_String (ipam.Int2ip ((net + Z.ones k - 1) mod 2 ^ 32))).
Proof.
  intros Hn Hm Hk Hx Hz ipnet.
  assert (Hv4 : is_v4net ipnet) by (split; reflexivity).
  destruct (GetBroadcastAddress_v4 _ Hv4) as (addr & mk & Ha & Hmk & Hi & Hb).
  subst ipnet. cbn [IPNet_IP IPNet_Mask] in *.
  rewrite Uint32_be_bytes in Ha, Hmk.
  rewrite Z.mod_small in Ha, Hmk by assumption.
  injection Ha as <-. injection Hmk as <-.
  rewrite Hx, (lor_low_ones net k Hk Hz) in Hb.
  unfold defaultStart, defaultEnd. cbn [String.eqb IPNet_IP].
  rewrite Hi, Hb, Ip2int_Int2ip. change uint32_mod with (2 ^ 32).
  rewrite Zminus_mod_idemp_l. repeat split.
Qed.

(** X12: with both pool bounds empty and the alloc test passed, an IPv4
    CIDR with a prefix of at most 30 bits passes the pool rule, one with
    31 bits fails with [PoolInvertedError] and one with 32 bits fails
    with [PoolOutsideCidrError]: the defaults are the first address
    after the network address and the last before the broadcast
    address. *)
Theorem default_pool_by_prefix (opType : Operation) (st : Store)
  (ipnet : IPNet) :
  alloc_check_passes opType st ->
  Cidr (newOptions st) <> "" ->
  ParseCIDR (Cidr (newOptions st)) = Some ipnet ->
  length (IPNet_IP ipnet) = 4%nat ->
  Start (newPool st) = "" -> End_ (newPool st) = "" ->
  exists ones s e,
    0 <= ones <= 32
    /\ IPNet_Mask ipnet = CIDRMask_loop 4 ones
    /\ validateAllocationPool opType st
       = (Ok (if ones <=? 30 then None
              else if ones =? 31 then Some (PoolInvertedError s e)
                   else Some PoolOutsideCidrError),
          set_pool st s e).
Proof.
  intros Ha Hc Hp Hlen Hs He.
  destruct (v4net_numbers _ _ Hp Hlen) as (a & ones & Hra & Hr & Hmask & Hnet).
  destruct (default_bounds_numbers ones a Hr Hra)
    as (Hnr & Hz & Hin & Hlt & H31 & H32).
  set (k := 32 - ones) in *. set (net := a - a mod 2 ^ k) in *.
  set (first := (net + 1) mod 2 ^ 32) in *.
  set (last := (net + Z.ones k - 1) mod 2 ^ 32) in *.
  assert (Hk : 0 <= k <= 32) by (subst k; lia).
  assert (Hmr : 0 <= 2 ^ 32 - 2 ^ k < 2 ^ 32).
  { pose proof (Z.pow_pos_nonneg 2 k ltac:(lia) ltac:(lia)).
    pose proof (Z.pow_le_mono_r 2 k 32 ltac:(lia) ltac:(lia)). lia. }
  assert (Hfr : 0 <= first < 2 ^ 32) by (apply Z.mod_pos_bound; lia).
  assert (Hlr : 0 <= last < 2 ^ 32) by (apply Z.mod_pos_bound; lia).
  destruct (defaults_numbers net (2 ^ 32 - 2 ^ k) k Hnr Hmr (proj1 Hk)
              (proj2 (CIDRMask_value ones Hr)) Hz) as (Hds & _ & Hde).
  fold first in Hds. fold last in Hde.
  exists ones, (IP_String (ipam.Int2ip first)), (IP_String (ipam.Int2ip last)).
  split; [exact Hr|]. split; [exact Hmask|].
  rewrite (pool_rule_parsed _ _ ipnet Ha Hc Hp), Hs, He, Hnet, Hds, Hde.
  f_equal. unfold pool_checks.
  rewrite !ParseIP_String_Int2ip.
  assert (Hnm : Z.land net (2 ^ 32 - 2 ^ k) = net).
  { rewrite land_prefix_mask by assumption. lia. }
  assert (Hip : forall x,
            ipam.Ip2int (v4InV6Prefix ++ be_bytes x) = Some (x mod 2 ^ 32)).
  { intros x. rewrite <- ParseIP_String_Int2ip. apply Ip2int_ParseIP_String. }
  rewrite !Hip, !Z.mod_small by assumption.
  destruct (Z.leb_spec ones 30) as [H30|H30].
  - destruct (Hin ltac:(lia)) as [Hf Hl].
    rewrite (proj1 (Contains_numbers net _ first _ (or_introl eq_refl)))
      by (rewrite Hnm, land_prefix_mask by assumption; lia).
    rewrite (proj1 (Contains_numbers net _ last _ (or_introl eq_refl)))
      by (rewrite Hnm, land_prefix_mask by assumption; lia).
    cbn [negb orb].
    replace (last <=? first) with false; [reflexivity|].
    symmetry. apply Z.leb_gt. apply Hlt. lia.
  - destruct (Z.eqb_spec ones 31) as [E31|E31].
    + destruct (Hin ltac:(lia)) as [Hf Hl].
      rewrite (proj1 (Contains_numbers net _ first _ (or_introl eq_refl)))
        by (rewrite Hnm, land_prefix_mask by assumption; lia).
      rewrite (proj1 (Contains_numbers net _ last _ (or_introl eq_refl)))
        by (rewrite Hnm, land_prefix_mask by assumption; lia).
      cbn [negb orb].
      replace (last <=? first) with true; [reflexivity|].
      symmetry. apply Z.leb_le. apply H31. exact E31.
    + rewrite (proj2 (Contains_numbers net _ first _ (or_introl eq_refl))).
      * reflexivity.
      * rewrite Hnm, land_prefix_mask by assumption.
        pose proof (Z.mod_pos_bound first (2 ^ k) ltac:(lia)).
        pose proof (Z.mod_le first (2 ^ k) ltac:(lia) ltac:(lia)).
        rewrite !Z.mod_small by lia.
        intros Heq. apply H32; [lia|]. symmetry. exact Heq.
Qed.

Lemma default_pool_by_prefix_witness :
  let st := mkStore None (manifest "net" "10.0.0.0/31" "" "" "" None 0 0) in
  let ipnet := mkIPNet [10; 0; 0; 0] [255; 255; 255; 254] in
  ParseCIDR (Cidr (newOptions st)) = Some ipnet
  /\ exists s e,
       validateAllocationPool Update st
       = (Ok (Some (PoolInvertedError s e)), set_pool st s e).
Proof.
  intros st ipnet.
  assert (Hp : ParseCIDR (Cidr (newOptions st)) = Some ipnet)
    by (vm_compute; reflexivity).
  split; [exact Hp|].
  assert (Ha : alloc_check_passes Update st) by (left; discriminate).
  assert (Hc : Cidr (newOptions st) <> "") by discriminate.
  destruct (default_pool_by_prefix Update st ipnet Ha Hc Hp
              eq_refl eq_refl eq_refl)
    as (ones & s & e & Hr & Hmask & Hrun).
  exists s, e. rewrite Hrun.
  assert (H31 : ones = 31).
  { cbn [IPNet_Mask ipnet] in Hmask.
    revert Hmask. pattern ones. apply prefix_cases; [|exact Hr].
    intros k Hk.
    do 33 (destruct k as [|k];
           [vm_compute; intros H;
            first [reflexivity | discriminate H]|]).
    exfalso; lia. }
  rewrite H31. reflexivity.
Defined.

Lemma aligned_block (x net k : Z) :
  0 <= k -> net mod 2 ^ k = 0 ->
  (x - x mod 2 ^ k = net <-> net <= x <= net + 2 ^ k - 1).
Proof.
  intros Hk Hz.
  assert (Hpos : 0 < 2 ^ k) by (apply Z.pow_pos_nonneg; lia).
  pose proof (Z.mod_pos_bound x (2 ^ k) Hpos) as Hb.
  split; [lia|]. intros Hr.
  assert (Hx : x = (x - net) + net / 2 ^ k * 2 ^ k).
  { pose proof (Z.div_mod net (2 ^ k) ltac:(lia)). lia. }
  assert (Hm : x mod 2 ^ k = x - net).
  { rewrite Hx at 1. rewrite Z.mod_add by lia. apply Z.mod_small. lia. }
  lia.
Qed.

(** X13: an IPv4 subnet contains exactly the 32-bit addresses from its
    network address to the address [GetBroadcastAddress] computes, which
    is the network address plus [2^(32 - ones) - 1] for a prefix of
    [ones] bits; [GetBroadcastAddress] does not panic on it. *)
Theorem broadcast_address (cidr : string) (ipnet : IPNet) :
  ParseCIDR cidr = Some ipnet ->
  length (IPNet_IP ipnet) = 4%nat ->
  exists net ones b,
    0 <= ones <= 32
    /\ IPNet_Mask ipnet = CIDRMask_loop 4 ones
    /\ ipam.Ip2int (IPNet_IP ipnet) = Some net
    /\ GetBroadcastAddress ipnet = Some b
    /\ ipam.Ip2int b = Some (net + 2 ^ (32 - ones) - 1)
    /\ 0 <= net /\ net + 2 ^ (32 - ones) - 1 < 2 ^ 32
    /\ forall x, 0 <= x < 2 ^ 32 ->
         (Contains ipnet (ipam.Int2ip x) = true
          <-> net <= x <= net + 2 ^ (32 - ones) - 1).
Proof.
  intros Hp Hlen.
  destruct (v4net_numbers _ _ Hp Hlen) as (a & ones & Hra & Hr & Hmask & Hnet).
  destruct (default_bounds_numbers ones a Hr Hra) as (Hnr & Hz & _).
  set (k := 32 - ones) in *. set (net := a - a mod 2 ^ k) in *.
  assert (Hk : 0 <= k <= 32) by (subst k; lia).
  assert (Hpos : 0 < 2 ^ k) by (apply Z.pow_pos_nonneg; lia).
  assert (Hmr : 0 <= 2 ^ 32 - 2 ^ k < 2 ^ 32).
  { pose proof (Z.pow_le_mono_r 2 k 32 ltac:(lia) ltac:(lia)). lia. }
  assert (Htop : net + 2 ^ k - 1 < 2 ^ 32).
  { assert (Hsplit : 2 ^ 32 = 2 ^ k * 2 ^ (32 - k))
      by (rewrite <- Z.pow_add_r by lia; f_equal; lia).
    pose proof (Z.div_mod a (2 ^ k) ltac:(lia)) as Hdm.
    assert (Hq : a / 2 ^ k < 2 ^ (32 - k))
      by (apply Z.div_lt_upper_bound; lia).
    subst net. nia. }
  destruct (defaults_numbers net (2 ^ 32 - 2 ^ k) k Hnr Hmr (proj1 Hk)
              (proj2 (CIDRMask_value ones Hr)) Hz) as (_ & Hb & _).
  exists net, ones, (ipam.Int2ip (net + Z.ones k)).
  split; [exact Hr|]. split; [exact Hmask|].
  rewrite Hnet. cbn [IPNet_IP].
  split.
  { change (ipam.Ip2int (be_bytes net))
      with (binary.BigEndian_Uint32 (be_bytes net)).
    rewrite Uint32_be_bytes, Z.mod_small by assumption. reflexivity. }
  split; [exact Hb|].
  rewrite Z.ones_equiv in *. unfold Z.pred in *.
  split.
  { rewrite Ip2int_Int2ip, Z.mod_small by lia. f_equal. fold k. lia. }
  split; [lia|]. fold k. split; [exact Htop|].
  intros x Hx. change (ipam.Int2ip x) with (be_bytes x).
  rewrite <- (aligned_block x net k (proj1 Hk) Hz).
  rewrite <- (land_prefix_mask x k Hk Hx).
  assert (Hnm : Z.land net (2 ^ 32 - 2 ^ k) = net).
  { rewrite land_prefix_mask by assumption. lia. }
  destruct (Contains_numbers net (2 ^ 32 - 2 ^ k) x (be_bytes x)
              (or_intror eq_refl)) as [Ht Hf].
  rewrite Hnm in Ht, Hf. split.
  - intros Hc. destruct (Z.eq_dec (Z.land x (2 ^ 32 - 2 ^ k)) net) as [E|E];
      [exact E|].
    rewrite Hf in Hc; [discriminate|].
    rewrite land_prefix_mask in * by assumption.
    pose proof (Z.mod_pos_bound x (2 ^ k) Hpos).
    pose proof (Z.mod_le x (2 ^ k) ltac:(lia) Hpos).
    rewrite !Z.mod_small by lia. congruence.
  - intros E. apply Ht. symmetry. exact E.
Qed.

Lemma broadcast_address_witness :
  let ipnet := mkIPNet [10; 0; 0; 0] [255; 255; 255; 0] in
  ParseCIDR "10.0.0.0/24" = Some ipnet
  /\ GetBroadcastAddress ipnet = Some [10; 0; 0; 255]
  /\ exists net ones b,
       ipam.Ip2int (IPNet_IP ipnet) = Some net
       /\ GetBroadcastAddress ipnet = Some b
       /\ ipam.Ip2int b = Some (net + 2 ^ (32 - ones) - 1).
Proof.
  intros ipnet.
  assert (Hp : ParseCIDR "10.0.0.0/24" = Some ipnet)
    by (vm_compute; reflexivity).
  split; [exact Hp|]. split; [vm_compute; reflexivity|].
  destruct (broadcast_address "10.0.0.0/24" ipnet Hp eq_refl)
    as (net & ones & b & _ & _ & Hn & Hb & Hv & _).
  exists net, ones, b. repeat split; assumption.
Defined.
